(** * Node templates of the Azure provider and enum validation of the OCI SDK

    A shallow embedding of

    - [azure_template.go] (package [azure]): taint parsing, the node
      template read from a scale set, and the synthetic node built from a
      template;
    - [list_app_catalog_listing_resource_versions_request_response.go] and
      [block_volume_replica.go] (package [core] of the vendored OCI SDK):
      enum mappings and request validation.

    Go strings are byte strings: [string] with one [ascii] per byte. *)

From Stdlib Require Import ZArith Lia Ascii String List DecimalString.
From stdpp Require Import base decidable option list gmap strings sorting.

Local Open Scope Z_scope.

(** ** The parts of Go's [strings], [regexp] and [fmt] packages the code uses *)

Module GoStrings.

(** [strings.HasPrefix(s, prefix)] *)
Definition HasPrefix (s prefix : string) : bool := String.prefix prefix s.

(** [strings.Contains(s, substr)] *)
Fixpoint Contains (s substr : string) : bool :=
  HasPrefix s substr ||
  match s with
  | EmptyString => false
  | String _ s' => Contains s' substr
  end.

(** One cut of [strings.Split] for a non-empty separator. [skip] counts the
    bytes of a separator found earlier that are still to be passed over. *)
Fixpoint split_go (sep : string) (skip : nat) (s : string) : list string :=
  match s with
  | EmptyString => [""]
  | String c s' =>
      match skip with
      | S k => split_go sep k s'
      | O =>
          if HasPrefix s sep
          then "" :: split_go sep (String.length sep - 1) s'
          else match split_go sep 0 s' with
               | h :: t => String c h :: t
               | [] => [String c ""]
               end
      end
  end.

(** With an empty separator Go cuts after every UTF-8 sequence; here after
    every byte. *)
Fixpoint explode (s : string) : list string :=
  match s with
  | EmptyString => []
  | String c s' => String c "" :: explode s'
  end.

(** [strings.Split(s, sep)] *)
Definition Split (s sep : string) : list string :=
  match sep with
  | EmptyString => explode s
  | _ => split_go sep 0 s
  end.

(** [strings.SplitN(s, sep, n)] for [n >= 0] and a non-empty separator: at
    most [n] pieces, the last one the unsplit rest. *)
Fixpoint splitN_go (sep : string) (skip : nat) (n : nat) (s : string)
  : list string :=
  match s with
  | EmptyString => [""]
  | String c s' =>
      match skip with
      | S k => splitN_go sep k n s'
      | O =>
          match n with
          | O | S O => [s]
          | S n' =>
              if HasPrefix s sep
              then "" :: splitN_go sep (String.length sep - 1) n' s'
              else match splitN_go sep 0 n s' with
                   | h :: t => String c h :: t
                   | [] => [String c ""]
                   end
          end
      end
  end.

Definition SplitN (s sep : string) (n : nat) : list string :=
  match n with
  | O => []
  | _ => splitN_go sep 0 n s
  end.

(** [strings.Join(elems, sep)] *)
Fixpoint Join (elems : list string) (sep : string) : string :=
  match elems with
  | [] => ""
  | [e] => e
  | e :: rest => e +:+ sep +:+ Join rest sep
  end.

(** [strings.Replace(s, old, new, -1)] for a non-empty [old]: every
    non-overlapping occurrence, from the left. *)
Definition ReplaceAll (s old new : string) : string :=
  Join (Split s old) new.

Definition lowerByte (c : ascii) : ascii :=
  let n := nat_of_ascii c in
  if (65 <=? n)%nat && (n <=? 90)%nat then ascii_of_nat (n + 32) else c.

(** [strings.ToLower(s)] as far as ASCII goes: the letters [A-Z] to [a-z],
    every other byte as it is. This is what Go does on a string of ASCII
    bytes; on a string with a byte above ASCII it maps runes by the tables
    of package [unicode], for which see [Unicode.ToLower] below. *)
Fixpoint ToLower (s : string) : string :=
  match s with
  | EmptyString => EmptyString
  | String c s' => String (lowerByte c) (ToLower s')
  end.

(** No byte of [s] is [c]. *)
Fixpoint freeOf (c : ascii) (s : string) : bool :=
  match s with
  | EmptyString => true
  | String a s' => negb (Ascii.eqb c a) && freeOf c s'
  end.

(** [fmt.Sprintf("%d", z)] *)
Definition FormatInt (z : Z) : string := NilEmpty.string_of_int (Z.to_int z).

End GoStrings.

Import GoStrings.

(** ** [strings.ToLower] on every string *)

Module Unicode.

(** [strings.ToLower] itself. On a string with a byte above ASCII, Go
    decodes runes and maps each one by the case tables of package
    [unicode] ([U+0130] to [i], [U+212A] to [k], [U+00C9] to [U+00E9], an
    invalid byte to [U+FFFD]); these tables are not among the sources, so
    the function is left open, and what a statement needs of it is named
    there. *)
Class Lowering := { ToLower : string -> string }.

(** [c < utf8.RuneSelf] for every byte [c] of [s]. *)
Definition isASCII (s : string) : bool :=
  forallb (fun c => (nat_of_ascii c <? 128)%nat) (list_ascii_of_string s).

Section Laws.

Context `{Lowering}.

(** The path of [strings.ToLower] for a string of ASCII bytes only: the
    letters [A-Z] to [a-z], every other byte as it is. *)
Definition lowersASCII : Prop :=
  forall s, isASCII s = true -> ToLower s = GoStrings.ToLower s.

(** Lowering a lowered string changes nothing. *)
Definition idempotent : Prop :=
  forall s, ToLower (ToLower s) = ToLower s.

End Laws.

(** [U+0130], the capital I with a dot above, in UTF-8. *)
Definition dottedI : string :=
  String (ascii_of_nat 196) (String (ascii_of_nat 176) "").

(** A lowering to try the statements on. It does one of the things Go does
    above ASCII, [U+0130] to [i], and leaves every other byte above ASCII
    as it is. *)
Fixpoint lowerDotted (s : string) : string :=
  match s with
  | EmptyString => EmptyString
  | String a t =>
      match t with
      | String b s' =>
          if Ascii.eqb a (ascii_of_nat 196) && Ascii.eqb b (ascii_of_nat 176)
          then String "i" (lowerDotted s')
          else String (lowerByte a) (lowerDotted t)
      | EmptyString => String (lowerByte a) EmptyString
      end
  end.

Definition dotted : Lowering := {| ToLower := lowerDotted |}.

End Unicode.

(** ** The Go run time the template code relies on *)

Module GoRuntime.

(** A call either returns or stops with a run-time panic (a nil pointer
    dereference, an assignment to an entry of a nil map, [rand.Intn] on a
    non-positive bound). *)
Inductive outcome (A : Type) : Type :=
| Returned (a : A)
| Panicked.
#[global] Arguments Returned {A} a.
#[global] Arguments Panicked {A}.

Definition bindO {A B} (m : outcome A) (k : A -> outcome B) : outcome B :=
  match m with
  | Returned a => k a
  | Panicked => Panicked
  end.

(** [*p] *)
Definition deref {A} (p : option A) : outcome A :=
  match p with
  | Some a => Returned a
  | None => Panicked
  end.

(** [for _, x := range l { s = body(s, x) }] with a body that may panic. *)
Fixpoint rangeO {A S} (body : S -> A -> outcome S) (l : list A) (s : S)
  : outcome S :=
  match l with
  | [] => Returned s
  | x :: rest => bindO (body s x) (rangeO body rest)
  end.

(** [int64] and, on the 64-bit targets the Makefile builds for
    (amd64, arm64, s390x), [int]: results wrap around. *)
Definition wrap64 (z : Z) : Z := (z + 2 ^ 63) mod 2 ^ 64 - 2 ^ 63.
Definition mul64 (a b : Z) : Z := wrap64 (a * b).
Definition inInt64 (z : Z) : Prop := - 2 ^ 63 <= z < 2 ^ 63.
Definition inInt32 (z : Z) : Prop := - 2 ^ 31 <= z < 2 ^ 31.

(** The shared source of [math/rand]: the values it is going to hand out
    and how many it has handed out. *)
Record RandSource := mkRand {
  draws : nat -> Z;
  cursor : nat
}.

Definition advance (r : RandSource) : RandSource :=
  mkRand (draws r) (S (cursor r)).

(** The order in which [range] visits the keys of a map is open, and may
    change from one loop to the next. The run time's choice is taken from
    the world: in its loop number [turn], the keys are visited by increasing
    [rank]. Every order is the choice of some ranks
    ([visit_any_order]). *)
Record RangeOrder := mkOrder {
  rank : nat -> string -> nat;
  turn : nat
}.

Definition nextTurn (o : RangeOrder) : RangeOrder :=
  mkOrder (rank o) (S (turn o)).

Definition visitedBefore {X} (o : RangeOrder) (x y : string * X) : Prop :=
  (rank o (turn o) x.1 <= rank o (turn o) y.1)%nat.

#[global] Instance visitedBefore_dec {X} (o : RangeOrder)
  : RelDecision (@visitedBefore X o).
Proof. intros x y. unfold visitedBefore. apply _. Defined.

Definition visit {X} (o : RangeOrder) (m : gmap string X)
  : list (string * X) :=
  merge_sort (visitedBefore o) (map_to_list m).

(** The ranks by which the keys are visited in the order of the list [l],
    in every loop. *)
Fixpoint position (l : list string) (k : string) : nat :=
  match l with
  | [] => 0
  | k' :: rest => if String.eqb k' k then 0 else S (position rest k)
  end.

Definition inOrderOf (l : list string) (t : nat) : RangeOrder :=
  mkOrder (fun _ => position l) t.

(** Maps are references: a [ResourceList] value is the address of a map in
    the heap, [None] the nil map. *)
Definition addr := nat.

Record World (V : Type) := mkWorld {
  rand : RandSource;
  order : RangeOrder;
  heap : list (gmap string V)
}.
#[global] Arguments mkWorld {V} rand order heap.
#[global] Arguments rand {V} w.
#[global] Arguments order {V} w.
#[global] Arguments heap {V} w.

(** Code that reads and advances the random source, allocates and updates
    maps, and may panic. *)
Definition M (V A : Type) : Type := World V -> outcome (A * World V).

Definition ret {V A} (a : A) : M V A := fun w => Returned (a, w).
Definition bind {V A B} (m : M V A) (k : A -> M V B) : M V B :=
  fun w => match m w with
           | Returned (a, w') => k a w'
           | Panicked => Panicked
           end.
Definition lift {V A} (o : outcome A) : M V A :=
  fun w => match o with
           | Returned a => Returned (a, w)
           | Panicked => Panicked
           end.

(** [rand.Int63()] *)
Definition Int63 {V} : M V Z :=
  fun w => Returned (draws (rand w) (cursor (rand w)) mod 2 ^ 63,
                     mkWorld (advance (rand w)) (order w) (heap w)).

(** [rand.Intn(n)] *)
Definition Intn {V} (n : Z) : M V Z :=
  fun w => if n <=? 0 then Panicked
           else Returned (draws (rand w) (cursor (rand w)) mod n,
                          mkWorld (advance (rand w)) (order w) (heap w)).

(** A map literal or [make(map...)]: a fresh, empty map. *)
Definition newMap {V} : M V (option addr) :=
  fun w => Returned (Some (length (heap w)),
                     mkWorld (rand w) (order w) (heap w ++ [∅])).

(** [m[k] = v] *)
Definition mapAssign {V} (m : option addr) (k : string) (v : V) : M V unit :=
  fun w => match m with
           | None => Panicked
           | Some a =>
               match heap w !! a with
               | None => Panicked
               | Some entries =>
                   Returned (tt, mkWorld (rand w) (order w)
                                   (<[a := <[k := v]> entries]> (heap w)))
               end
           end.

(** The entries of the map a reference points to, as a reader sees them
    ([m[k]], [range m]); a nil map reads as an empty one. *)
Definition entries {V} (w : World V) (m : option addr) : gmap string V :=
  match m with
  | None => ∅
  | Some a => default ∅ (heap w !! a)
  end.

(** [for _, x := range l { body(x) }] for a body with effects. *)
Fixpoint forEach {V A} (body : A -> M V unit) (l : list A) : M V unit :=
  match l with
  | [] => ret tt
  | x :: rest => bind (body x) (fun _ => forEach body rest)
  end.

(** An [error] made by [fmt.Errorf(format, args...)], or handed over by a
    function outside this file. *)
Inductive error :=
| Errorf (format : string) (args : list string).

(** [for k, v := range m { s = body(s, k, v) }] over a map, with a body
    that may panic: one loop in the order the world gives. *)
Definition rangeMap {V X S} (m : gmap string X)
    (body : S -> string * X -> outcome S) (s : S) : M V S :=
  fun w => match rangeO body (visit (order w) m) s with
           | Returned s' =>
               Returned (s', mkWorld (rand w) (nextTurn (order w)) (heap w))
           | Panicked => Panicked
           end.

(** [for k, v := range m { body(k, v) }] over a map, for a body with
    effects. *)
Definition rangeMapM {V X} (m : gmap string X)
    (body : string * X -> M V unit) : M V unit :=
  fun w => forEach body (visit (order w) m)
             (mkWorld (rand w) (nextTurn (order w)) (heap w)).

End GoRuntime.

Import GoRuntime.

Declare Scope go_scope.
Delimit Scope go_scope with go.
Notation "'let*' x ':=' m 'in' k" := (bind m (fun x => k))
  (at level 10, x name, m at level 100, k at level 200) : go_scope.
Notation "'let*' ' p ':=' m 'in' k" :=
  (bind m (fun x => match x with p => k end))
  (at level 10, p pattern, m at level 100, k at level 200) : go_scope.
Notation "'let?' x ':=' o 'in' k" := (bindO o (fun x => k))
  (at level 10, x name, o at level 100, k at level 200) : go_scope.
Notation "m ';;' k" := (bind m (fun _ => k))
  (at level 100, k at level 200, right associativity) : go_scope.

(** ** The Kubernetes API types the template code fills in *)

Module V1.

(** [resource.Format] *)
Inductive Format := DecimalExponent | BinarySI | DecimalSI.

(** [resource.Quantity] in its [int64Amount] form: [value * 10^scale]. *)
Record Quantity := mkQuantity {
  value : Z;
  scale : Z;
  format : Format
}.

(** [resource.NewQuantity(value, format)] *)
Definition NewQuantity (v : Z) (f : Format) : Quantity := mkQuantity v 0 f.

(** [apiv1.ResourceList]: a reference to a map from resource names to
    quantities. *)
Definition ResourceList := option addr.

Definition ResourcePods : string := "pods".
Definition ResourceCPU : string := "cpu".
Definition ResourceMemory : string := "memory".
Definition ResourceEphemeralStorage : string := "ephemeral-storage".

Definition LabelArch : string := "beta.kubernetes.io/arch".
Definition LabelOS : string := "beta.kubernetes.io/os".
Definition LabelArchStable : string := "kubernetes.io/arch".
Definition LabelOSStable : string := "kubernetes.io/os".
Definition LabelHostname : string := "kubernetes.io/hostname".
Definition LabelInstanceType : string := "beta.kubernetes.io/instance-type".
Definition LabelInstanceTypeStable : string :=
  "node.kubernetes.io/instance-type".
Definition LabelZoneRegion : string :=
  "failure-domain.beta.kubernetes.io/region".
Definition LabelTopologyRegion : string := "topology.kubernetes.io/region".
Definition LabelZoneFailureDomain : string :=
  "failure-domain.beta.kubernetes.io/zone".
Definition LabelTopologyZone : string := "topology.kubernetes.io/zone".

(** [apiv1.Taint], the three fields the template code fills in. *)
Record Taint := mkTaint {
  Key : string;
  Value : string;
  Effect : string
}.

Definition zeroTaint : Taint := mkTaint "" "" "".

(** [apiv1.NodeCondition] without its time stamps. *)
Record NodeCondition := mkNodeCondition {
  Type_ : string;
  Status_ : string
}.

Record ObjectMeta := mkObjectMeta {
  Name : string;
  SelfLink : string;
  Labels : gmap string string
}.

Record NodeSpec := mkNodeSpec {
  Taints : list Taint
}.

Record NodeStatus := mkNodeStatus {
  Capacity : ResourceList;
  Allocatable : ResourceList;
  Conditions : list NodeCondition
}.

Record Node := mkNode {
  Meta : ObjectMeta;
  Spec : NodeSpec;
  Status : NodeStatus
}.

(** Field updates [node.Labels = l], [node.Spec.Taints = t],
    [node.Status.Allocatable = r], [node.Status.Conditions = c]. *)
Definition withLabels (node : Node) (l : gmap string string) : Node :=
  mkNode (mkObjectMeta (Name (Meta node)) (SelfLink (Meta node)) l)
         (Spec node) (Status node).
Definition withTaints (node : Node) (t : list Taint) : Node :=
  mkNode (Meta node) (mkNodeSpec t) (Status node).
Definition withAllocatable (node : Node) (r : ResourceList) : Node :=
  mkNode (Meta node) (Spec node)
         (mkNodeStatus (Capacity (Status node)) r
                       (Conditions (Status node))).
Definition withConditions (node : Node) (c : list NodeCondition) : Node :=
  mkNode (Meta node) (Spec node)
         (mkNodeStatus (Capacity (Status node)) (Allocatable (Status node))
                       c).

End V1.

(** ** The Azure SDK types the template code reads *)

Module Compute.

Record Sku := mkSku { Name : option string }.

Record VirtualMachineScaleSetManagedDiskParameters := mkManagedDisk {
  StorageAccountType : string
}.

(** [compute.Local] of [DiffDiskOptions] *)
Definition Local : string := "Local".

Record DiffDiskSettings := mkDiffDiskSettings { Option : string }.

Record VirtualMachineScaleSetOSDisk := mkOSDisk {
  DiffDiskSettings_ : option DiffDiskSettings;
  DiskSizeGB : option Z;
  ManagedDisk : option VirtualMachineScaleSetManagedDiskParameters
}.

Record VirtualMachineScaleSetOSProfile := mkOSProfile {
  WindowsConfiguration : option unit
}.

Record VirtualMachineScaleSetStorageProfile := mkStorageProfile {
  OsDisk : option VirtualMachineScaleSetOSDisk
}.

Record VirtualMachineScaleSetVMProfile := mkVMProfile {
  OsProfile : option VirtualMachineScaleSetOSProfile;
  StorageProfile : option VirtualMachineScaleSetStorageProfile
}.

Record VirtualMachineScaleSet := mkVMSS {
  Sku_ : option Sku;
  VMSSName : option string;
  Location : option string;
  Zones : option (list string);
  Tags : gmap string (option string);
  VirtualMachineProfile : option VirtualMachineScaleSetVMProfile
}.

End Compute.

(** ** [azure_template.go] *)

Module Azure.

Local Open Scope go_scope.

Definition AKSLabelPrefixValue : string := "kubernetes.azure.com".
Definition AKSLabelKeyPrefixValue : string := AKSLabelPrefixValue +:+ "/".
Definition azureDiskTopologyKey : string :=
  "topology.disk.csi.azure.com/zone".
Definition xilinxFpgaResourceName : string :=
  "xilinx.com/fpga-xilinx_u250_gen3x16_xdma_shell_2_1-0".
Definition legacyPoolNameTag : string := "poolName".
Definition poolNameTag : string := "aks-managed-poolName".
Definition legacyAgentPoolNodeLabelKey : string := "agentpool".
Definition agentPoolNodeLabelKey : string :=
  AKSLabelKeyPrefixValue +:+ "agentpool".
Definition legacyStorageProfileNodeLabelKey : string := "storageprofile".
Definition storageProfileNodeLabelKey : string :=
  AKSLabelKeyPrefixValue +:+ "storageprofile".
Definition legacyStorageTierNodeLabelKey : string := "storagetier".
Definition storageTierNodeLabelKey : string :=
  AKSLabelKeyPrefixValue +:+ "storagetier".

Record VMPoolNodeTemplate := mkVMPoolNodeTemplate {
  AgentPoolName : string;
  Taints : list V1.Taint;
  Labels : gmap string (option string);
  OSDiskType : option string
}.

Record VMSSNodeTemplate := mkVMSSNodeTemplate {
  InputLabels : gmap string string;
  InputTaints : string;
  Tags : gmap string (option string);
  OSDisk : option Compute.VirtualMachineScaleSetOSDisk
}.

(** The two pointer fields carry a prime: their names are those of the
    record types. *)
Record NodeTemplate := mkNodeTemplate {
  SkuName : string;
  InstanceOS : string;
  Location : string;
  Zones : list string;
  VMPoolNodeTemplate' : option VMPoolNodeTemplate;
  VMSSNodeTemplate' : option VMSSNodeTemplate
}.

(** [NodeTemplate{}] *)
Definition zeroNodeTemplate : NodeTemplate :=
  mkNodeTemplate "" "" "" [] None None.

(** [InstanceType] of the instance-type tables: the fields read here, all
    [int64]. *)
Record InstanceType := mkInstanceType {
  VCPU : Z;
  GPU : Z;
  MemoryMb : Z
}.

(** What the file uses and other files of the repository or its libraries
    declare: tag-name and label constants, the instance-type lookups, and
    helpers of [cloudprovider], [gpu] and [resource]. *)
Class Externals := {
  AzureCache : Type;
  nodeLabelTagName : string;
  nodeTaintTagName : string;
  nodeResourcesTagName : string;
  GPULabel : string;
  legacyGPULabel : string;
  DefaultArch : string;
  DefaultOS : string;
  ResourceNvidiaGPU : string;
  GetInstanceTypeStatically : NodeTemplate -> InstanceType + error;
  GetInstanceTypeDynamically :
    NodeTemplate -> AzureCache -> InstanceType + error;
  isNvidiaEnabledSKU : string -> bool;
  JoinStringMaps :
    gmap string string -> gmap string string -> gmap string string;
  BuildReadyConditions : list V1.NodeCondition;
  ParseQuantity : string -> V1.Quantity + error
}.

(** [to.String(p)] *)
Definition toString (p : option string) : string := default "" p.

(** [m[k]] on a [map[string]string] *)
Definition at_ (m : gmap string string) (k : string) : string :=
  default "" (m !! k).

(** [values[i]] on a slice of strings. The callers index in range: behind a
    test of the length, or on the two pieces of a value that the taint
    pattern matches ([taintRegexpMatchString_two_values]). *)
Definition index (values : list string) (i : nat) : string :=
  nth i values "".

(** The pattern given to [regexp.Compile] in [constructTaintFromString] and
    [extractTaintsFromTags]. *)
Definition taintPattern : string :=
  "(.*):(?:NoSchedule|NoExecute|PreferNoSchedule)".

(** [MatchString] of the compiled [taintPattern]. The pattern is not
    anchored and its group matches the empty string, so it matches exactly
    the strings that contain a colon directly followed by one of the three
    words. *)
Definition taintRegexpMatchString (s : string) : bool :=
  Contains s ":NoSchedule" || Contains s ":NoExecute"
  || Contains s ":PreferNoSchedule".

Definition constructTaintFromString (taintString : string)
  : bool * V1.Taint :=
  let taintSplit := Split taintString "=" in
  if negb (Nat.eqb (length taintSplit) 2) then (false, V1.zeroTaint)
  else
    let taintKey := index taintSplit 0 in
    let taintValue := index taintSplit 1 in
    if negb (taintRegexpMatchString taintValue) then (false, V1.zeroTaint)
    else
      let values := SplitN taintValue ":" 2 in
      (true, {| V1.Key := taintKey;
                V1.Value := index values 0;
                V1.Effect := index values 1 |}).

(** The loop of [extractTaintsFromSpecString]: [dedupMap] holds the
    segments seen so far, [taints] the slice built so far. *)
Fixpoint specStringLoop (splits : list string) (dedupMap : gset string)
    (taints : list V1.Taint) : list V1.Taint :=
  match splits with
  | [] => taints
  | split :: rest =>
      if decide (split ∈ dedupMap) then specStringLoop rest dedupMap taints
      else
        let dedupMap' := {[ split ]} ∪ dedupMap in
        let '(valid, taint) := constructTaintFromString split in
        specStringLoop rest dedupMap'
          (if valid then taints ++ [taint] else taints)
  end.

Definition extractTaintsFromSpecString (taintsString : string)
  : list V1.Taint :=
  specStringLoop (Split taintsString ",") ∅ [].

Fixpoint buildNodeTaintsForVMPool (taintStrs : list string)
  : list V1.Taint :=
  match taintStrs with
  | [] => []
  | taintStr :: rest =>
      let '(valid, taint) := constructTaintFromString taintStr in
      if valid then taint :: buildNodeTaintsForVMPool rest
      else buildNodeTaintsForVMPool rest
  end.

(** [isNPSeries] *)
Definition isNPSeries (name : string) : bool :=
  HasPrefix (ToLower name) "standard_np".

(** The segments of a list with every repetition of an earlier segment
    left out: what the statement about repeated entries compares with. *)
Fixpoint keepFirst (seen : gset string) (l : list string) : list string :=
  match l with
  | [] => []
  | x :: rest =>
      if decide (x ∈ seen) then keepFirst seen rest
      else x :: keepFirst ({[ x ]} ∪ seen) rest
  end.

Section WithExternals.

Context `{Externals}.

Abbreviation Go := (M V1.Quantity).

Record AzureManager := mkAzureManager { azureCache : AzureCache }.

Definition buildNodeTemplateFromVMSS (vmss : Compute.VirtualMachineScaleSet)
    (inputLabels : gmap string string) (inputTaints : string)
  : NodeTemplate * option error :=
  let instanceOS :=
    match Compute.VirtualMachineProfile vmss with
    | Some profile =>
        match Compute.OsProfile profile with
        | Some osProfile =>
            match Compute.WindowsConfiguration osProfile with
            | Some _ => "windows"
            | None => DefaultOS
            end
        | None => DefaultOS
        end
    | None => DefaultOS
    end in
  let osDisk :=
    match Compute.VirtualMachineProfile vmss with
    | Some profile =>
        match Compute.StorageProfile profile with
        | Some storageProfile => Compute.OsDisk storageProfile
        | None => None
        end
    | None => None
    end in
  match Compute.Sku_ vmss ≫= Compute.Name with
  | None =>
      (zeroNodeTemplate,
       Some (Errorf "VMSS %s has no SKU" [toString (Compute.VMSSName vmss)]))
  | Some skuName =>
      match Compute.Location vmss with
      | None =>
          (zeroNodeTemplate,
           Some (Errorf "VMSS %s has no location"
                        [toString (Compute.VMSSName vmss)]))
      | Some location =>
          let zones :=
            match Compute.Zones vmss with
            | Some z => z
            | None => []
            end in
          ({| SkuName := skuName;
              Location := location;
              Zones := zones;
              InstanceOS := instanceOS;
              VMPoolNodeTemplate' := None;
              VMSSNodeTemplate' :=
                Some {| InputLabels := inputLabels;
                        InputTaints := inputTaints;
                        OSDisk := osDisk;
                        Tags := Compute.Tags vmss |} |},
           None)
      end
  end.

Definition buildGenericLabels (template : NodeTemplate) (nodeName : string)
  : Go (gmap string string) :=
  let result : gmap string string := ∅ in
  let result := <[V1.LabelArch := DefaultArch]> result in
  let result := <[V1.LabelArchStable := DefaultArch]> result in
  let result := <[V1.LabelOS := InstanceOS template]> result in
  let result := <[V1.LabelOSStable := InstanceOS template]> result in
  let result := <[V1.LabelInstanceType := SkuName template]> result in
  let result := <[V1.LabelInstanceTypeStable := SkuName template]> result in
  let result :=
    <[V1.LabelZoneRegion := ToLower (Location template)]> result in
  let result :=
    <[V1.LabelTopologyRegion := ToLower (Location template)]> result in
  let* result :=
    if (0 <? length (Zones template))%nat then
      let failureDomains :=
        map (fun v => ToLower (Location template) +:+ "-" +:+ v)
            (Zones template) in
      let* i := Intn (Z.of_nat (length failureDomains)) in
      let* randomZone := lift (deref (failureDomains !! Z.to_nat i)) in
      let result := <[V1.LabelZoneFailureDomain := randomZone]> result in
      let result := <[V1.LabelTopologyZone := randomZone]> result in
      let result := <[azureDiskTopologyKey := randomZone]> result in
      ret result
    else
      let result := <[V1.LabelZoneFailureDomain := "0"]> result in
      let result := <[V1.LabelTopologyZone := "0"]> result in
      let result := <[azureDiskTopologyKey := ""]> result in
      ret result in
  let result := <[V1.LabelHostname := nodeName]> result in
  ret result.

Definition extractLabelsFromTags (tags : gmap string (option string))
  : Go (gmap string string) :=
  rangeMap tags
    (fun result '(tagName, tagValue) =>
       let splits := Split tagName nodeLabelTagName in
       if (1 <? length splits)%nat then
         let label := ReplaceAll (index splits 1) "_" "/" in
         let label := ReplaceAll label "~2" "_" in
         if negb (String.eqb label "") then
           let? v := deref tagValue in
           Returned (<[label := v]> result)
         else Returned result
       else Returned result)
    ∅.

Definition extractTaintsFromTags (tags : gmap string (option string))
  : Go (list V1.Taint) :=
  rangeMap tags
    (fun taints '(tagName, tagValue) =>
       let? v := deref tagValue in
       if taintRegexpMatchString v then
         let splits := Split tagName nodeTaintTagName in
         if (1 <? length splits)%nat then
           let values := SplitN v ":" 2 in
           if (1 <? length values)%nat then
             let taintKey := ReplaceAll (index splits 1) "_" "/" in
             let taintKey := ReplaceAll taintKey "~2" "_" in
             Returned (taints ++ [ {| V1.Key := taintKey;
                                      V1.Value := index values 0;
                                      V1.Effect := index values 1 |} ])
           else Returned taints
         else Returned taints
       else Returned taints)
    [].

Definition extractAllocatableResourcesFromScaleSet
    (tags : gmap string (option string))
  : Go (gmap string V1.Quantity) :=
  rangeMap tags
    (fun resources '(tagName, tagValue) =>
       let resourceName := Split tagName nodeResourcesTagName in
       if (length resourceName <? 2)%nat
          || String.eqb (index resourceName 1) ""
       then Returned resources
       else
         let normalizedResourceName :=
           ReplaceAll (index resourceName 1) "_" "/" in
         let normalizedResourceName :=
           ReplaceAll normalizedResourceName "~2" "/" in
         let? v := deref tagValue in
         match ParseQuantity v with
         | inr _ => Returned resources
         | inl quantity =>
             Returned (<[normalizedResourceName := quantity]> resources)
         end)
    ∅.

Definition processVMPoolTemplate (template : NodeTemplate)
    (nodeName : string) (node : V1.Node) : Go V1.Node :=
  let* labels := buildGenericLabels template nodeName in
  let* vmPool := lift (deref (VMPoolNodeTemplate' template)) in
  let labels := <[agentPoolNodeLabelKey := AgentPoolName vmPool]> labels in
  let* labels :=
    rangeMap (Labels vmPool)
      (fun labels '(k, v) => Returned (<[k := toString v]> labels))
      labels in
  let node :=
    V1.withLabels node (JoinStringMaps (V1.Labels (V1.Meta node)) labels) in
  let node := V1.withTaints node (Taints vmPool) in
  ret node.

(** The part of [processVMSSTemplate] under [if enableLabelPrediction]. *)
Definition predictLabels (template : NodeTemplate) (vmss : VMSSNodeTemplate)
    (nodeLabels labels : gmap string string) : gmap string string :=
  let labels :=
    if negb (String.eqb (at_ nodeLabels legacyPoolNameTag) "") then
      let labels :=
        <[legacyAgentPoolNodeLabelKey := at_ nodeLabels legacyPoolNameTag]>
          labels in
      <[agentPoolNodeLabelKey := at_ nodeLabels legacyPoolNameTag]> labels
    else labels in
  let labels :=
    if negb (String.eqb (at_ nodeLabels poolNameTag) "") then
      let labels :=
        <[legacyAgentPoolNodeLabelKey := at_ nodeLabels poolNameTag]>
          labels in
      <[agentPoolNodeLabelKey := at_ nodeLabels poolNameTag]> labels
    else labels in
  let labels :=
    match OSDisk vmss with
    | Some osDisk =>
        let ephemeral :=
          match Compute.DiffDiskSettings_ osDisk with
          | Some settings =>
              String.eqb (Compute.Option settings) Compute.Local
          | None => false
          end in
        let labels :=
          if ephemeral then
            let labels :=
              <[legacyStorageProfileNodeLabelKey := "ephemeral"]> labels in
            <[storageProfileNodeLabelKey := "ephemeral"]> labels
          else
            let labels :=
              <[legacyStorageProfileNodeLabelKey := "managed"]> labels in
            <[storageProfileNodeLabelKey := "managed"]> labels in
        match Compute.ManagedDisk osDisk with
        | Some managedDisk =>
            let labels :=
              <[legacyStorageTierNodeLabelKey :=
                  Compute.StorageAccountType managedDisk]> labels in
            <[storageTierNodeLabelKey :=
                Compute.StorageAccountType managedDisk]> labels
        | None => labels
        end
    | None => labels
    end in
  if isNvidiaEnabledSKU (SkuName template) then
    let labels := <[GPULabel := "nvidia"]> labels in
    <[legacyGPULabel := "nvidia"]> labels
  else labels.

(** The label maps are held by value, and [node.Labels] is a map, not nil,
    as [buildNodeFromTemplate] makes it (on a nil one the first loop of the
    source panics as soon as there is a tag). In the source [labels] becomes
    the template's [InputLabels] map itself when that is not empty, so the
    predicted labels are also written into the template; the node built does
    not change by it ([predictLabels_idem]). *)
Definition processVMSSTemplate (template : NodeTemplate)
    (nodeName : string) (node : V1.Node) (enableLabelPrediction : bool)
  : Go V1.Node :=
  let* vmss := lift (deref (VMSSNodeTemplate' template)) in
  let* nodeLabels :=
    rangeMap (Tags vmss)
      (fun nodeLabels '(k, v) =>
         match v with
         | Some v => Returned (<[k := v]> nodeLabels)
         | None => Returned (<[k := ""]> nodeLabels)
         end)
      (V1.Labels (V1.Meta node)) in
  let node := V1.withLabels node nodeLabels in
  let* generic := buildGenericLabels template nodeName in
  let node :=
    V1.withLabels node (JoinStringMaps (V1.Labels (V1.Meta node)) generic) in
  let* labels :=
    if (0 <? size (InputLabels vmss))%nat then ret (InputLabels vmss)
    else extractLabelsFromTags (Tags vmss) in
  let labels :=
    if enableLabelPrediction
    then predictLabels template vmss (V1.Labels (V1.Meta node)) labels
    else labels in
  (match OSDisk vmss ≫= Compute.DiskSizeGB with
   | Some diskSizeGB =>
       mapAssign (V1.Capacity (V1.Status node)) V1.ResourceEphemeralStorage
         (V1.NewQuantity
            (mul64 (mul64 (mul64 diskSizeGB 1024) 1024) 1024)
            V1.DecimalSI)
   | None => ret tt
   end) ;;
  let* resourcesFromTags :=
    extractAllocatableResourcesFromScaleSet (Tags vmss) in
  rangeMapM resourcesFromTags
    (fun '(resourceName, val) =>
       mapAssign (V1.Capacity (V1.Status node)) resourceName val) ;;
  let node :=
    V1.withLabels node (JoinStringMaps (V1.Labels (V1.Meta node)) labels) in
  let* taints :=
    if negb (String.eqb (InputTaints vmss) "")
    then ret (extractTaintsFromSpecString (InputTaints vmss))
    else extractTaintsFromTags (Tags vmss) in
  let node := V1.withTaints node taints in
  ret node.

Definition buildNodeFromTemplate (nodeGroupName : string)
    (template : NodeTemplate) (manager : option AzureManager)
    (enableDynamicInstanceList enableLabelPrediction : bool)
  : Go (option V1.Node * option error) :=
  let* r := Int63 in
  let nodeName := nodeGroupName +:+ "-asg-" +:+ FormatInt r in
  let* capacity := newMap in
  let node :=
    V1.mkNode
      (V1.mkObjectMeta nodeName ("/api/v1/nodes/" +:+ nodeName) ∅)
      (V1.mkNodeSpec [])
      (V1.mkNodeStatus capacity None []) in
  let* dynamic :=
    if enableDynamicInstanceList then
      let* m := lift (deref manager) in
      ret (Some (GetInstanceTypeDynamically template (azureCache m)))
    else ret None in
  let resolved :=
    match dynamic with
    | Some (inl instanceTypeDynamic) => inl instanceTypeDynamic
    | Some (inr _) | None => GetInstanceTypeStatically template
    end in
  match resolved with
  | inr staticErr => ret (None, Some staticErr)
  | inl instanceType =>
      let vcpu := VCPU instanceType in
      let gpuCount := GPU instanceType in
      let memoryMb := MemoryMb instanceType in
      let capacity := V1.Capacity (V1.Status node) in
      mapAssign capacity V1.ResourcePods
        (V1.NewQuantity 110 V1.DecimalSI) ;;
      mapAssign capacity V1.ResourceCPU
        (V1.NewQuantity vcpu V1.DecimalSI) ;;
      (if isNPSeries (SkuName template)
       then mapAssign capacity xilinxFpgaResourceName
              (V1.NewQuantity gpuCount V1.DecimalSI)
       else mapAssign capacity ResourceNvidiaGPU
              (V1.NewQuantity gpuCount V1.DecimalSI)) ;;
      mapAssign capacity V1.ResourceMemory
        (V1.NewQuantity (mul64 (mul64 memoryMb 1024) 1024) V1.DecimalSI) ;;
      let node := V1.withAllocatable node (V1.Capacity (V1.Status node)) in
      match VMSSNodeTemplate' template, VMPoolNodeTemplate' template with
      | Some _, _ =>
          let* node :=
            processVMSSTemplate template nodeName node
                                enableLabelPrediction in
          ret (Some (V1.withConditions node BuildReadyConditions), None)
      | None, Some _ =>
          let* node := processVMPoolTemplate template nodeName node in
          ret (Some (V1.withConditions node BuildReadyConditions), None)
      | None, None =>
          ret (None,
               Some (Errorf
                 "invalid node template: missing both VMSS and VMPool templates"
                 []))
      end
  end.

(** What a reader of the returned node finds under
    [node.Status.Capacity] and [node.Status.Allocatable]. *)
Definition capacityOf (w : World V1.Quantity) (node : V1.Node)
  : gmap string V1.Quantity :=
  entries w (V1.Capacity (V1.Status node)).
Definition allocatableOf (w : World V1.Quantity) (node : V1.Node)
  : gmap string V1.Quantity :=
  entries w (V1.Allocatable (V1.Status node)).

End WithExternals.

End Azure.

(** ** Enums and request validation of the vendored OCI SDK (package [core]) *)

Module OciCore.

(** [BlockVolumeReplicaLifecycleStateEnum], an enum with underlying type
    [string] ([block_volume_replica.go]). *)
Definition BlockVolumeReplicaLifecycleStateEnum := string.

Definition BlockVolumeReplicaLifecycleStateProvisioning
  : BlockVolumeReplicaLifecycleStateEnum := "PROVISIONING".
Definition BlockVolumeReplicaLifecycleStateAvailable
  : BlockVolumeReplicaLifecycleStateEnum := "AVAILABLE".
Definition BlockVolumeReplicaLifecycleStateActivating
  : BlockVolumeReplicaLifecycleStateEnum := "ACTIVATING".
Definition BlockVolumeReplicaLifecycleStateTerminating
  : BlockVolumeReplicaLifecycleStateEnum := "TERMINATING".
Definition BlockVolumeReplicaLifecycleStateTerminated
  : BlockVolumeReplicaLifecycleStateEnum := "TERMINATED".
Definition BlockVolumeReplicaLifecycleStateFaulty
  : BlockVolumeReplicaLifecycleStateEnum := "FAULTY".

Definition mappingBlockVolumeReplicaLifecycleStateEnumLowerCase
  : gmap string BlockVolumeReplicaLifecycleStateEnum :=
  list_to_map
    [ ("provisioning", BlockVolumeReplicaLifecycleStateProvisioning);
      ("available", BlockVolumeReplicaLifecycleStateAvailable);
      ("activating", BlockVolumeReplicaLifecycleStateActivating);
      ("terminating", BlockVolumeReplicaLifecycleStateTerminating);
      ("terminated", BlockVolumeReplicaLifecycleStateTerminated);
      ("faulty", BlockVolumeReplicaLifecycleStateFaulty) ].

Definition GetBlockVolumeReplicaLifecycleStateEnumStringValues : list string :=
  [ "PROVISIONING"; "AVAILABLE"; "ACTIVATING"; "TERMINATING"; "TERMINATED";
    "FAULTY" ].

(** [enum, ok := m[strings.ToLower(val)]]: the zero value and [false] when
    the key is absent. *)
Definition GetMappingBlockVolumeReplicaLifecycleStateEnum
    `{Unicode.Lowering} (val : string)
  : BlockVolumeReplicaLifecycleStateEnum * bool :=
  match mappingBlockVolumeReplicaLifecycleStateEnumLowerCase
          !! Unicode.ToLower val with
  | Some enum => (enum, true)
  | None => ("", false)
  end.

(** [ListAppCatalogListingResourceVersionsSortOrderEnum]
    ([list_app_catalog_listing_resource_versions_request_response.go]). *)
Definition ListAppCatalogListingResourceVersionsSortOrderEnum := string.

Definition ListAppCatalogListingResourceVersionsSortOrderAsc
  : ListAppCatalogListingResourceVersionsSortOrderEnum := "ASC".
Definition ListAppCatalogListingResourceVersionsSortOrderDesc
  : ListAppCatalogListingResourceVersionsSortOrderEnum := "DESC".

Definition mappingListAppCatalogListingResourceVersionsSortOrderEnumLowerCase
  : gmap string ListAppCatalogListingResourceVersionsSortOrderEnum :=
  list_to_map
    [ ("asc", ListAppCatalogListingResourceVersionsSortOrderAsc);
      ("desc", ListAppCatalogListingResourceVersionsSortOrderDesc) ].

Definition GetListAppCatalogListingResourceVersionsSortOrderEnumStringValues
  : list string := [ "ASC"; "DESC" ].

Definition GetMappingListAppCatalogListingResourceVersionsSortOrderEnum
    (val : string)
  : ListAppCatalogListingResourceVersionsSortOrderEnum * bool :=
  match mappingListAppCatalogListingResourceVersionsSortOrderEnumLowerCase
          !! ToLower val with
  | Some enum => (enum, true)
  | None => ("", false)
  end.

(** The request, without its [RequestMetadata]. *)
Record ListAppCatalogListingResourceVersionsRequest := mkRequest {
  ListingId : option string;
  Limit : option Z;
  Page : option string;
  SortOrder : ListAppCatalogListingResourceVersionsSortOrderEnum;
  OpcRequestId : option string
}.

Definition newline : string := String (ascii_of_nat 10) "".

Definition ValidateEnumValue
    (request : ListAppCatalogListingResourceVersionsRequest)
  : bool * option error :=
  let errMessage : list string := [] in
  let errMessage :=
    if negb (snd (GetMappingListAppCatalogListingResourceVersionsSortOrderEnum
                    (SortOrder request)))
       && negb (String.eqb (SortOrder request) "")
    then
      errMessage ++
      [ "unsupported enum value for SortOrder: " +:+ SortOrder request
        +:+ ". Supported values are: "
        +:+ Join
              GetListAppCatalogListingResourceVersionsSortOrderEnumStringValues
              ","
        +:+ "." ]
    else errMessage in
  if (0 <? length errMessage)%nat
  then (true, Some (Errorf (Join errMessage newline) []))
  else (false, None).

(** Comparison of two byte strings that ignores the case of the letters
    [A-Z]: what the statements call case-insensitive. *)
Fixpoint EqualFold (s t : string) : bool :=
  match s, t with
  | EmptyString, EmptyString => true
  | String a s', String b t' =>
      Ascii.eqb (lowerByte a) (lowerByte b) && EqualFold s' t'
  | _, _ => false
  end.

Section Requests.

(** [http.Request] with its zero value, the body type of the SDK, and the
    request builder of package [common]. *)
Variable HttpRequest : Type.
Variable zeroHttpRequest : HttpRequest.
Variable OCIReadSeekCloser : Type.
Variable MakeDefaultHTTPRequestWithTaggedStructAndExtraHeaders :
  string -> string -> ListAppCatalogListingResourceVersionsRequest ->
  gmap string string -> HttpRequest * option error.

Definition HTTPRequest (request : ListAppCatalogListingResourceVersionsRequest)
    (method path : string) (binaryRequestBody : option OCIReadSeekCloser)
    (extraHeaders : gmap string string) : HttpRequest * option error :=
  match snd (ValidateEnumValue request) with
  | Some err => (zeroHttpRequest, Some err)
  | None =>
      MakeDefaultHTTPRequestWithTaggedStructAndExtraHeaders
        method path request extraHeaders
  end.

End Requests.

End OciCore.

(** ** Concrete surroundings to run the template code in *)

Module Fixtures.

(** Decimal digits only; enough of [resource.ParseQuantity] to run the
    code on plain byte counts. *)
Definition parsePlainQuantity (s : string) : V1.Quantity + error :=
  match NilEmpty.uint_of_string s with
  | Some u =>
      if String.eqb s "" then inr (Errorf "empty quantity" [])
      else inl (V1.mkQuantity (Z.of_N (N.of_uint u)) 0 V1.DecimalSI)
  | None => inr (Errorf "unsupported quantity" [s])
  end.

(** The tag names of the provider, a static table with two instance types,
    no dynamic table, and maps joined with the later map winning. *)
Definition externals : Azure.Externals := {|
  Azure.AzureCache := unit;
  Azure.nodeLabelTagName := "k8s.io_cluster-autoscaler_node-template_label_";
  Azure.nodeTaintTagName := "k8s.io_cluster-autoscaler_node-template_taint_";
  Azure.nodeResourcesTagName :=
    "k8s.io_cluster-autoscaler_node-template_resources_";
  Azure.GPULabel := "kubernetes.azure.com/accelerator";
  Azure.legacyGPULabel := "accelerator";
  Azure.DefaultArch := "amd64";
  Azure.DefaultOS := "linux";
  Azure.ResourceNvidiaGPU := "nvidia.com/gpu";
  Azure.GetInstanceTypeStatically := fun template =>
    if String.eqb (Azure.SkuName template) "Standard_D2_v2"
    then inl (Azure.mkInstanceType 2 0 7168)
    else if String.eqb (Azure.SkuName template) "Huge"
    then inl (Azure.mkInstanceType 2 0 (2 ^ 43))
    else inr (Errorf "instance type %q not supported"
                     [Azure.SkuName template]);
  Azure.GetInstanceTypeDynamically := fun template _ =>
    inr (Errorf "no SKU information" []);
  Azure.isNvidiaEnabledSKU := fun _ => false;
  Azure.JoinStringMaps := fun a b => b ∪ a;
  Azure.BuildReadyConditions := [V1.mkNodeCondition "Ready" "True"];
  Azure.ParseQuantity := parsePlainQuantity
|}.

(** A random source that hands out [z] at every draw, the same rank for
    every key in every loop, and an empty heap. *)
Definition world (z : Z) : World V1.Quantity :=
  mkWorld (mkRand (fun _ => z) 0) (mkOrder (fun _ _ => 0%nat) 0) [].

Definition vmssTemplate (sku : string) (zones : list string)
    (inputTaints : string) (tags : gmap string (option string))
    (osDisk : option Compute.VirtualMachineScaleSetOSDisk)
  : Azure.NodeTemplate :=
  Azure.mkNodeTemplate sku "linux" "WestEurope" zones None
    (Some (Azure.mkVMSSNodeTemplate ∅ inputTaints tags osDisk)).

End Fixtures.

(** ** Specifications of runs *)

Module GoLogic.

Section Logic.

Context {V : Type}.

(** If [m] returns from [w], its result and final world satisfy [Q]. *)
Definition wp {A} (m : M V A) (w : World V) (Q : A -> World V -> Prop)
  : Prop :=
  match m w with
  | Returned (a, w') => Q a w'
  | Panicked => True
  end.

(** [m1] from [w1] and [m2] from [w2], two worlds in which the maps are
    visited in the same order: both panic, or both return, still with the
    same order for the loops to come, and their results and final worlds are
    related by [Q]. *)
Definition rel {A} (m1 m2 : M V A) (w1 w2 : World V)
    (Q : A -> World V -> A -> World V -> Prop) : Prop :=
  order w1 = order w2 ->
  match m1 w1, m2 w2 with
  | Returned (a1, w1'), Returned (a2, w2') =>
      order w1' = order w2' /\ Q a1 w1' a2 w2'
  | Panicked, Panicked => True
  | _, _ => False
  end.

(** [m] returns from [w], and its result and final world satisfy [Q]. *)
Definition twp {A} (m : M V A) (w : World V) (Q : A -> World V -> Prop)
  : Prop :=
  match m w with
  | Returned (a, w') => Q a w'
  | Panicked => False
  end.

(** The map at address [c] currently has the entries [m]. *)
Definition holds (w : World V) (c : addr) (m : gmap string V) : Prop :=
  heap w !! c = Some m.

(** The assignments of a [range] loop over key-value pairs, in order. *)
Definition assignAll (m : gmap string V) (l : list (string * V))
  : gmap string V :=
  foldl (fun m '(k, v) => <[k := v]> m) m l.

End Logic.

End GoLogic.

Import GoLogic.

(** ** Notions used to state the properties of template nodes *)

Module AzureNodeSpec.

Import Azure.

(** The labels whose value comes from [math/rand]: the host name always,
    the three zone labels when the template has several zones. *)
Definition randomLabelKeys (template : NodeTemplate) : list string :=
  V1.LabelHostname ::
  (if (1 <? length (Zones template))%nat
   then [V1.LabelZoneFailureDomain; V1.LabelTopologyZone; azureDiskTopologyKey]
   else []).

Definition agreeOutside (keys : list string) (m1 m2 : gmap string string)
  : Prop :=
  forall k, k ∉ keys -> m1 !! k = m2 !! k.

(** No tag of the scale set has a nil value. *)
Definition tagValuesPresent (tags : gmap string (option string)) : Prop :=
  map_Forall (fun _ v => is_Some v) tags.

Section WithExternals.

Context `{Externals}.

(** [JoinStringMaps] of package [cloudprovider] copies its arguments into a
    fresh map, from left to right: an entry of a later map wins. *)
Definition JoinStringMaps_later_wins : Prop :=
  forall a b : gmap string string, JoinStringMaps a b = b ∪ a.

(** The instance type [buildNodeFromTemplate] goes on with: the dynamic one
    when dynamic lookup is enabled and succeeds, the static one when dynamic
    lookup is disabled or fails. *)
Definition resolvesTo (template : NodeTemplate)
    (manager : option AzureManager) (enableDynamicInstanceList : bool)
    (instanceType : InstanceType) : Prop :=
  (enableDynamicInstanceList = true
   /\ exists m, manager = Some m
        /\ GetInstanceTypeDynamically template (azureCache m)
           = inl instanceType)
  \/ ((enableDynamicInstanceList = false
       \/ exists m err, manager = Some m
            /\ GetInstanceTypeDynamically template (azureCache m) = inr err)
      /\ GetInstanceTypeStatically template = inl instanceType).

(** No lookup that [buildNodeFromTemplate] tries gives an instance type; the
    error is the one of the static lookup. *)
Definition unresolved (template : NodeTemplate)
    (manager : option AzureManager) (enableDynamicInstanceList : bool)
    (err : error) : Prop :=
  (enableDynamicInstanceList = false
   \/ exists m err', manager = Some m
        /\ GetInstanceTypeDynamically template (azureCache m) = inr err')
  /\ GetInstanceTypeStatically template = inr err.

(** The generic labels that do not depend on the node. *)
Definition genericBase (template : NodeTemplate) : gmap string string :=
  <[V1.LabelTopologyRegion := ToLower (Location template)]>
  (<[V1.LabelZoneRegion := ToLower (Location template)]>
  (<[V1.LabelInstanceTypeStable := SkuName template]>
  (<[V1.LabelInstanceType := SkuName template]>
  (<[V1.LabelOSStable := InstanceOS template]>
  (<[V1.LabelOS := InstanceOS template]>
  (<[V1.LabelArchStable := DefaultArch]>
  (<[V1.LabelArch := DefaultArch]> ∅))))))).

Definition genericWith (template : NodeTemplate) (nodeName zone disk : string)
  : gmap string string :=
  <[V1.LabelHostname := nodeName]>
  (<[azureDiskTopologyKey := disk]>
  (<[V1.LabelTopologyZone := zone]>
  (<[V1.LabelZoneFailureDomain := zone]> (genericBase template)))).

(** The zone labels of a template with at most one zone. *)
Definition fixedZone (template : NodeTemplate) : string * string :=
  match Zones template with
  | [] => ("0", "")
  | z :: _ =>
      (ToLower (Location template) +:+ "-" +:+ z,
       ToLower (Location template) +:+ "-" +:+ z)
  end.

(** The capacity written by [buildNodeFromTemplate] itself. *)
Definition baseCapacity (template : NodeTemplate) (instanceType : InstanceType)
  : gmap string V1.Quantity :=
  <[V1.ResourceMemory :=
      V1.NewQuantity (mul64 (mul64 (MemoryMb instanceType) 1024) 1024)
                     V1.DecimalSI]>
  (<[(if isNPSeries (SkuName template) then xilinxFpgaResourceName
      else ResourceNvidiaGPU) :=
       V1.NewQuantity (GPU instanceType) V1.DecimalSI]>
  (<[V1.ResourceCPU := V1.NewQuantity (VCPU instanceType) V1.DecimalSI]>
  (<[V1.ResourcePods := V1.NewQuantity 110 V1.DecimalSI]> ∅))).

(** The capacity after the ephemeral-storage assignment of
    [processVMSSTemplate]. *)
Definition withEphemeralStorage (vmss : VMSSNodeTemplate)
    (m : gmap string V1.Quantity) : gmap string V1.Quantity :=
  match OSDisk vmss ≫= Compute.DiskSizeGB with
  | Some diskSizeGB =>
      <[V1.ResourceEphemeralStorage :=
          V1.NewQuantity (mul64 (mul64 (mul64 diskSizeGB 1024) 1024) 1024)
                         V1.DecimalSI]> m
  | None => m
  end.

(** In some order of the tags, the resources tags of the scale set give a
    quantity for [resourceName]: [processVMSSTemplate] writes it over the
    capacity computed before. *)
Definition overriddenByTags (template : NodeTemplate) (resourceName : string)
  : Prop :=
  exists vmss w resourcesFromTags w',
    VMSSNodeTemplate' template = Some vmss
    /\ extractAllocatableResourcesFromScaleSet (Tags vmss) w
       = Returned (resourcesFromTags, w')
    /\ is_Some (resourcesFromTags !! resourceName).

(** Two calls of [buildNodeFromTemplate] with the same arguments, one after
    the other. *)
Definition twoCalls (nodeGroupName : string) (template : NodeTemplate)
    (manager : option AzureManager)
    (enableDynamicInstanceList enableLabelPrediction : bool)
  : M V1.Quantity ((option V1.Node * option error)
                   * (option V1.Node * option error)) :=
  bind (buildNodeFromTemplate nodeGroupName template manager
          enableDynamicInstanceList enableLabelPrediction)
    (fun first =>
       bind (buildNodeFromTemplate nodeGroupName template manager
               enableDynamicInstanceList enableLabelPrediction)
         (fun second => ret (first, second))).

(** Two runs of [buildNodeFromTemplate] with the same arguments differ at
    most in what the random source decides. *)
Definition sameUpToRandomDraws (nodeGroupName : string)
    (template : NodeTemplate) (manager : option AzureManager)
    (enableDynamicInstanceList enableLabelPrediction : bool)
    (w1 w2 : World V1.Quantity) : Prop :=
  match buildNodeFromTemplate nodeGroupName template manager
          enableDynamicInstanceList enableLabelPrediction w1,
        buildNodeFromTemplate nodeGroupName template manager
          enableDynamicInstanceList enableLabelPrediction w2 with
  | Returned ((Some node1, None), w1'), Returned ((Some node2, None), w2') =>
      capacityOf w1' node1 = capacityOf w2' node2
      /\ allocatableOf w1' node1 = allocatableOf w2' node2
      /\ V1.Taints (V1.Spec node1) = V1.Taints (V1.Spec node2)
      /\ agreeOutside (randomLabelKeys template)
           (V1.Labels (V1.Meta node1)) (V1.Labels (V1.Meta node2))
      /\ V1.Name (V1.Meta node1)
         = nodeGroupName +:+ "-asg-"
           +:+ FormatInt (draws (rand w1) (cursor (rand w1)) mod 2 ^ 63)
      /\ V1.Name (V1.Meta node2)
         = nodeGroupName +:+ "-asg-"
           +:+ FormatInt (draws (rand w2) (cursor (rand w2)) mod 2 ^ 63)
  | Returned ((None, Some err1), _), Returned ((None, Some err2), _) =>
      err1 = err2
  | Panicked, Panicked => True
  | _, _ => False
  end.

End WithExternals.

(** What an observer sees of the outcome of [buildNodeFromTemplate]. *)
Definition returnedNode
    (o : outcome ((option V1.Node * option error) * World V1.Quantity))
  : option V1.Node :=
  match o with
  | Returned ((node, _), _) => node
  | Panicked => None
  end.

Definition returnedTaints
    (o : outcome (list V1.Taint * World V1.Quantity)) : list V1.Taint :=
  match o with
  | Returned (taints, _) => taints
  | Panicked => []
  end.

(** The nodes of two calls that both returned one, and no error. *)
Definition returnedNodes
    (o : outcome (((option V1.Node * option error)
                   * (option V1.Node * option error)) * World V1.Quantity))
  : option (V1.Node * V1.Node) :=
  match o with
  | Returned (((Some node1, None), (Some node2, None)), _) =>
      Some (node1, node2)
  | _ => None
  end.

Definition returnedError
    (o : outcome ((option V1.Node * option error) * World V1.Quantity))
  : option error :=
  match o with
  | Returned ((_, err), _) => err
  | Panicked => None
  end.

Definition returnedCapacity
    (o : outcome ((option V1.Node * option error) * World V1.Quantity))
    (resourceName : string) : option V1.Quantity :=
  match o with
  | Returned ((Some node, _), w) => capacityOf w node !! resourceName
  | _ => None
  end.

End AzureNodeSpec.

(** ** Concrete templates and runs *)

Module Runs.

Import Azure AzureNodeSpec Fixtures.

(** A random source that hands out 1, 2, 3, ... *)
Definition counting : World V1.Quantity :=
  mkWorld (mkRand (fun i => Z.of_nat i + 1) 0) (mkOrder (fun _ _ => 0%nat) 0)
          [].

Definition zonedTemplate : NodeTemplate :=
  vmssTemplate "Standard_D2_v2" ["1"; "2"; "3"] "" ∅ None.

(** A scale set whose tags carry a taint, next to taints given in the spec,
    with an OS disk of 30 GB. *)
Definition taintedVMSS : VMSSNodeTemplate :=
  mkVMSSNodeTemplate ∅ "dedicated=foo:NoSchedule"
    {[ "k8s.io_cluster-autoscaler_node-template_taint_gpu"
         := Some "true:NoExecute" ]}
    (Some (Compute.mkOSDisk None (Some 30) None)).

Definition taintedTemplate : NodeTemplate :=
  mkNodeTemplate "Standard_D2_v2" "linux" "WestEurope" ["1"] None
    (Some taintedVMSS).

(** A scale set with a tag whose value is nil. *)
Definition nilTagTemplate : NodeTemplate :=
  vmssTemplate "Standard_D2_v2" [] "" {[ "team" := None ]} None.

(** An instance type of 2^43 MB. *)
Definition hugeTemplate : NodeTemplate :=
  vmssTemplate "Huge" [] "" ∅ None.

(** A scale set with an OS disk of 30 GB and a resources tag for
    ephemeral storage. *)
Definition resourceTagTemplate : NodeTemplate :=
  vmssTemplate "Standard_D2_v2" [] ""
    {[ "k8s.io_cluster-autoscaler_node-template_resources_ephemeral-storage"
         := Some "5" ]}
    (Some (Compute.mkOSDisk None (Some 30) None)).

(** Two tags that each carry a taint. *)
Definition twoTaintTags : gmap string (option string) :=
  {[ "k8s.io_cluster-autoscaler_node-template_taint_a" := Some "1:NoSchedule";
     "k8s.io_cluster-autoscaler_node-template_taint_b" := Some "2:NoExecute" ]}.

Definition blankNode : V1.Node :=
  V1.mkNode (V1.mkObjectMeta "" "" ∅) (V1.mkNodeSpec [])
            (V1.mkNodeStatus None None []).

Definition taintedRun
  : outcome ((option V1.Node * option error) * World V1.Quantity) :=
  buildNodeFromTemplate (H := externals) "pool" taintedTemplate None false
    true (world 7).

Definition taintedNode : V1.Node :=
  Eval vm_compute in
    match taintedRun with
    | Returned ((Some node, _), _) => node
    | _ => blankNode
    end.

Definition taintedWorld : World V1.Quantity :=
  Eval vm_compute in
    match taintedRun with
    | Returned (_, w) => w
    | _ => world 7
    end.

(** [processVMSSTemplate] alone, on a node whose capacity map is at
    address 0. *)
Definition startNode : V1.Node :=
  V1.mkNode (V1.mkObjectMeta "n" "" ∅) (V1.mkNodeSpec [])
            (V1.mkNodeStatus (Some 0%nat) (Some 0%nat) []).

Definition startWorld : World V1.Quantity :=
  mkWorld (mkRand (fun _ => 7) 0) (mkOrder (fun _ _ => 0%nat) 0) [∅].

Definition processedNode : V1.Node :=
  Eval vm_compute in
    match processVMSSTemplate (H := externals) taintedTemplate "n" startNode
            false startWorld with
    | Returned (node, _) => node
    | _ => blankNode
    end.

Definition processedWorld : World V1.Quantity :=
  Eval vm_compute in
    match processVMSSTemplate (H := externals) taintedTemplate "n" startNode
            false startWorld with
    | Returned (_, w) => w
    | _ => startWorld
    end.

End Runs.

(** ** The agent pool of [armcontainerservice] *)

Module ContainerService.

(** [ManagedClusterAgentPoolProfileProperties]: the fields read here. A nil
    map is the empty map and a nil slice the empty list: they are only read
    and ranged over. *)
Record ManagedClusterAgentPoolProfileProperties := mkProperties {
  NodeLabels : gmap string (option string);
  NodeTaints : list (option string);
  AvailabilityZones : list (option string);
  OSType : option string;
  OSDiskType : option string
}.

Record AgentPool := mkAgentPool {
  Name : option string;
  Properties : option ManagedClusterAgentPoolProfileProperties
}.

End ContainerService.

(** ** [azure_template.go]: the template of an agent pool and the
    autoscaling options *)

Module AzureVMPool.

Import Azure.

Local Open Scope go_scope.

(** The label map is held by value: the source writes the labels of the
    spec into the map of the agent pool itself when that is not nil. *)
Definition buildNodeTemplateFromVMPool (vmsPool : ContainerService.AgentPool)
    (location skuName : string) (labelsFromSpec : gmap string string)
    (taintsFromSpec : string)
  : M V1.Quantity (NodeTemplate * option error) :=
  match ContainerService.Properties vmsPool with
  | None =>
      ret (zeroNodeTemplate,
           Some (Errorf "vmsPool %s has nil properties"
                        [toString (ContainerService.Name vmsPool)]))
  | Some properties =>
      let labels := ContainerService.NodeLabels properties in
      let* labels :=
        rangeMap labelsFromSpec
          (fun labels '(k, v) => Returned (<[k := Some v]> labels))
          labels in
      let taintsList :=
        foldl (fun taintsList taint =>
                 if negb (String.eqb (toString taint) "")
                 then taintsList ++ [toString taint]
                 else taintsList)
              [] (ContainerService.NodeTaints properties) in
      let taintsList :=
        if negb (String.eqb taintsFromSpec "")
        then taintsList ++ [taintsFromSpec]
        else taintsList in
      let taintsStr := Join taintsList "," in
      let taints := extractTaintsFromSpecString taintsStr in
      let zones :=
        foldl (fun zones zone =>
                 match zone with
                 | Some z => zones ++ [z]
                 | None => zones
                 end)
              [] (ContainerService.AvailabilityZones properties) in
      let instanceOS :=
        match ContainerService.OSType properties with
        | Some osType => ToLower osType
        | None => ""
        end in
      ret ({| SkuName := skuName;
              Zones := zones;
              InstanceOS := instanceOS;
              Location := location;
              VMSSNodeTemplate' := None;
              VMPoolNodeTemplate' :=
                Some {| AgentPoolName :=
                          toString (ContainerService.Name vmsPool);
                        OSDiskType := ContainerService.OSDiskType properties;
                        Taints := taints;
                        Labels := labels |} |},
           None)
  end.

End AzureVMPool.

Module AzureOptions.

Import Azure.

Local Open Scope go_scope.

Section Options.

(** [nodeOptionsTagName] is a constant of another file of the package;
    [strconv.ParseFloat(raw, 64)] and [time.ParseDuration(raw)] are Go's,
    with [float64] left open and [time.Duration] an [int64];
    [strings.ToLower] is Go's on every string. *)
Variable nodeOptionsTagName : string.
Variable float64 : Type.
Variable zeroFloat64 : float64.
Variable ParseFloat : string -> float64 + error.
Variable ParseDuration : string -> Z + error.
Context `{Unicode.Lowering}.

Definition extractAutoscalingOptionsFromScaleSetTags
    (tags : gmap string (option string))
  : M V1.Quantity (gmap string string) :=
  rangeMap tags
    (fun options '(tagName, tagValue) =>
       if negb (HasPrefix tagName nodeOptionsTagName) then Returned options
       else
         let resourceName := Split tagName nodeOptionsTagName in
         if (length resourceName <? 2)%nat
            || String.eqb (index resourceName 1) ""
            || bool_decide (tagValue = None)
         then Returned options
         else
           let? v := deref tagValue in
           Returned (<[index resourceName 1 := Unicode.ToLower v]> options))
    ∅.

(** The [vmssName] is used in the warning that is logged only. *)
Definition getFloat64Option (options : gmap string string)
    (vmssName name : string) : float64 * bool :=
  match options !! Unicode.ToLower name with
  | None => (zeroFloat64, false)
  | Some raw =>
      match ParseFloat raw with
      | inr _ => (zeroFloat64, false)
      | inl option => (option, true)
      end
  end.

Definition getDurationOption (options : gmap string string)
    (vmssName name : string) : Z * bool :=
  match options !! Unicode.ToLower name with
  | None => (0, false)
  | Some raw =>
      match ParseDuration raw with
      | inr _ => (0, false)
      | inl option => (option, true)
      end
  end.

End Options.

End AzureOptions.

(** ** More of package [core] of the OCI SDK: the enumerations of values and
    the validation of a block volume replica *)

Module OciCoreValues.

Import OciCore.

Definition mappingBlockVolumeReplicaLifecycleStateEnum
  : gmap string BlockVolumeReplicaLifecycleStateEnum :=
  list_to_map
    [ ("PROVISIONING", BlockVolumeReplicaLifecycleStateProvisioning);
      ("AVAILABLE", BlockVolumeReplicaLifecycleStateAvailable);
      ("ACTIVATING", BlockVolumeReplicaLifecycleStateActivating);
      ("TERMINATING", BlockVolumeReplicaLifecycleStateTerminating);
      ("TERMINATED", BlockVolumeReplicaLifecycleStateTerminated);
      ("FAULTY", BlockVolumeReplicaLifecycleStateFaulty) ].

(** [for _, v := range mapping { values = append(values, v) }] *)
Definition GetBlockVolumeReplicaLifecycleStateEnumValues {V}
  : M V (list BlockVolumeReplicaLifecycleStateEnum) :=
  rangeMap mappingBlockVolumeReplicaLifecycleStateEnum
    (fun values '(_, v) => Returned (values ++ [v])) [].

Definition mappingListAppCatalogListingResourceVersionsSortOrderEnum
  : gmap string ListAppCatalogListingResourceVersionsSortOrderEnum :=
  list_to_map
    [ ("ASC", ListAppCatalogListingResourceVersionsSortOrderAsc);
      ("DESC", ListAppCatalogListingResourceVersionsSortOrderDesc) ].

Definition GetListAppCatalogListingResourceVersionsSortOrderEnumValues {V}
  : M V (list ListAppCatalogListingResourceVersionsSortOrderEnum) :=
  rangeMap mappingListAppCatalogListingResourceVersionsSortOrderEnum
    (fun values '(_, v) => Returned (values ++ [v])) [].

(** [BlockVolumeReplica] ([block_volume_replica.go]), without its two time
    stamps and its defined tags. *)
Module BlockVolumeReplica.

Record t := mk {
  AvailabilityDomain : option string;
  CompartmentId : option string;
  DisplayName : option string;
  Id : option string;
  LifecycleState : BlockVolumeReplicaLifecycleStateEnum;
  SizeInGBs : option Z;
  BlockVolumeId : option string;
  FreeformTags : gmap string string;
  TotalDataTransferredInGBs : option Z;
  VolumeGroupReplicaId : option string;
  KmsKeyId : option string
}.

Definition ValidateEnumValue `{Unicode.Lowering} (m : t)
  : bool * option error :=
  let errMessage : list string := [] in
  let errMessage :=
    if negb (snd (GetMappingBlockVolumeReplicaLifecycleStateEnum
                    (LifecycleState m)))
       && negb (String.eqb (LifecycleState m) "")
    then
      errMessage ++
      [ "unsupported enum value for LifecycleState: " +:+ LifecycleState m
        +:+ ". Supported values are: "
        +:+ Join GetBlockVolumeReplicaLifecycleStateEnumStringValues ","
        +:+ "." ]
    else errMessage in
  if (0 <? length errMessage)%nat
  then (true, Some (Errorf (Join errMessage newline) []))
  else (false, None).

End BlockVolumeReplica.

End OciCoreValues.

(** ** Notions used to state the properties of the loops over tags *)

Module AzureTagSpec.

Import Azure.

Section WithExternals.

Context `{Externals}.

(** The label a tag name stands for in [extractLabelsFromTags]: the piece
    behind the first [nodeLabelTagName], with [_] for [/] and [~2] for [_],
    when there is one and it is not empty. *)
Definition labelNamed (tagName : string) : option string :=
  let splits := Split tagName nodeLabelTagName in
  if (1 <? length splits)%nat then
    let label := ReplaceAll (index splits 1) "_" "/" in
    let label := ReplaceAll label "~2" "_" in
    if negb (String.eqb label "") then Some label else None
  else None.

(** The taint a tag stands for in [extractTaintsFromTags]: its value has to
    match the taint pattern and its name to hold [nodeTaintTagName]. *)
Definition taintOfTag (tagName tagValue : string) : option V1.Taint :=
  if taintRegexpMatchString tagValue then
    let splits := Split tagName nodeTaintTagName in
    if (1 <? length splits)%nat then
      let values := SplitN tagValue ":" 2 in
      let taintKey := ReplaceAll (index splits 1) "_" "/" in
      let taintKey := ReplaceAll taintKey "~2" "_" in
      Some {| V1.Key := taintKey;
              V1.Value := index values 0;
              V1.Effect := index values 1 |}
    else None
  else None.

(** The resource a tag name stands for in
    [extractAllocatableResourcesFromScaleSet]. *)
Definition resourceNamed (tagName : string) : option string :=
  let resourceName := Split tagName nodeResourcesTagName in
  if (length resourceName <? 2)%nat || String.eqb (index resourceName 1) ""
  then None
  else
    let normalizedResourceName :=
      ReplaceAll (index resourceName 1) "_" "/" in
    Some (ReplaceAll normalizedResourceName "~2" "/").

End WithExternals.

(** The option a tag name stands for in
    [extractAutoscalingOptionsFromScaleSetTags]. *)
Definition optionNamed (nodeOptionsTagName tagName : string)
  : option string :=
  if negb (HasPrefix tagName nodeOptionsTagName) then None
  else
    let resourceName := Split tagName nodeOptionsTagName in
    if (length resourceName <? 2)%nat || String.eqb (index resourceName 1) ""
    then None
    else Some (index resourceName 1).

End AzureTagSpec.

(** ** Notions used to state the properties of the node that is built *)

Module AzureBuildSpec.

Import Azure AzureNodeSpec AzureTagSpec.

(** The name [buildNodeFromTemplate] gives the node from the world [w]. *)
Definition nodeNamed {V} (nodeGroupName : string) (w : World V) : string :=
  nodeGroupName +:+ "-asg-"
  +:+ FormatInt (draws (rand w) (cursor (rand w)) mod 2 ^ 63).

(** The node as [buildNodeFromTemplate] hands it to [processVMSSTemplate]
    or [processVMPoolTemplate]: no labels, no taints, and one map, at
    address [c], for both capacity and allocatable. *)
Definition freshNode (nodeName : string) (c : addr) : V1.Node :=
  V1.mkNode
    (V1.mkObjectMeta nodeName ("/api/v1/nodes/" +:+ nodeName) ∅)
    (V1.mkNodeSpec [])
    (V1.mkNodeStatus (Some c) (Some c) []).

(** The zone labels of [buildGenericLabels]: [0] and the empty string for
    a template without zones, and else, for both, the region, a dash and one
    zone of the template. *)
Definition zoneLabels (template : NodeTemplate) (zone disk : string) : Prop :=
  match Zones template with
  | [] => zone = "0" /\ disk = ""
  | _ :: _ =>
      disk = zone
      /\ exists z,
           z ∈ Zones template
           /\ zone = ToLower (Location template) +:+ "-" +:+ z
  end.

Section WithExternals.

Context `{Externals}.

(** The world at that point: one draw taken, and the new map with the
    capacity of the instance type. *)
Definition readyWorld (template : NodeTemplate) (instanceType : InstanceType)
    (w : World V1.Quantity) : World V1.Quantity :=
  mkWorld (advance (rand w)) (order w)
          (heap w ++ [baseCapacity template instanceType]).

(** Some tag of the scale set has a nil value that one of the three loops
    of [processVMSSTemplate] over the tags dereferences: the loop for the
    labels, run when there are no input labels, if the name stands for a
    label; the loop for the resources if it stands for a resource; the loop
    for the taints, run when there is no taints string, in any case. *)
Definition tagsPanic (vmss : VMSSNodeTemplate) : Prop :=
  exists tagName,
    Tags vmss !! tagName = Some None
    /\ ((size (InputLabels vmss) = 0%nat /\ is_Some (labelNamed tagName))
        \/ is_Some (resourceNamed tagName)
        \/ InputTaints vmss = "").

(** The labels [processVMSSTemplate] joins onto the node last: the input
    labels, or without any the labels of the tags, and the predicted labels
    written over them when prediction is enabled. *)
Definition labelsOfSpec (vmss : VMSSNodeTemplate)
    (labels : gmap string string) : Prop :=
  if (0 <? size (InputLabels vmss))%nat then labels = InputLabels vmss
  else exists w0 w0',
         extractLabelsFromTags (Tags vmss) w0 = Returned (labels, w0').

(** The taints [processVMSSTemplate] gives the node. *)
Definition taintsOfSpec (vmss : VMSSNodeTemplate) (taints : list V1.Taint)
  : Prop :=
  if negb (String.eqb (InputTaints vmss) "")
  then taints = extractTaintsFromSpecString (InputTaints vmss)
  else exists w0 w0',
         extractTaintsFromTags (Tags vmss) w0 = Returned (taints, w0').

(** The resources [processVMSSTemplate] writes into the capacity. *)
Definition resourcesOfTags (vmss : VMSSNodeTemplate)
    (resources : gmap string V1.Quantity) : Prop :=
  exists w0 w0',
    extractAllocatableResourcesFromScaleSet (Tags vmss) w0
    = Returned (resources, w0').

(** The node [processVMSSTemplate] returns: the labels joined onto the
    node are, one map after the other, the tags of the scale set with the
    empty string for a nil value, over the labels the node had; the generic
    labels; and the labels of the spec, with the predicted labels written
    over them when prediction is enabled. *)
Definition vmssNode (template : NodeTemplate) (vmss : VMSSNodeTemplate)
    (nodeName : string) (node : V1.Node) (enableLabelPrediction : bool)
    (zone disk : string) (labels : gmap string string)
    (taints : list V1.Taint) : V1.Node :=
  let tagged := (default "" <$> Tags vmss) ∪ V1.Labels (V1.Meta node) in
  let joined :=
    JoinStringMaps tagged (genericWith template nodeName zone disk) in
  let labels :=
    if enableLabelPrediction
    then predictLabels template vmss joined labels
    else labels in
  V1.withTaints (V1.withLabels node (JoinStringMaps joined labels)) taints.

(** The node [processVMPoolTemplate] returns. *)
Definition vmPoolNode (template : NodeTemplate) (vmPool : VMPoolNodeTemplate)
    (nodeName : string) (node : V1.Node) (zone disk : string) : V1.Node :=
  let labels :=
    (toString <$> Labels vmPool)
    ∪ <[agentPoolNodeLabelKey := AgentPoolName vmPool]>
        (genericWith template nodeName zone disk) in
  V1.withTaints
    (V1.withLabels node (JoinStringMaps (V1.Labels (V1.Meta node)) labels))
    (Taints vmPool).

End WithExternals.

(** The value under [k] in the first of the maps that has one. *)
Fixpoint firstOf (maps : list (gmap string string)) (k : string)
  : option string :=
  match maps with
  | [] => None
  | m :: rest =>
      match m !! k with
      | Some v => Some v
      | None => firstOf rest k
      end
  end.

End AzureBuildSpec.

(** ** Runs with both ends specified *)

Module GoLogicBoth.

(** From [w], [m] returns with a result and a final world that satisfy
    [Q], or it panics and [R] holds. *)
Definition runs {V A} (m : M V A) (w : World V)
    (Q : A -> World V -> Prop) (R : Prop) : Prop :=
  match m w with
  | Returned (a, w') => Q a w'
  | Panicked => R
  end.

End GoLogicBoth.

Import GoLogicBoth.

(** ** A scale set, an agent pool, and their templates *)

Module TemplateRuns.

Import Azure AzureVMPool Fixtures.

(** A scale set in one zone, with one tag, and no profile. *)
Definition scaleSet : Compute.VirtualMachineScaleSet :=
  Compute.mkVMSS (Some (Compute.mkSku (Some "Standard_D2_v2")))
    (Some "pool-vmss") (Some "WestEurope") (Some ["1"])
    {[ "team" := Some "a" ]} None.

Definition specLabels : gmap string string := {[ "tier" := "web" ]}.

Definition scaleSetTemplate : NodeTemplate :=
  Eval vm_compute in
    fst (buildNodeTemplateFromVMSS (H := externals) scaleSet specLabels
           "dedicated=foo:NoSchedule").

(** An agent pool with a label without a value, a nil taint and a nil
    zone. *)
Definition agentPool : ContainerService.AgentPool :=
  ContainerService.mkAgentPool (Some "nodepool1")
    (Some (ContainerService.mkProperties
             {[ "env" := Some "prod"; "owner" := None ]}
             [Some "dedicated=foo:NoSchedule"; None]
             [Some "1"; None]
             (Some "Linux") (Some "Managed"))).

Definition agentPoolRun
  : outcome ((NodeTemplate * option error) * World V1.Quantity) :=
  buildNodeTemplateFromVMPool agentPool "WestEurope" "Standard_D2_v2"
    specLabels "gpu=true:NoExecute" (world 7).

Definition agentPoolTemplate : NodeTemplate :=
  Eval vm_compute in
    match agentPoolRun with
    | Returned ((template, _), _) => template
    | Panicked => zeroNodeTemplate
    end.

Definition agentPoolWorld : World V1.Quantity :=
  Eval vm_compute in
    match agentPoolRun with
    | Returned (_, w) => w
    | Panicked => world 7
    end.

End TemplateRuns.

(** ** A replica and a map of options *)

Module OciRuns.

Import OciCore OciCoreValues.

(** A replica in a lifecycle state that is none of the six, and one whose
    state is spelled with [U+0130]. *)
Definition meltingReplica : BlockVolumeReplica.t :=
  BlockVolumeReplica.mk None None (Some "replica") None "Melting" (Some 50)
    None ∅ None None None.

Definition dottedReplica : BlockVolumeReplica.t :=
  BlockVolumeReplica.mk None None (Some "replica") None
    ("PROV" +:+ Unicode.dottedI +:+ "SIONING") (Some 50) None ∅ None None
    None.

End OciRuns.

Module OptionRuns.

(** Decimal digits only: enough of [strconv.ParseFloat] and of
    [time.ParseDuration] to read a whole number. *)
Definition parseDigits (raw : string) : Z + error :=
  match NilEmpty.uint_of_string raw with
  | Some u =>
      if String.eqb raw "" then inr (Errorf "invalid syntax" [raw])
      else inl (Z.of_N (N.of_uint u))
  | None => inr (Errorf "invalid syntax" [raw])
  end.

(** One option under a key in lower case, and its name spelled in upper
    case with [U+0130]. *)
Definition options : gmap string string := {[ "limit" := "10" ]}.

Definition dottedName : string := "L" +:+ Unicode.dottedI +:+ "MIT".

End OptionRuns.

(** * Properties *)

(** ** Splitting and joining on one byte *)

Module GoStringsFacts.

Lemma HasPrefix_byte a s c :
  HasPrefix (String a s) (String c "") = Ascii.eqb c a.
Proof.
  unfold HasPrefix. simpl. destruct (ascii_dec c a) as [->|Hne].
  - rewrite Ascii.eqb_refl. by destruct s.
  - symmetry. by apply Ascii.eqb_neq.
Qed.

Lemma split_go_not_nil sep k s : split_go sep k s ≠ [].
Proof.
  revert k. induction s as [|a s IH]; intros k; cbn [split_go]; [done|].
  destruct k; [|apply IH].
  destruct (HasPrefix (String a s) sep); [done|].
  destruct (split_go sep 0 s); done.
Qed.

Lemma split_byte_step c a s :
  split_go (String c "") 0 (String a s) =
  if Ascii.eqb c a then "" :: split_go (String c "") 0 s
  else match split_go (String c "") 0 s with
       | h :: t => String a h :: t
       | [] => [String a ""]
       end.
Proof. cbn [split_go]. rewrite HasPrefix_byte. reflexivity. Qed.

Lemma split_byte_free c s :
  Forall (fun x => freeOf c x = true) (split_go (String c "") 0 s).
Proof.
  induction s as [|a s IH].
  - repeat constructor.
  - rewrite split_byte_step. destruct (Ascii.eqb c a) eqn:E.
    + constructor; [done|exact IH].
    + destruct (split_go (String c "") 0 s) as [|h t] eqn:Hs.
      * by destruct (split_go_not_nil (String c "") 0 s).
      * inversion IH; subst. constructor; [|done]. simpl. by rewrite E.
Qed.

Lemma split_byte_app c x rest :
  freeOf c x = true ->
  split_go (String c "") 0 (x +:+ String c rest) =
  x :: split_go (String c "") 0 rest.
Proof.
  induction x as [|a x IH]; intros Hx.
  - change ("" +:+ String c rest) with (String c rest).
    rewrite split_byte_step, Ascii.eqb_refl. done.
  - simpl in Hx. apply andb_true_iff in Hx as [Ha Hx].
    change (String a x +:+ String c rest)
      with (String a (x +:+ String c rest)).
    rewrite split_byte_step. apply negb_true_iff in Ha. rewrite Ha.
    by rewrite IH.
Qed.

Lemma split_byte_whole c x :
  freeOf c x = true -> split_go (String c "") 0 x = [x].
Proof.
  induction x as [|a x IH]; intros Hx; [done|].
  simpl in Hx. apply andb_true_iff in Hx as [Ha Hx].
  rewrite split_byte_step. apply negb_true_iff in Ha. rewrite Ha.
  by rewrite IH.
Qed.

(** Joining segments that are free of the separator and splitting again
    gives the segments back. *)
Lemma Split_Join_byte c (l : list string) :
  l ≠ [] -> Forall (fun x => freeOf c x = true) l ->
  Split (Join l (String c "")) (String c "") = l.
Proof.
  unfold Split. induction l as [|x l IH]; intros Hne Hall; [done|].
  inversion Hall as [|? ? Hx Hl]; subst.
  destruct l as [|y l].
  - simpl. by apply split_byte_whole.
  - change (Join (x :: y :: l) (String c ""))
      with (x +:+ String c (Join (y :: l) (String c ""))).
    rewrite split_byte_app by done. f_equal. by apply IH.
Qed.

Lemma freeOf_app c x y : freeOf c (x +:+ y) = freeOf c x && freeOf c y.
Proof.
  induction x as [|a x IH]; [done|].
  change (String a x +:+ y) with (String a (x +:+ y)). simpl.
  by rewrite IH, andb_assoc.
Qed.

Lemma HasPrefix_refl s : HasPrefix s s = true.
Proof.
  unfold HasPrefix. induction s as [|a s IH]; [done|]. simpl.
  by destruct (ascii_dec a a).
Qed.

Lemma Contains_here s : Contains s s = true.
Proof. destruct s; cbn [Contains]; by rewrite HasPrefix_refl. Qed.

Lemma Contains_app x y substr :
  Contains y substr = true -> Contains (x +:+ y) substr = true.
Proof.
  intros Hy. induction x as [|a x IH]; [done|].
  change (String a x +:+ y) with (String a (x +:+ y)).
  cbn [Contains]. rewrite IH. apply orb_true_r.
Qed.

Lemma splitN_go_one sep s : splitN_go sep 0 1 s = [s].
Proof. by destruct s. Qed.

Lemma splitN_byte_step c a s n :
  splitN_go (String c "") 0 (S (S n)) (String a s) =
  if Ascii.eqb c a then "" :: splitN_go (String c "") 0 (S n) s
  else match splitN_go (String c "") 0 (S (S n)) s with
       | h :: t => String a h :: t
       | [] => [String a ""]
       end.
Proof. cbn [splitN_go]. rewrite HasPrefix_byte. reflexivity. Qed.

Lemma SplitN_byte_app c x rest :
  freeOf c x = true ->
  SplitN (x +:+ String c rest) (String c "") 2 = [x; rest].
Proof.
  unfold SplitN. induction x as [|a x IH]; intros Hx.
  - change ("" +:+ String c rest) with (String c rest).
    rewrite splitN_byte_step, Ascii.eqb_refl. by rewrite splitN_go_one.
  - simpl in Hx. apply andb_true_iff in Hx as [Ha Hx].
    change (String a x +:+ String c rest)
      with (String a (x +:+ String c rest)).
    rewrite splitN_byte_step. apply negb_true_iff in Ha. rewrite Ha.
    by rewrite IH.
Qed.

(** A string with a separator in it is cut in two by [SplitN(s, sep, 2)]. *)
Lemma SplitN_byte_two c s rest :
  Contains s (String c rest) = true ->
  length (SplitN s (String c "") 2) = 2%nat.
Proof.
  unfold SplitN. induction s as [|a s IH]; intros Hs.
  - discriminate Hs.
  - rewrite splitN_byte_step. destruct (Ascii.eqb c a) eqn:E.
    + by rewrite splitN_go_one.
    + cbn [Contains] in Hs. apply orb_true_iff in Hs as [Hs|Hs].
      * unfold HasPrefix in Hs. simpl in Hs.
        destruct (ascii_dec c a) as [->|]; [|discriminate Hs].
        by rewrite Ascii.eqb_refl in E.
      * specialize (IH Hs).
        destruct (splitN_go (String c "") 0 2 s) as [|h t]; [done|]. done.
Qed.

Lemma lowerByte_idem c : lowerByte (lowerByte c) = lowerByte c.
Proof. destruct c as [[] [] [] [] [] [] [] []]; reflexivity. Qed.

Lemma ToLower_idem s : ToLower (ToLower s) = ToLower s.
Proof.
  induction s as [|c s IH]; [done|]. simpl. by rewrite lowerByte_idem, IH.
Qed.

End GoStringsFacts.

Import GoStringsFacts.

(** ** A lowering with the two laws of [strings.ToLower] *)

Module UnicodeFacts.

Lemma lowerByte_above c :
  (128 <=? nat_of_ascii c)%nat = true -> lowerByte c = c.
Proof.
  intros Hc. apply Nat.leb_le in Hc. unfold lowerByte.
  destruct (_ <=? nat_of_ascii c)%nat eqn:H1; [|done].
  destruct (nat_of_ascii c <=? 90)%nat eqn:H2; [|done].
  apply Nat.leb_le in H2. lia.
Qed.

Lemma lowerByte_not_above c :
  (128 <=? nat_of_ascii c)%nat = true ->
  forall a, lowerByte a = c -> a = c.
Proof.
  intros Hc a <-. unfold lowerByte in *.
  destruct ((65 <=? nat_of_ascii a)%nat && (nat_of_ascii a <=? 90)%nat)
    eqn:Hupper; [|done].
  apply andb_true_iff in Hupper as [H1 H2].
  apply Nat.leb_le in H1, H2, Hc.
  rewrite nat_ascii_embedding in Hc by lia. lia.
Qed.

(** Off the first byte of [U+0130], a byte is lowered on its own. *)
Lemma lowerDotted_cons a t :
  Ascii.eqb a (ascii_of_nat 196) = false ->
  Unicode.lowerDotted (String a t)
  = String (lowerByte a) (Unicode.lowerDotted t).
Proof. intros Ha. destruct t as [|b s']; simpl; [done|]. by rewrite Ha. Qed.

(** So is that byte before anything but the second byte. *)
Lemma lowerDotted_alone t :
  match t with
  | String b _ => Ascii.eqb b (ascii_of_nat 176)
  | EmptyString => false
  end = false ->
  Unicode.lowerDotted (String (ascii_of_nat 196) t)
  = String (ascii_of_nat 196) (Unicode.lowerDotted t).
Proof. intros Hb. destruct t as [|b s']; simpl; [done|]. by rewrite Hb. Qed.

(** Lowering puts no second byte of [U+0130] in front. *)
Lemma lowerDotted_head t :
  match t with
  | String b _ => Ascii.eqb b (ascii_of_nat 176)
  | EmptyString => false
  end = false ->
  match Unicode.lowerDotted t with
  | String b _ => Ascii.eqb b (ascii_of_nat 176)
  | EmptyString => false
  end = false.
Proof.
  destruct t as [|x u]; [done|]. intros Hx.
  assert (Hlow : Ascii.eqb (lowerByte x) (ascii_of_nat 176) = false).
  { apply Ascii.eqb_neq. intros Hl. apply Ascii.eqb_neq in Hx. apply Hx.
    by apply lowerByte_not_above. }
  destruct u as [|y s']; simpl; [done|].
  by destruct (Ascii.eqb x (ascii_of_nat 196) && Ascii.eqb y (ascii_of_nat 176)).
Qed.

(** The two bytes of [U+0130] become [i]. *)
Lemma lowerDotted_pair s :
  Unicode.lowerDotted
    (String (ascii_of_nat 196) (String (ascii_of_nat 176) s))
  = String "i" (Unicode.lowerDotted s).
Proof. reflexivity. Qed.

Lemma lowerDotted_lowersASCII : @Unicode.lowersASCII Unicode.dotted.
Proof.
  intros s.
  change (Unicode.isASCII s = true -> Unicode.lowerDotted s = ToLower s).
  induction s as [|a t IH]; [done|]. intros Hs.
  unfold Unicode.isASCII in Hs. cbn [list_ascii_of_string forallb] in Hs.
  apply andb_true_iff in Hs as [Ha Ht]. rewrite lowerDotted_cons.
  - cbn [ToLower]. f_equal. by apply IH.
  - apply Ascii.eqb_neq. intros ->. vm_compute in Ha. discriminate Ha.
Qed.

Lemma lowerDotted_idempotent : @Unicode.idempotent Unicode.dotted.
Proof.
  intros s.
  change (Unicode.lowerDotted (Unicode.lowerDotted s)
          = Unicode.lowerDotted s).
  assert (Hall : forall n s,
             (String.length s <= n)%nat ->
             Unicode.lowerDotted (Unicode.lowerDotted s)
             = Unicode.lowerDotted s);
    [|by apply (Hall (String.length s))].
  clear s. intros n. induction n as [|n IH]; intros s Hn.
  { destruct s; [done|simpl in Hn; lia]. }
  destruct s as [|a t]; [done|].
  destruct (Ascii.eqb a (ascii_of_nat 196)) eqn:Ha.
  - apply Ascii.eqb_eq in Ha. subst a.
    destruct t as [|b s']; [done|].
    destruct (Ascii.eqb b (ascii_of_nat 176)) eqn:Hb.
    + apply Ascii.eqb_eq in Hb. subst b. rewrite lowerDotted_pair.
      rewrite (lowerDotted_cons "i") by done. f_equal.
      apply IH. simpl in Hn. lia.
    + rewrite (lowerDotted_alone (String b s')) by done.
      rewrite lowerDotted_alone by (by apply lowerDotted_head).
      f_equal. apply IH. simpl in *. lia.
  - rewrite lowerDotted_cons by done.
    assert (Hlow : Ascii.eqb (lowerByte a) (ascii_of_nat 196) = false).
    { apply Ascii.eqb_neq. intros Hl. apply Ascii.eqb_neq in Ha. apply Ha.
      by apply lowerByte_not_above. }
    rewrite lowerDotted_cons by done. rewrite lowerByte_idem. f_equal.
    apply IH. simpl in Hn. lia.
Qed.

End UnicodeFacts.

Import UnicodeFacts.

(** ** Taint strings *)

Module AzureTaintFacts.

Import Azure.

(** C3. [constructTaintFromString] accepts a string whose effect is none of
    NoSchedule, NoExecute and PreferNoSchedule: the pattern is not anchored,
    so text after the word passes, and the effect of the returned taint is
    everything after the first colon. *)
Theorem constructTaintFromString_trailing_text :
  constructTaintFromString "k=v:NoScheduleX"
  = (true, V1.mkTaint "k" "v" "NoScheduleX").
Proof. reflexivity. Qed.

(** The same slip with a colon inside the value: the value is cut at the
    first colon and the rest becomes the effect. *)
Lemma constructTaintFromString_colon_in_value :
  constructTaintFromString "k=a:b:NoSchedule"
  = (true, V1.mkTaint "k" "a" "b:NoSchedule").
Proof. reflexivity. Qed.

(** The indices [values[0]] and [values[1]] of [constructTaintFromString]
    and [extractTaintsFromTags] are in range: a value the pattern matches
    is cut in two at its first colon. *)
Lemma taintRegexpMatchString_two_values v :
  taintRegexpMatchString v = true -> length (SplitN v ":" 2) = 2%nat.
Proof.
  unfold taintRegexpMatchString. intros Hv.
  apply orb_true_iff in Hv as [Hv|Hv];
    [apply orb_true_iff in Hv as [Hv|Hv]|];
    by eapply (SplitN_byte_two ":"%char).
Qed.

(** A string of the form key=value:effect, with no equals sign in the key
    and the value, no colon in the value, and one of the three effects, is
    turned into the taint with that key, value and effect. *)
Lemma constructTaintFromString_well_formed key value effect :
  freeOf "="%char key = true -> freeOf "="%char value = true ->
  freeOf ":"%char value = true ->
  In effect ["NoSchedule"; "NoExecute"; "PreferNoSchedule"] ->
  constructTaintFromString (key +:+ "=" +:+ value +:+ ":" +:+ effect)
  = (true, V1.mkTaint key value effect).
Proof.
  intros Hkey Hvalue Hcolon Heffect. unfold constructTaintFromString.
  assert (Hfree : freeOf "="%char (value +:+ ":" +:+ effect) = true).
  { rewrite freeOf_app, Hvalue. simpl in Heffect.
    destruct Heffect as [<-|[<-|[<-|[]]]]; reflexivity. }
  assert (Hsplit : Split (key +:+ "=" +:+ value +:+ ":" +:+ effect) "="
                   = [key; value +:+ ":" +:+ effect]).
  { unfold Split.
    change (key +:+ "=" +:+ value +:+ ":" +:+ effect)
      with (key +:+ String "="%char (value +:+ ":" +:+ effect)).
    rewrite split_byte_app by done. by rewrite split_byte_whole. }
  rewrite Hsplit. cbn [length Nat.eqb negb index nth].
  assert (Hmatch : taintRegexpMatchString (value +:+ ":" +:+ effect) = true).
  { unfold taintRegexpMatchString. simpl in Heffect.
    destruct Heffect as [<-|[<-|[<-|[]]]];
      rewrite ?(Contains_app value _ _ (Contains_here _));
      rewrite ?orb_true_r; reflexivity. }
  rewrite Hmatch. cbn [negb].
  change (value +:+ ":" +:+ effect) with (value +:+ String ":"%char effect).
  by rewrite SplitN_byte_app.
Qed.

(** The loop of [extractTaintsFromSpecString] parses the first occurrences
    of the segments, in order. *)
Lemma specStringLoop_keepFirst l seen acc :
  specStringLoop l seen acc
  = acc ++ buildNodeTaintsForVMPool (keepFirst seen l).
Proof.
  revert seen acc. induction l as [|x l IH]; intros seen acc; simpl.
  - by rewrite app_nil_r.
  - case_decide; [apply IH|].
    simpl. destruct (constructTaintFromString x) as [[] t]; rewrite IH.
    + by rewrite <- app_assoc.
    + done.
Qed.

Lemma keepFirst_sound seen l :
  Forall (fun x => (x ∉ seen) ∧ (x ∈ l)) (keepFirst seen l)
  ∧ NoDup (keepFirst seen l).
Proof.
  revert seen. induction l as [|x l IH]; intros seen; simpl.
  - split; constructor.
  - case_decide as Hx.
    + destruct (IH seen) as [Ha Hb]. split; [|done].
      eapply Forall_impl; [exact Ha|].
      intros y [Hy1 Hy2]. split; [done|]. by apply elem_of_cons; right.
    + destruct (IH ({[x]} ∪ seen)) as [Ha Hb]. split.
      * constructor.
        -- split; [done|]. by apply elem_of_cons; left.
        -- eapply Forall_impl; [exact Ha|].
           intros y [Hy1 Hy2]. split.
           ++ intros Hy. apply Hy1. apply elem_of_union. by right.
           ++ by apply elem_of_cons; right.
      * constructor; [|done]. intros Hin.
        rewrite Forall_forall in Ha. destruct (Ha _ Hin) as [Hn _].
        apply Hn. apply elem_of_union. left. by apply elem_of_singleton.
Qed.

Lemma keepFirst_fixed seen l :
  Forall (fun x => x ∉ seen) l -> NoDup l -> keepFirst seen l = l.
Proof.
  revert seen. induction l as [|x l IH]; intros seen Hall Hnd; [done|].
  inversion Hall as [|? ? Hx Hl]; subst.
  inversion Hnd as [|? ? Hxl Hndl]; subst. simpl.
  case_decide; [done|]. f_equal. apply IH; [|done].
  apply Forall_forall. intros y Hy Hin.
  apply elem_of_union in Hin as [Hin|Hin].
  - apply elem_of_singleton in Hin. by subst.
  - rewrite Forall_forall in Hl. by apply (Hl y).
Qed.

(** C9. Parsing a taints string gives the same list as parsing the string
    with only the first occurrence of each comma-separated segment kept, in
    the order of the first occurrences. *)
Theorem extractTaintsFromSpecString_first_occurrences s :
  extractTaintsFromSpecString s
  = extractTaintsFromSpecString (Join (keepFirst ∅ (Split s ",")) ",").
Proof.
  unfold extractTaintsFromSpecString.
  rewrite !specStringLoop_keepFirst. f_equal. f_equal.
  set (d := keepFirst ∅ (Split s ",")).
  destruct (keepFirst_sound ∅ (Split s ",")) as [Ha Hb]. fold d in Ha, Hb.
  assert (Hd : Split (Join d ",") "," = d).
  { apply (Split_Join_byte ","%char).
    - unfold d, Split. destruct (split_go "," 0 s) as [|x l] eqn:E.
      + by destruct (split_go_not_nil "," 0 s).
      + simpl. case_decide as Hx; [|done].
        by apply not_elem_of_empty in Hx.
    - pose proof (split_byte_free ","%char s) as Hs.
      rewrite Forall_forall in Ha, Hs. apply Forall_forall. intros x Hx.
      apply Hs. by apply Ha. }
  rewrite Hd. symmetry. apply keepFirst_fixed; [|done].
  eapply Forall_impl; [exact Ha|]. by intros x [Hx _].
Qed.

(** A repeated entry adds nothing. *)
Example extractTaintsFromSpecString_repeated :
  extractTaintsFromSpecString "a=b:NoExecute,zz,a=b:NoExecute,c=d:NoSchedule"
  = extractTaintsFromSpecString "a=b:NoExecute,zz,c=d:NoSchedule".
Proof. reflexivity. Qed.

End AzureTaintFacts.
(** ** Enum mappings and request validation *)

Module OciCoreFacts.

Import OciCore.

Lemma EqualFold_ToLower s t :
  EqualFold s t = true <-> ToLower s = ToLower t.
Proof.
  revert t. induction s as [|a s IH]; intros [|b t]; simpl; try done.
  rewrite andb_true_iff, Ascii.eqb_eq, IH. split.
  - by intros [-> ->].
  - intros Heq. by inversion Heq.
Qed.

(** C10. With [strings.ToLower] lowering a string of ASCII bytes letter by
    letter, and changing nothing in a string it has lowered: every listed
    lifecycle-state string maps to the enum value spelled like it, and
    mapping a string, of whatever bytes, gives the same result as mapping
    it in lower case. *)
Theorem GetMappingBlockVolumeReplicaLifecycleStateEnum_round_trip
    `{Unicode.Lowering} :
  Unicode.lowersASCII ->
  Unicode.idempotent ->
  (forall s, In s GetBlockVolumeReplicaLifecycleStateEnumStringValues ->
             GetMappingBlockVolumeReplicaLifecycleStateEnum s = (s, true))
  /\ (forall s, GetMappingBlockVolumeReplicaLifecycleStateEnum s
                = GetMappingBlockVolumeReplicaLifecycleStateEnum
                    (Unicode.ToLower s)).
Proof.
  intros Hascii Hidem. split.
  - intros s Hs. unfold GetMappingBlockVolumeReplicaLifecycleStateEnum.
    simpl in Hs.
    repeat (destruct Hs as [<-|Hs];
            [by rewrite Hascii by reflexivity|]).
    destruct Hs.
  - intros s. unfold GetMappingBlockVolumeReplicaLifecycleStateEnum.
    by rewrite Hidem.
Qed.

Lemma GetMappingBlockVolumeReplicaLifecycleStateEnum_round_trip_witness :
  @Unicode.lowersASCII Unicode.dotted
  /\ @Unicode.idempotent Unicode.dotted
  /\ (forall s,
        In s GetBlockVolumeReplicaLifecycleStateEnumStringValues ->
        GetMappingBlockVolumeReplicaLifecycleStateEnum (H := Unicode.dotted)
          s
        = (s, true))
  /\ (forall s,
        GetMappingBlockVolumeReplicaLifecycleStateEnum (H := Unicode.dotted)
          s
        = GetMappingBlockVolumeReplicaLifecycleStateEnum
            (H := Unicode.dotted)
            (Unicode.ToLower (Lowering := Unicode.dotted) s)).
Proof.
  split; [exact lowerDotted_lowersASCII|].
  split; [exact lowerDotted_idempotent|].
  exact (GetMappingBlockVolumeReplicaLifecycleStateEnum_round_trip
           (H := Unicode.dotted) lowerDotted_lowersASCII
           lowerDotted_idempotent).
Defined.

(** With [U+0130] lowered to [i], a state spelled with it is recognized. *)
Example GetMappingBlockVolumeReplicaLifecycleStateEnum_dotted :
  GetMappingBlockVolumeReplicaLifecycleStateEnum (H := Unicode.dotted)
    ("PROV" +:+ Unicode.dottedI +:+ "SIONING")
  = ("PROVISIONING", true).
Proof. reflexivity. Qed.

Lemma sortOrder_recognized s :
  snd (GetMappingListAppCatalogListingResourceVersionsSortOrderEnum s) = true
  <-> EqualFold s "ASC" = true \/ EqualFold s "DESC" = true.
Proof.
  rewrite !EqualFold_ToLower.
  change (ToLower "ASC") with "asc". change (ToLower "DESC") with "desc".
  unfold GetMappingListAppCatalogListingResourceVersionsSortOrderEnum,
    mappingListAppCatalogListingResourceVersionsSortOrderEnumLowerCase.
  simpl list_to_map.
  rewrite lookup_insert. case_decide as H1.
  { simpl. split; [intros _; by left|done]. }
  rewrite lookup_insert. case_decide as H2.
  { simpl. split; [intros _; by right|done]. }
  rewrite lookup_empty. simpl. split; [done|]. intros [E|E]; congruence.
Qed.

(** [ValidateEnumValue] reports an error exactly for a sort order that is
    neither empty nor recognized. *)
Lemma ValidateEnumValue_error request :
  match snd (ValidateEnumValue request) with
  | Some _ =>
      SortOrder request <> ""
      /\ EqualFold (SortOrder request) "ASC" = false
      /\ EqualFold (SortOrder request) "DESC" = false
  | None =>
      ValidateEnumValue request = (false, None)
      /\ (SortOrder request = ""
          \/ EqualFold (SortOrder request) "ASC" = true
          \/ EqualFold (SortOrder request) "DESC" = true)
  end.
Proof.
  unfold ValidateEnumValue.
  pose proof (sortOrder_recognized (SortOrder request)) as Hrec.
  destruct (snd (GetMappingListAppCatalogListingResourceVersionsSortOrderEnum
                   (SortOrder request))) eqn:Hok; simpl.
  - split; [done|]. right. by apply Hrec.
  - destruct (String.eqb (SortOrder request) "") eqn:Hempty; simpl.
    + apply String.eqb_eq in Hempty. split; [done|]. by left.
    + apply String.eqb_neq in Hempty. split; [done|].
      destruct (EqualFold (SortOrder request) "ASC") eqn:Ha;
        [destruct Hrec as [_ Hr]; discriminate Hr; by left|].
      destruct (EqualFold (SortOrder request) "DESC") eqn:Hd;
        [destruct Hrec as [_ Hr]; discriminate Hr; by right|].
      done.
Qed.

(** C7. When the request builder of package [common] never answers with an
    error next to the zero request, [HTTPRequest] returns an error together
    with the zero [http.Request] exactly when the sort order is neither
    empty nor, ignoring case, ASC or DESC; for an empty or recognized sort
    order the validation reports no error and the builder's answer is
    returned. *)
Theorem HTTPRequest_error_iff_unsupported_sort_order
    (HttpRequest : Type) (zeroHttpRequest : HttpRequest)
    (OCIReadSeekCloser : Type)
    (MakeDefault :
       string -> string -> ListAppCatalogListingResourceVersionsRequest ->
       gmap string string -> HttpRequest * option error)
    (HMakeDefault :
       forall method path request extraHeaders err,
         MakeDefault method path request extraHeaders
         <> (zeroHttpRequest, Some err))
    request method path (body : option OCIReadSeekCloser) extraHeaders :
  ((exists err,
      HTTPRequest HttpRequest zeroHttpRequest OCIReadSeekCloser MakeDefault
        request method path body extraHeaders = (zeroHttpRequest, Some err))
   <-> (SortOrder request <> ""
        /\ EqualFold (SortOrder request) "ASC" = false
        /\ EqualFold (SortOrder request) "DESC" = false))
  /\ (SortOrder request = ""
      \/ EqualFold (SortOrder request) "ASC" = true
      \/ EqualFold (SortOrder request) "DESC" = true ->
      ValidateEnumValue request = (false, None)
      /\ HTTPRequest HttpRequest zeroHttpRequest OCIReadSeekCloser MakeDefault
           request method path body extraHeaders
         = MakeDefault method path request extraHeaders).
Proof.
  unfold HTTPRequest.
  pose proof (ValidateEnumValue_error request) as Hv.
  destruct (snd (ValidateEnumValue request)) as [e|] eqn:Hsnd.
  - destruct Hv as (Hne & Ha & Hd). split.
    + split; [done|]. intros _. by exists e.
    + intros [Hs|[Hs|Hs]]; congruence.
  - destruct Hv as [Hval Hcase]. split; [|done]. split.
    + intros [err Herr]. by apply HMakeDefault in Herr.
    + intros (Hne & Ha & Hd). destruct Hcase as [Hs|[Hs|Hs]]; congruence.
Qed.

(** A builder that answers with the path as the request: the sort order
    "sideways" is refused before it is called. *)
Lemma HTTPRequest_error_iff_unsupported_sort_order_witness :
  (forall (method path : string)
          (request : ListAppCatalogListingResourceVersionsRequest)
          (extraHeaders : gmap string string) (err : error),
      (Some path, @None error) <> (@None string, Some err))
  /\ ((exists err,
         HTTPRequest (option string) None unit
           (fun _ path _ _ => (Some path, None))
           (mkRequest None None None "sideways" None) "GET" "/listings" None ∅
         = (None, Some err))
      <-> ("sideways" <> ""
           /\ EqualFold "sideways" "ASC" = false
           /\ EqualFold "sideways" "DESC" = false)).
Proof.
  split; [done|].
  apply (HTTPRequest_error_iff_unsupported_sort_order (option string) None unit
           (fun _ path _ _ => (Some path, None))
           ltac:(done)
           (mkRequest None None None "sideways" None) "GET" "/listings" None ∅).
Defined.

Example HTTPRequest_lower_case_desc :
  HTTPRequest (option string) None unit (fun _ path _ _ => (Some path, None))
    (mkRequest None None None "desc" None) "GET" "/listings" None ∅
  = (Some "/listings", None).
Proof. reflexivity. Qed.

End OciCoreFacts.

(** ** The template read from a scale set *)

Module AzureTemplateFacts.

Import Azure.

Section WithExternals.

Context `{Externals}.

(** C5. [buildNodeTemplateFromVMSS] returns an error exactly when the scale
    set has no SKU name or no location; otherwise the template carries the
    SKU name and the location of the scale set, and no zones when the scale
    set has no zones field. *)
Theorem buildNodeTemplateFromVMSS_error_iff vmss inputLabels inputTaints :
  let result := buildNodeTemplateFromVMSS vmss inputLabels inputTaints in
  (is_Some (snd result)
   <-> (Compute.Sku_ vmss = None
        \/ (exists sku, Compute.Sku_ vmss = Some sku /\ Compute.Name sku = None)
        \/ Compute.Location vmss = None))
  /\ (snd result = None ->
      exists sku,
        Compute.Sku_ vmss = Some sku
        /\ Compute.Name sku = Some (SkuName (fst result))
        /\ Compute.Location vmss = Some (Location (fst result))
        /\ (Compute.Zones vmss = None -> Zones (fst result) = [])
        /\ (forall zones, Compute.Zones vmss = Some zones ->
                          Zones (fst result) = zones)).
Proof.
  unfold buildNodeTemplateFromVMSS.
  destruct (Compute.Sku_ vmss) as [sku|] eqn:Hsku; simpl.
  2:{ split; [|done]. split; [intros _; by left|by eauto]. }
  destruct (Compute.Name sku) as [name|] eqn:Hname; simpl.
  2:{ split; [|done]. split; [|by eauto].
      intros _. right. left. by exists sku. }
  destruct (Compute.Location vmss) as [location|] eqn:Hloc; simpl.
  2:{ split; [|done]. split; [intros _; by right; right|by eauto]. }
  split.
  - split; [intros [? [=]]|].
    intros [[=]|[(sku' & [= <-] & Hn)|[=]]]. congruence.
  - intros _. exists sku. repeat split; try done.
    + by intros ->.
    + by intros zones ->.
Qed.

End WithExternals.

(** A scale set without a location is refused, one with SKU and location is
    read. *)
Example buildNodeTemplateFromVMSS_no_location :
  buildNodeTemplateFromVMSS (H := Fixtures.externals)
    (Compute.mkVMSS (Some (Compute.mkSku (Some "Standard_D2_v2")))
                    (Some "vmss-1") None None ∅ None) ∅ ""
  = (zeroNodeTemplate, Some (Errorf "VMSS %s has no location" ["vmss-1"])).
Proof. reflexivity. Qed.

End AzureTemplateFacts.

(** ** The order of visit *)

Module GoRuntimeFacts.

Lemma visit_Permutation {X} (o : RangeOrder) (m : gmap string X) :
  visit o m ≡ₚ map_to_list m.
Proof. apply merge_sort_Permutation. Qed.

Lemma position_lookup (ks : list string) i k :
  NoDup ks -> ks !! i = Some k -> position ks k = i.
Proof.
  intros Hks. revert i. induction Hks as [|k' ks Hk' Hks IH]; intros i Hi.
  - by rewrite lookup_nil in Hi.
  - simpl. destruct i as [|i]; simpl in Hi.
    + inversion Hi; subst k'. by rewrite String.eqb_refl.
    + destruct (String.eqb k' k) eqn:Heq.
      * apply String.eqb_eq in Heq. subst k'.
        by apply list_elem_of_lookup_2 in Hi.
      * f_equal. by apply IH.
Qed.

Lemma StronglySorted_by_index {A} (R : relation A) (l : list A) :
  (forall i j x y, (i < j)%nat -> l !! i = Some x -> l !! j = Some y -> R x y) ->
  StronglySorted R l.
Proof.
  induction l as [|x l IH]; intros Hl; constructor.
  - apply IH. intros i j a b Hij Ha Hb. by apply (Hl (S i) (S j)); [lia|..].
  - apply Forall_lookup. intros j y Hy. by apply (Hl 0%nat (S j)); [lia|..].
Qed.

Lemma StronglySorted_same {A} (R : relation A) (l1 l2 : list A) :
  (forall x y, x ∈ l1 -> y ∈ l1 -> R x y -> R y x -> x = y) ->
  StronglySorted R l1 -> StronglySorted R l2 -> l1 ≡ₚ l2 -> l1 = l2.
Proof.
  intros Hanti Hs1. revert l2 Hanti.
  induction Hs1 as [|x l1 Hs1 IH Hx]; intros l2 Hanti Hs2 Hperm.
  - by apply Permutation_nil_l in Hperm.
  - destruct Hs2 as [|y l2 Hs2 Hy].
    { by apply Permutation_nil_r in Hperm. }
    assert (x = y) as <-.
    { assert (Hxin : x ∈ y :: l2) by (rewrite <- Hperm; left).
      assert (Hyin : y ∈ x :: l1) by (rewrite Hperm; left).
      apply elem_of_cons in Hxin as [?|Hxin]; [done|].
      apply elem_of_cons in Hyin as [?|Hyin]; [done|].
      apply Hanti; [left|by right|..].
      - by eapply (proj1 (Forall_forall _ _) Hx).
      - by eapply (proj1 (Forall_forall _ _) Hy). }
    f_equal. apply IH; [|done|by eapply Permutation_cons_inv].
    intros a b Ha Hb. apply Hanti; by right.
Qed.

#[local] Instance visitedBefore_trans {X} o : Transitive (@visitedBefore X o).
Proof. unfold visitedBefore. intros x y z. lia. Qed.

#[local] Instance visitedBefore_total {X} o : Total (@visitedBefore X o).
Proof. unfold visitedBefore. intros x y. lia. Qed.

(** Every order of the keys is the order of visit for some ranks. *)
Lemma visit_any_order {X} (m : gmap string X) (l : list (string * X)) t :
  l ≡ₚ map_to_list m -> visit (inOrderOf l.*1 t) m = l.
Proof.
  intros Hperm. set (o := inOrderOf l.*1 t).
  assert (Hnodup : NoDup l.*1).
  { rewrite Hperm. apply NoDup_fst_map_to_list. }
  assert (Hrank : forall i x, l !! i = Some x -> rank o (turn o) x.1 = i).
  { intros i x Hx. apply position_lookup; [done|].
    by rewrite list_lookup_fmap, Hx. }
  symmetry. apply (StronglySorted_same (visitedBefore o)).
  - intros x y Hx Hy Hxy Hyx. unfold visitedBefore in *.
    apply list_elem_of_lookup_1 in Hx as [i Hi].
    apply list_elem_of_lookup_1 in Hy as [j Hj].
    rewrite (Hrank i x Hi), (Hrank j y Hj) in *.
    assert (i = j) by lia. congruence.
  - apply StronglySorted_by_index. intros i j x y Hij Hx Hy.
    unfold visitedBefore. rewrite (Hrank i x Hx), (Hrank j y Hy). lia.
  - apply Sorted_StronglySorted; [apply _|]. apply Sorted_merge_sort. apply _.
  - by rewrite (visit_Permutation o m).
Qed.

End GoRuntimeFacts.

Import GoRuntimeFacts.

(** ** Rules for runs *)

Module GoLogicFacts.

Section Rules.

Context {V : Type}.
Implicit Types w : World V.

(** *** Runs that may panic *)

Lemma wp_ret {A} (a : A) w Q : Q a w -> wp (ret a) w Q.
Proof. done. Qed.

Lemma wp_bind {A B} (m : M V A) (k : A -> M V B) w Q :
  wp m w (fun a w' => wp (k a) w' Q) -> wp (bind m k) w Q.
Proof. unfold wp, bind. by destruct (m w) as [[a w']|]. Qed.

Lemma wp_lift {A} (o : outcome A) w Q :
  (forall a, o = Returned a -> Q a w) -> wp (lift o) w Q.
Proof. unfold wp, lift. destruct o; [|done]. intros HQ. by apply HQ. Qed.

Lemma wp_mono {A} (m : M V A) w (Q Q' : A -> World V -> Prop) :
  wp m w Q -> (forall a w', Q a w' -> Q' a w') -> wp m w Q'.
Proof.
  unfold wp. destruct (m w) as [[a w']|]; [|done]. intros HQ HI. by apply HI.
Qed.

Lemma wp_any {A} (m : M V A) w (Q : A -> World V -> Prop) :
  (forall a w', Q a w') -> wp m w Q.
Proof. unfold wp. destruct (m w) as [[a w']|]; [|done]. intros HQ. apply HQ. Qed.

Lemma wp_returned {A} (m : M V A) w Q a w' :
  wp m w Q -> m w = Returned (a, w') -> Q a w'.
Proof. unfold wp. intros HQ Hm. by rewrite Hm in HQ. Qed.

Lemma holds_update w c m r o m' :
  holds w c m -> holds (mkWorld r o (<[c := m']> (heap w))) c m'.
Proof.
  unfold holds. intros Hm. simpl. apply list_lookup_insert_eq.
  by eapply lookup_lt_Some.
Qed.

Lemma holds_same_heap w w' c (m : gmap string V) :
  heap w' = heap w -> holds w c m -> holds w' c m.
Proof. unfold holds. by intros ->. Qed.

Lemma entries_holds w c (m : gmap string V) :
  holds w c m -> entries w (Some c) = m.
Proof. unfold holds, entries. by intros ->. Qed.

Lemma mapAssign_run w c m k v :
  holds w c m ->
  mapAssign (Some c) k v w
  = Returned (tt, mkWorld (rand w) (order w)
                    (<[c := <[k := v]> m]> (heap w))).
Proof. unfold holds, mapAssign. by intros ->. Qed.

Lemma wp_mapAssign w c m k v (Q : unit -> World V -> Prop) :
  holds w c m ->
  (forall w', holds w' c (<[k := v]> m) -> Q tt w') ->
  wp (mapAssign (Some c) k v) w Q.
Proof.
  intros Hm HQ. unfold wp. rewrite (mapAssign_run w c m) by done.
  apply HQ. by eapply holds_update.
Qed.

Lemma wp_forEach_assign w c m (l : list (string * V))
    (Q : unit -> World V -> Prop) :
  holds w c m ->
  (forall w', holds w' c (assignAll m l) -> Q tt w') ->
  wp (forEach (fun '(k, v) => mapAssign (Some c) k v) l) w Q.
Proof.
  revert w m. induction l as [|[k v] l IH]; intros w m Hm HQ.
  - apply wp_ret. by apply HQ.
  - cbn [forEach]. apply wp_bind. eapply wp_mapAssign; [done|].
    intros w' Hw'. eapply IH; [done|]. exact HQ.
Qed.

Lemma wp_rangeMapM_assign w c m (res : gmap string V)
    (Q : unit -> World V -> Prop) :
  holds w c m ->
  (forall w', holds w' c (assignAll m (visit (order w) res)) -> Q tt w') ->
  wp (rangeMapM res (fun '(k, v) => mapAssign (Some c) k v)) w Q.
Proof.
  intros Hm HQ. unfold rangeMapM.
  change (wp (forEach (fun '(k, v) => mapAssign (Some c) k v)
                (visit (order w) res))
             (mkWorld (rand w) (nextTurn (order w)) (heap w)) Q).
  eapply wp_forEach_assign; [|exact HQ]. exact Hm.
Qed.

Lemma rangeMap_returned {X S} (m : gmap string X)
    (body : S -> string * X -> outcome S) (s s' : S) w w' :
  rangeMap m body s w = Returned (s', w') ->
  rangeO body (visit (order w) m) s = Returned s' /\ heap w' = heap w.
Proof.
  unfold rangeMap.
  destruct (rangeO body (visit (order w) m) s) as [s0|]; [|done].
  intros Hrun. by inversion Hrun.
Qed.

Lemma wp_run {A} (m : M V A) w (Q : A -> World V -> Prop) :
  (forall a w', m w = Returned (a, w') -> Q a w') -> wp m w Q.
Proof.
  unfold wp. destruct (m w) as [[a w']|]; [|done]. intros HQ. by apply HQ.
Qed.

Lemma wp_Int63 w (Q : Z -> World V -> Prop) :
  Q (draws (rand w) (cursor (rand w)) mod 2 ^ 63)
    (mkWorld (advance (rand w)) (order w) (heap w)) ->
  wp Int63 w Q.
Proof. done. Qed.

Lemma wp_newMap w (Q : option addr -> World V -> Prop) :
  (forall w', holds w' (length (heap w)) ∅ -> Q (Some (length (heap w))) w') ->
  wp newMap w Q.
Proof.
  intros HQ. unfold wp, newMap. apply HQ. unfold holds. simpl.
  rewrite lookup_app_r by lia. by rewrite Nat.sub_diag.
Qed.

(** *** Two runs side by side *)

Lemma rel_ret {A} (a1 a2 : A) w1 w2 Q :
  Q a1 w1 a2 w2 -> rel (ret a1) (ret a2) w1 w2 Q.
Proof. by intros HQ Ho. Qed.

Lemma rel_bind {A B} (m1 m2 : M V A) (k1 k2 : A -> M V B) w1 w2 Q :
  rel m1 m2 w1 w2 (fun a1 w1' a2 w2' => rel (k1 a1) (k2 a2) w1' w2' Q) ->
  rel (bind m1 k1) (bind m2 k2) w1 w2 Q.
Proof.
  unfold rel, bind. intros Hm Ho. specialize (Hm Ho).
  destruct (m1 w1) as [[a1 w1']|], (m2 w2) as [[a2 w2']|]; try done.
  destruct Hm as [Ho' Hk]. by apply Hk.
Qed.

Lemma rel_mono {A} (m1 m2 : M V A) w1 w2
    (Q Q' : A -> World V -> A -> World V -> Prop) :
  rel m1 m2 w1 w2 Q ->
  (forall a1 w1' a2 w2', Q a1 w1' a2 w2' -> Q' a1 w1' a2 w2') ->
  rel m1 m2 w1 w2 Q'.
Proof.
  unfold rel. intros Hm HI Ho. specialize (Hm Ho).
  destruct (m1 w1) as [[a1 w1']|], (m2 w2) as [[a2 w2']|]; try done.
  destruct Hm as [Ho' HQ]. split; [done|]. by apply HI.
Qed.

Lemma rel_lift {A} (o : outcome A) w1 w2 Q :
  (forall a, o = Returned a -> Q a w1 a w2) -> rel (lift o) (lift o) w1 w2 Q.
Proof.
  unfold rel, lift. intros HQ Ho. destruct o; [|done]. split; [done|].
  by apply HQ.
Qed.

Lemma rel_mapAssign w1 w2 c1 c2 m1 m2 k v1 v2
    (Q : unit -> World V -> unit -> World V -> Prop) :
  holds w1 c1 m1 -> holds w2 c2 m2 ->
  (forall w1' w2',
      holds w1' c1 (<[k := v1]> m1) -> holds w2' c2 (<[k := v2]> m2) ->
      Q tt w1' tt w2') ->
  rel (mapAssign (Some c1) k v1) (mapAssign (Some c2) k v2) w1 w2 Q.
Proof.
  intros H1 H2 HQ Ho. 
  rewrite (mapAssign_run w1 c1 m1), (mapAssign_run w2 c2 m2) by done.
  split; [done|]. apply HQ; by eapply holds_update.
Qed.

Lemma rel_forEach_assign w1 w2 c1 c2 m1 m2 (l : list (string * V))
    (Q : unit -> World V -> unit -> World V -> Prop) :
  holds w1 c1 m1 -> holds w2 c2 m2 ->
  (forall w1' w2',
      holds w1' c1 (assignAll m1 l) -> holds w2' c2 (assignAll m2 l) ->
      Q tt w1' tt w2') ->
  rel (forEach (fun '(k, v) => mapAssign (Some c1) k v) l)
      (forEach (fun '(k, v) => mapAssign (Some c2) k v) l) w1 w2 Q.
Proof.
  revert w1 w2 m1 m2. induction l as [|[k v] l IH]; intros w1 w2 m1 m2 H1 H2 HQ.
  - apply rel_ret. by apply HQ.
  - cbn [forEach]. apply rel_bind. eapply rel_mapAssign; [done..|].
    intros w1' w2' H1' H2'. eapply IH; [done..|]. exact HQ.
Qed.

Lemma rel_rangeMapM_assign w1 w2 c1 c2 m (res : gmap string V)
    (Q : unit -> World V -> unit -> World V -> Prop) :
  holds w1 c1 m -> holds w2 c2 m ->
  (forall w1' w2' m', holds w1' c1 m' -> holds w2' c2 m' -> Q tt w1' tt w2') ->
  rel (rangeMapM res (fun '(k, v) => mapAssign (Some c1) k v))
      (rangeMapM res (fun '(k, v) => mapAssign (Some c2) k v)) w1 w2 Q.
Proof.
  intros H1 H2 HQ Ho. unfold rangeMapM. rewrite <- Ho.
  eapply (rel_forEach_assign
            (mkWorld (rand w1) (nextTurn (order w1)) (heap w1))
            (mkWorld (rand w2) (nextTurn (order w1)) (heap w2)));
    [exact H1|exact H2| |reflexivity].
  intros w1' w2' H1' H2'. by eapply HQ.
Qed.

Lemma rangeO_related {A S} (R : S -> S -> Prop)
    (body1 body2 : S -> A -> outcome S) (l : list A) (s1 s2 : S) :
  (forall s1 s2 x, R s1 s2 ->
     match body1 s1 x, body2 s2 x with
     | Returned s1', Returned s2' => R s1' s2'
     | Panicked, Panicked => True
     | _, _ => False
     end) ->
  R s1 s2 ->
  match rangeO body1 l s1, rangeO body2 l s2 with
  | Returned s1', Returned s2' => R s1' s2'
  | Panicked, Panicked => True
  | _, _ => False
  end.
Proof.
  intros Hbody. revert s1 s2. induction l as [|x l IH]; intros s1 s2 Hs; [done|].
  simpl. specialize (Hbody s1 s2 x Hs).
  destruct (body1 s1 x) as [s1'|], (body2 s2 x) as [s2'|]; try done.
  simpl. by apply IH.
Qed.

(** Two loops over the same map, from states with the same order: the keys
    are visited in the same order, so a relation the bodies keep holds at
    the end. *)
Lemma rel_rangeMap {X S} (R : S -> S -> Prop) (m : gmap string X)
    (body1 body2 : S -> string * X -> outcome S) (s1 s2 : S) w1 w2
    (Q : S -> World V -> S -> World V -> Prop) :
  (forall s1 s2 x, R s1 s2 ->
     match body1 s1 x, body2 s2 x with
     | Returned s1', Returned s2' => R s1' s2'
     | Panicked, Panicked => True
     | _, _ => False
     end) ->
  R s1 s2 ->
  (forall s1' s2' w1' w2',
      R s1' s2' -> heap w1' = heap w1 -> heap w2' = heap w2 ->
      Q s1' w1' s2' w2') ->
  rel (rangeMap m body1 s1) (rangeMap m body2 s2) w1 w2 Q.
Proof.
  intros Hbody Hs HQ Ho. unfold rangeMap. rewrite <- Ho.
  pose proof (rangeO_related R body1 body2 (visit (order w1) m) s1 s2
                Hbody Hs) as Hrun.
  destruct (rangeO body1 _ s1) as [s1'|], (rangeO body2 _ s2) as [s2'|];
    try done.
  split; [done|]. by apply HQ.
Qed.

Lemma rel_rangeMap_same {X S} (m : gmap string X)
    (body : S -> string * X -> outcome S) (s : S) w1 w2
    (Q : S -> World V -> S -> World V -> Prop) :
  (forall s' w1' w2',
      heap w1' = heap w1 -> heap w2' = heap w2 -> Q s' w1' s' w2') ->
  rel (rangeMap m body s) (rangeMap m body s) w1 w2 Q.
Proof.
  intros HQ. apply (rel_rangeMap eq); [|done|].
  - intros s1 ? x <-. by destruct (body s1 x).
  - intros s1' ? w1' w2' <-. apply HQ.
Qed.

Lemma rel_Int63 w1 w2 (Q : Z -> World V -> Z -> World V -> Prop) :
  (forall r1 r2 w1' w2',
      heap w1' = heap w1 -> heap w2' = heap w2 -> Q r1 w1' r2 w2') ->
  rel Int63 Int63 w1 w2 Q.
Proof. intros HQ Ho. unfold Int63. split; [done|]. by apply HQ. Qed.

Lemma rel_newMap w1 w2
    (Q : option addr -> World V -> option addr -> World V -> Prop) :
  (forall w1' w2',
      holds w1' (length (heap w1)) ∅ -> holds w2' (length (heap w2)) ∅ ->
      Q (Some (length (heap w1))) w1' (Some (length (heap w2))) w2') ->
  rel newMap newMap w1 w2 Q.
Proof.
  intros HQ Ho. unfold newMap. split; [done|]. apply HQ; unfold holds; simpl;
    rewrite lookup_app_r by lia; by rewrite Nat.sub_diag.
Qed.

(** *** Runs that return *)

Lemma twp_ret {A} (a : A) w Q : Q a w -> twp (ret a) w Q.
Proof. done. Qed.

Lemma twp_bind {A B} (m : M V A) (k : A -> M V B) w Q :
  twp m w (fun a w' => twp (k a) w' Q) -> twp (bind m k) w Q.
Proof. unfold twp, bind. by destruct (m w) as [[a w']|]. Qed.

Lemma twp_lift {A} (o : outcome A) a w (Q : A -> World V -> Prop) :
  o = Returned a -> Q a w -> twp (lift o) w Q.
Proof. by intros ->. Qed.

Lemma twp_mono {A} (m : M V A) w (Q Q' : A -> World V -> Prop) :
  twp m w Q -> (forall a w', Q a w' -> Q' a w') -> twp m w Q'.
Proof.
  unfold twp. destruct (m w) as [[a w']|]; [|done]. intros HQ HI. by apply HI.
Qed.

Lemma twp_returns {A} (m : M V A) w Q :
  twp m w Q -> exists a w', m w = Returned (a, w') /\ Q a w'.
Proof. unfold twp. destruct (m w) as [[a w']|]; [by eauto|done]. Qed.

Lemma twp_mapAssign w c m k v (Q : unit -> World V -> Prop) :
  holds w c m ->
  (forall w', holds w' c (<[k := v]> m) -> Q tt w') ->
  twp (mapAssign (Some c) k v) w Q.
Proof.
  intros Hm HQ. unfold twp. rewrite (mapAssign_run w c m) by done.
  apply HQ. by eapply holds_update.
Qed.

Lemma twp_forEach_assign w c m (l : list (string * V))
    (Q : unit -> World V -> Prop) :
  holds w c m ->
  (forall w', holds w' c (assignAll m l) -> Q tt w') ->
  twp (forEach (fun '(k, v) => mapAssign (Some c) k v) l) w Q.
Proof.
  revert w m. induction l as [|[k v] l IH]; intros w m Hm HQ.
  - apply twp_ret. by apply HQ.
  - cbn [forEach]. apply twp_bind. eapply twp_mapAssign; [done|].
    intros w' Hw'. eapply IH; [done|]. exact HQ.
Qed.

Lemma twp_rangeMapM_assign w c m (res : gmap string V)
    (Q : unit -> World V -> Prop) :
  holds w c m ->
  (forall w' m', holds w' c m' -> Q tt w') ->
  twp (rangeMapM res (fun '(k, v) => mapAssign (Some c) k v)) w Q.
Proof.
  intros Hm HQ. unfold rangeMapM.
  change (twp (forEach (fun '(k, v) => mapAssign (Some c) k v)
                 (visit (order w) res))
              (mkWorld (rand w) (nextTurn (order w)) (heap w)) Q).
  eapply twp_forEach_assign; [exact Hm|]. intros w' Hw'. by eapply HQ.
Qed.

Lemma twp_Int63 w (Q : Z -> World V -> Prop) :
  (forall r w', heap w' = heap w -> Q r w') -> twp Int63 w Q.
Proof. intros HQ. unfold twp, Int63. by apply HQ. Qed.

Lemma twp_newMap w (Q : option addr -> World V -> Prop) :
  (forall w', holds w' (length (heap w)) ∅ -> Q (Some (length (heap w))) w') ->
  twp newMap w Q.
Proof.
  intros HQ. unfold twp, newMap. apply HQ. unfold holds. simpl.
  rewrite lookup_app_r by lia. by rewrite Nat.sub_diag.
Qed.

(** A loop whose body returns on every element returns. *)
Lemma rangeO_returns {A S} (body : S -> A -> outcome S) (P : A -> Prop)
    (l : list A) (s : S) :
  Forall P l ->
  (forall s x, P x -> exists s', body s x = Returned s') ->
  exists s', rangeO body l s = Returned s'.
Proof.
  intros Hl Hbody. revert s. induction Hl as [|x l Hx Hl IH]; intros s.
  - by exists s.
  - simpl. destruct (Hbody s x Hx) as [s' ->]. simpl. apply IH.
Qed.

Lemma twp_rangeMap {X S} (m : gmap string X) (P : X -> Prop)
    (body : S -> string * X -> outcome S) (s : S) w
    (Q : S -> World V -> Prop) :
  map_Forall (fun _ => P) m ->
  (forall s k x, P x -> exists s', body s (k, x) = Returned s') ->
  (forall s' w', heap w' = heap w -> Q s' w') ->
  twp (rangeMap m body s) w Q.
Proof.
  intros Hm Hbody HQ. unfold twp, rangeMap.
  destruct (rangeO_returns body (fun kx => P kx.2) (visit (order w) m) s)
    as [s' ->].
  - rewrite (visit_Permutation (order w) m).
    apply map_Forall_to_list in Hm.
    eapply Forall_impl; [exact Hm|]. by intros [k x].
  - intros s0 [k x] Hx. by apply Hbody.
  - by apply HQ.
Qed.

(** The keys of a map are distinct, so assigning its entries gives the
    same map in whatever order they are visited. *)
Lemma assignAll_NoDup (m : gmap string V) (l : list (string * V)) :
  NoDup l.*1 -> assignAll m l = list_to_map l ∪ m.
Proof.
  revert m. induction l as [|[k v] l IH]; intros m Hl.
  - simpl. by rewrite (left_id_L ∅ (∪)).
  - apply NoDup_cons in Hl as [Hk Hl]. cbn [assignAll foldl].
    change (foldl _ (<[k := v]> m) l) with (assignAll (<[k := v]> m) l).
    rewrite IH by done. cbn [list_to_map foldr fmap]. simpl.
    rewrite <- insert_union_l. apply map_eq. intros k'.
    rewrite lookup_insert, !lookup_union, lookup_insert.
    case_decide as Hkk; [|done]. subst k'.
    by rewrite (not_elem_of_list_to_map_1 _ k Hk).
Qed.

Lemma assignAll_visit (m res : gmap string V) o :
  assignAll m (visit o res) = res ∪ m.
Proof.
  assert (Hnodup : NoDup (visit o res).*1).
  { rewrite (visit_Permutation o res). apply NoDup_fst_map_to_list. }
  rewrite assignAll_NoDup by done. f_equal.
  rewrite <- (list_to_map_to_list res) at 2.
  apply list_to_map_proper; [done|]. apply visit_Permutation.
Qed.

End Rules.

End GoLogicFacts.

Import GoLogicFacts.

(** ** Template nodes *)

Module AzureNodeFacts.

Import Azure AzureNodeSpec.

Section WithExternals.

Context `{Externals}.

Implicit Types w : World V1.Quantity.

(** [buildGenericLabels] always returns; it advances the random source only
    and its labels are the generic ones for some zone, which is fixed when
    the template has at most one zone. *)
Lemma buildGenericLabels_returns template nodeName w :
  exists zone disk w',
    buildGenericLabels template nodeName w
    = Returned (genericWith template nodeName zone disk, w')
    /\ heap w' = heap w
    /\ order w' = order w
    /\ ((length (Zones template) <= 1)%nat ->
        (zone, disk) = fixedZone template).
Proof.
  unfold buildGenericLabels, fixedZone.
  destruct (Zones template) as [|z zs] eqn:Hz.
  - exists "0", "", w. simpl. done.
  - set (n := Z.of_nat (length (z :: zs))).
    set (d := draws (rand w) (cursor (rand w)) mod n).
    assert (Hn : 0 < n) by (unfold n; simpl; lia).
    assert (Hd : 0 <= d < n) by (apply Z.mod_pos_bound; lia).
    set (fd := map (fun v => ToLower (Location template) +:+ "-" +:+ v)
                   (z :: zs)).
    assert (Hlen : length fd = length (z :: zs)) by apply length_map.
    destruct (fd !! Z.to_nat d) as [zone|] eqn:Hzone.
    2:{ apply lookup_ge_None in Hzone. unfold n in Hd. lia. }
    exists zone, zone, (mkWorld (advance (rand w)) (order w) (heap w)).
    split; [|split; [done|split; [done|]]].
    + change (0 <? length (z :: zs))%nat with true. cbv iota.
      unfold bind at 1 2. unfold Intn.
      replace (Z.of_nat (length fd)) with n by (unfold n; by rewrite Hlen).
      destruct (n <=? 0) eqn:Hle; [lia|]. fold d.
      rewrite Hzone. reflexivity.
    + intros Hone. destruct zs; [|simpl in Hone; lia].
      assert (d = 0) as Hd0 by (unfold n in Hd; simpl in Hd; lia).
      rewrite Hd0 in Hzone. simpl in Hzone. by inversion Hzone.
Qed.

Lemma wp_buildGenericLabels template nodeName w
    (Q : gmap string string -> World V1.Quantity -> Prop) :
  (forall zone disk w',
      heap w' = heap w -> Q (genericWith template nodeName zone disk) w') ->
  wp (buildGenericLabels template nodeName) w Q.
Proof.
  intros HQ. unfold wp.
  destruct (buildGenericLabels_returns template nodeName w)
    as (zone & disk & w' & -> & Hheap & _).
  by apply HQ.
Qed.

Lemma rel_buildGenericLabels template name1 name2 w1 w2
    (Q : gmap string string -> World V1.Quantity ->
         gmap string string -> World V1.Quantity -> Prop) :
  (forall zone1 disk1 zone2 disk2 w1' w2',
      heap w1' = heap w1 -> heap w2' = heap w2 ->
      ((length (Zones template) <= 1)%nat ->
       zone1 = zone2 /\ disk1 = disk2) ->
      Q (genericWith template name1 zone1 disk1) w1'
        (genericWith template name2 zone2 disk2) w2') ->
  rel (buildGenericLabels template name1) (buildGenericLabels template name2)
      w1 w2 Q.
Proof.
  intros HQ. unfold rel. intros Horder.
  destruct (buildGenericLabels_returns template name1 w1)
    as (zone1 & disk1 & w1' & -> & Hheap1 & Horder1 & Hfix1).
  destruct (buildGenericLabels_returns template name2 w2)
    as (zone2 & disk2 & w2' & -> & Hheap2 & Horder2 & Hfix2).
  split; [congruence|].
  apply HQ; [done..|]. intros Hone.
  specialize (Hfix1 Hone). specialize (Hfix2 Hone).
  rewrite <- Hfix2 in Hfix1. by inversion Hfix1.
Qed.

(** *** Labels that agree outside the random ones *)

Lemma agreeOutside_refl keys m : agreeOutside keys m m.
Proof. by intros k _. Qed.

Lemma agreeOutside_union keys (a a' b b' : gmap string string) :
  agreeOutside keys a a' -> agreeOutside keys b b' ->
  agreeOutside keys (b ∪ a) (b' ∪ a').
Proof.
  intros Ha Hb k Hk. rewrite !lookup_union. by rewrite (Ha k Hk), (Hb k Hk).
Qed.

Lemma agreeOutside_insert keys (a a' : gmap string string) k v :
  agreeOutside keys a a' -> agreeOutside keys (<[k := v]> a) (<[k := v]> a').
Proof.
  intros Ha k' Hk'. rewrite !lookup_insert. case_decide; [done|]. by apply Ha.
Qed.

Lemma agreeOutside_at keys (a a' : gmap string string) k :
  agreeOutside keys a a' -> k ∉ keys -> at_ a k = at_ a' k.
Proof. intros Ha Hk. unfold at_. by rewrite (Ha k Hk). Qed.

Lemma poolNameTags_not_random template :
  (legacyPoolNameTag ∉ randomLabelKeys template)
  /\ (poolNameTag ∉ randomLabelKeys template).
Proof.
  unfold randomLabelKeys.
  destruct (1 <? length (Zones template))%nat;
    split; intros Hin; repeat (apply elem_of_cons in Hin as [Hin|Hin];
                               [discriminate Hin|]);
    by apply elem_of_nil in Hin.
Qed.

Lemma genericWith_agree template name1 name2 zone1 disk1 zone2 disk2 :
  ((length (Zones template) <= 1)%nat -> zone1 = zone2 /\ disk1 = disk2) ->
  agreeOutside (randomLabelKeys template)
    (genericWith template name1 zone1 disk1)
    (genericWith template name2 zone2 disk2).
Proof.
  intros Hfix k Hk. unfold genericWith, randomLabelKeys in *.
  apply not_elem_of_cons in Hk as [Hhost Hk].
  rewrite !(lookup_insert_ne _ V1.LabelHostname) by done.
  destruct (1 <? length (Zones template))%nat eqn:Hlen.
  - apply not_elem_of_cons in Hk as [Hk1 Hk].
    apply not_elem_of_cons in Hk as [Hk2 Hk].
    apply not_elem_of_cons in Hk as [Hk3 _].
    by rewrite !lookup_insert_ne by done.
  - apply Nat.ltb_ge in Hlen. destruct (Hfix Hlen) as [-> ->]. done.
Qed.

Lemma predictLabels_ext template vmss (a a' labels : gmap string string) :
  at_ a legacyPoolNameTag = at_ a' legacyPoolNameTag ->
  at_ a poolNameTag = at_ a' poolNameTag ->
  predictLabels template vmss a labels = predictLabels template vmss a' labels.
Proof. unfold predictLabels. by intros -> ->. Qed.

(** The predicted labels are assignments of fixed values: they do not
    depend on the labels they are added to. *)
Lemma predictLabels_union template vmss (nodeLabels labels : gmap string string) :
  predictLabels template vmss nodeLabels labels
  = predictLabels template vmss nodeLabels ∅ ∪ labels.
Proof.
  unfold predictLabels.
  repeat match goal with
         | |- context [if ?b then _ else _] => destruct b
         | |- context [match ?o with Some _ => _ | None => _ end] =>
             destruct o
         end;
    rewrite <- ?insert_union_l, (left_id_L ∅ (∪)); reflexivity.
Qed.

(** [labels = template.VMSSNodeTemplate.InputLabels] makes [labels] the
    template's own map, so the predicted labels are written into the
    template too. A later call that starts from them predicts the same
    labels. *)
Lemma predictLabels_idem template vmss (nodeLabels labels : gmap string string) :
  predictLabels template vmss nodeLabels
    (predictLabels template vmss nodeLabels labels)
  = predictLabels template vmss nodeLabels labels.
Proof.
  rewrite (predictLabels_union _ _ _ (predictLabels _ _ _ labels)).
  rewrite (predictLabels_union _ _ _ labels).
  by rewrite (assoc_L (∪)), (idemp_L (∪)).
Qed.
(** *** The loops over the tags *)

Lemma extractLabelsFromTags_heap tags w labels w' :
  extractLabelsFromTags tags w = Returned (labels, w') -> heap w' = heap w.
Proof. intros Hrun. by apply rangeMap_returned in Hrun as [_ ?]. Qed.

Lemma extractTaintsFromTags_heap tags w taints w' :
  extractTaintsFromTags tags w = Returned (taints, w') -> heap w' = heap w.
Proof. intros Hrun. by apply rangeMap_returned in Hrun as [_ ?]. Qed.

Lemma extractAllocatableResourcesFromScaleSet_heap tags w resources w' :
  extractAllocatableResourcesFromScaleSet tags w = Returned (resources, w') ->
  heap w' = heap w.
Proof. intros Hrun. by apply rangeMap_returned in Hrun as [_ ?]. Qed.

(** *** [processVMSSTemplate] *)

(** What a returned node of [processVMSSTemplate] looks like: the status
    and the name of the node passed in, and in the capacity map the
    ephemeral-storage entry, under the resources that the tags gave in the
    order they were visited in. *)
Lemma wp_processVMSSTemplate template nodeName node enableLabelPrediction
    w c m :
  V1.Capacity (V1.Status node) = Some c -> holds w c m ->
  wp (processVMSSTemplate template nodeName node enableLabelPrediction) w
     (fun node' w' =>
        exists vmss w0 resourcesFromTags w0',
          VMSSNodeTemplate' template = Some vmss
          /\ V1.Status node' = V1.Status node
          /\ V1.Name (V1.Meta node') = V1.Name (V1.Meta node)
          /\ extractAllocatableResourcesFromScaleSet (Tags vmss) w0
             = Returned (resourcesFromTags, w0')
          /\ holds w' c (resourcesFromTags ∪ withEphemeralStorage vmss m)).
Proof.
  intros Hc Hm. unfold processVMSSTemplate.
  apply wp_bind, wp_lift. intros vmss Hvmss.
  apply wp_bind, wp_run. intros nodeLabels u0 Hu0.
  apply rangeMap_returned in Hu0 as [_ Hu0].
  eapply holds_same_heap in Hm; [|exact Hu0].
  apply wp_bind, wp_buildGenericLabels. intros zone disk w1 Hw1.
  cbn [V1.Status V1.withLabels V1.Capacity]. rewrite Hc.
  eapply holds_same_heap in Hm; [|exact Hw1].
  apply wp_bind.
  eapply (wp_mono _ _ (fun _ w' => heap w' = heap w1)).
  { destruct (0 <? size (InputLabels vmss))%nat; [by apply wp_ret|].
    apply wp_run. intros labels u1 Hu1.
    by eapply extractLabelsFromTags_heap. }
  intros labels u1 Hu1. eapply holds_same_heap in Hm; [|exact Hu1].
  apply wp_bind.
  eapply (wp_mono _ _ (fun _ w' => holds w' c (withEphemeralStorage vmss m))).
  { unfold withEphemeralStorage.
    destruct (OSDisk vmss ≫= Compute.DiskSizeGB) as [d|].
    - eapply wp_mapAssign; [done|]. by intros w' Hw'.
    - by apply wp_ret. }
  intros [] w2 Hw2.
  apply wp_bind, wp_run. intros res u2 Hres.
  eapply holds_same_heap in Hw2;
    [|by eapply extractAllocatableResourcesFromScaleSet_heap].
  apply wp_bind. eapply wp_rangeMapM_assign; [done|]. intros w3 Hw3.
  rewrite assignAll_visit in Hw3.
  apply wp_bind.
  eapply (wp_mono _ _ (fun _ w' => heap w' = heap w3)).
  { destruct (negb (InputTaints vmss =? "")%string); [by apply wp_ret|].
    apply wp_run. intros taints u3 Hu3.
    by eapply extractTaintsFromTags_heap. }
  intros taints u3 Hu3. apply wp_ret.
  exists vmss, w2, res, u2. repeat split; try done.
  - by destruct (VMSSNodeTemplate' template); inversion Hvmss.
  - by eapply holds_same_heap.
Qed.

(** The taints of a returned node come from the spec string when there is
    one and from the loop over the tags otherwise. *)
Lemma wp_processVMSSTemplate_taints template nodeName node
    enableLabelPrediction w :
  wp (processVMSSTemplate template nodeName node enableLabelPrediction) w
     (fun node' _ =>
        exists vmss,
          VMSSNodeTemplate' template = Some vmss
          /\ (InputTaints vmss <> "" ->
              V1.Taints (V1.Spec node')
              = extractTaintsFromSpecString (InputTaints vmss))
          /\ (InputTaints vmss = "" ->
              exists w0 w0',
                extractTaintsFromTags (Tags vmss) w0
                = Returned (V1.Taints (V1.Spec node'), w0'))).
Proof.
  unfold processVMSSTemplate.
  apply wp_bind, wp_lift. intros vmss Hvmss.
  apply wp_bind, wp_any. intros nodeLabels w0.
  apply wp_bind, wp_any. intros generic w1.
  apply wp_bind, wp_any. intros labels w2.
  apply wp_bind, wp_any. intros [] w3.
  apply wp_bind, wp_any. intros res w4.
  apply wp_bind, wp_any. intros [] w5.
  apply wp_bind.
  assert (Hsome : VMSSNodeTemplate' template = Some vmss)
    by (by destruct (VMSSNodeTemplate' template); inversion Hvmss).
  destruct (InputTaints vmss =? "")%string eqn:Hempty; simpl.
  - apply String.eqb_eq in Hempty. apply wp_run. intros taints w6 Htaints.
    apply wp_ret. exists vmss. split; [done|]. split; [done|].
    intros _. by exists w5, w6.
  - apply String.eqb_neq in Hempty. apply wp_ret, wp_ret.
    exists vmss. by repeat split.
Qed.

(** Two runs of [processVMSSTemplate] on nodes that agree outside the
    random labels and whose capacity maps have the same entries, from
    states with the same order of visit. *)
Lemma rel_processVMSSTemplate template name1 name2 node1 node2
    enableLabelPrediction w1 w2 c1 c2 m :
  JoinStringMaps_later_wins ->
  V1.Capacity (V1.Status node1) = Some c1 ->
  V1.Capacity (V1.Status node2) = Some c2 ->
  holds w1 c1 m -> holds w2 c2 m ->
  agreeOutside (randomLabelKeys template)
    (V1.Labels (V1.Meta node1)) (V1.Labels (V1.Meta node2)) ->
  rel (processVMSSTemplate template name1 node1 enableLabelPrediction)
      (processVMSSTemplate template name2 node2 enableLabelPrediction)
      w1 w2
      (fun node1' w1' node2' w2' =>
         V1.Status node1' = V1.Status node1
         /\ V1.Status node2' = V1.Status node2
         /\ V1.Spec node1' = V1.Spec node2'
         /\ agreeOutside (randomLabelKeys template)
              (V1.Labels (V1.Meta node1')) (V1.Labels (V1.Meta node2'))
         /\ exists m', holds w1' c1 m' /\ holds w2' c2 m').
Proof.
  intros Hjoin Hc1 Hc2 Hm1 Hm2 Hlabels. unfold processVMSSTemplate.
  apply rel_bind, rel_lift. intros vmss Hvmss.
  apply rel_bind.
  apply (rel_rangeMap (agreeOutside (randomLabelKeys template)));
    [|exact Hlabels|].
  { intros s1 s2 [k [v|]] Hs; by apply agreeOutside_insert. }
  intros tagged1 tagged2 t1 t2 Htagged Ht1 Ht2.
  eapply holds_same_heap in Hm1; [|exact Ht1].
  eapply holds_same_heap in Hm2; [|exact Ht2].
  apply rel_bind, rel_buildGenericLabels.
  intros zone1 disk1 zone2 disk2 u1 u2 Hu1 Hu2 Hfix.
  cbn [V1.Status V1.withLabels V1.Capacity V1.Meta V1.Labels].
  rewrite Hc1, Hc2, !Hjoin.
  eapply holds_same_heap in Hm1; [|exact Hu1].
  eapply holds_same_heap in Hm2; [|exact Hu2].
  assert (Hjoined :
    agreeOutside (randomLabelKeys template)
      (genericWith template name1 zone1 disk1 ∪ tagged1)
      (genericWith template name2 zone2 disk2 ∪ tagged2)).
  { apply agreeOutside_union; [exact Htagged|].
    by apply genericWith_agree. }
  destruct (poolNameTags_not_random template) as [Hlegacy Hpool].
  apply rel_bind.
  eapply (rel_mono _ _ _ _
            (fun l1 w1' l2 w2' =>
               l1 = l2 /\ heap w1' = heap u1 /\ heap w2' = heap u2)).
  { destruct (0 <? size (InputLabels vmss))%nat; [by apply rel_ret|].
    apply rel_rangeMap_same. by intros. }
  intros labels v1 ? v2 (<- & Hv1 & Hv2).
  eapply holds_same_heap in Hm1; [|exact Hv1].
  eapply holds_same_heap in Hm2; [|exact Hv2].
  assert (Hpred :
    predictLabels template vmss
      (genericWith template name1 zone1 disk1 ∪ tagged1) labels
    = predictLabels template vmss
        (genericWith template name2 zone2 disk2 ∪ tagged2) labels).
  { apply predictLabels_ext;
      apply (agreeOutside_at (randomLabelKeys template)); assumption. }
  rewrite Hpred. clear Hpred.
  set (labels' := if enableLabelPrediction then _ else labels).
  apply rel_bind.
  eapply (rel_mono _ _ _ _
            (fun _ w1' _ w2' =>
               holds w1' c1 (withEphemeralStorage vmss m)
               /\ holds w2' c2 (withEphemeralStorage vmss m))).
  { unfold withEphemeralStorage.
    destruct (OSDisk vmss ≫= Compute.DiskSizeGB) as [d|].
    - eapply rel_mapAssign; [done..|]. by intros.
    - by apply rel_ret. }
  intros [] x1 [] x2 [Hx1 Hx2].
  apply rel_bind, rel_rangeMap_same. intros res y1 y2 Hy1 Hy2.
  eapply holds_same_heap in Hx1; [|exact Hy1].
  eapply holds_same_heap in Hx2; [|exact Hy2].
  apply rel_bind. eapply rel_rangeMapM_assign; [done..|].
  intros z1 z2 m' Hz1 Hz2.
  apply rel_bind.
  eapply (rel_mono _ _ _ _
            (fun t1 w1' t2 w2' =>
               t1 = t2 /\ heap w1' = heap z1 /\ heap w2' = heap z2)).
  { destruct (negb (InputTaints vmss =? "")%string); [by apply rel_ret|].
    apply rel_rangeMap_same. by intros. }
  intros taints s1 ? s2 (<- & Hs1 & Hs2). apply rel_ret.
  cbn [V1.Spec V1.Status V1.Meta V1.Labels V1.withTaints V1.withLabels].
  split; [reflexivity|]. split; [reflexivity|]. split; [reflexivity|].
  split; [|exists m'; split; by eapply holds_same_heap].
  rewrite !Hjoin.
  apply agreeOutside_union; [exact Hjoined|apply agreeOutside_refl].
Qed.

(** *** [processVMPoolTemplate] *)

Lemma wp_processVMPoolTemplate template nodeName node w c m :
  holds w c m ->
  wp (processVMPoolTemplate template nodeName node) w
     (fun node' w' =>
        is_Some (VMPoolNodeTemplate' template)
        /\ V1.Status node' = V1.Status node
        /\ V1.Name (V1.Meta node') = V1.Name (V1.Meta node)
        /\ holds w' c m).
Proof.
  intros Hm. unfold processVMPoolTemplate.
  apply wp_bind, wp_buildGenericLabels. intros zone disk w1 Hw1.
  apply wp_bind, wp_lift. intros vmPool HvmPool.
  apply wp_bind, wp_run. intros labels w2 Hw2.
  apply rangeMap_returned in Hw2 as [_ Hw2]. apply wp_ret.
  cbn [V1.Status V1.Meta V1.Name V1.withTaints V1.withLabels].
  split; [|split; [reflexivity|split; [reflexivity|]]].
  - by destruct (VMPoolNodeTemplate' template).
  - eapply holds_same_heap; [exact Hw2|]. by eapply holds_same_heap.
Qed.

Lemma rel_processVMPoolTemplate template name1 name2 node1 node2 w1 w2
    c1 c2 m :
  JoinStringMaps_later_wins ->
  holds w1 c1 m -> holds w2 c2 m ->
  agreeOutside (randomLabelKeys template)
    (V1.Labels (V1.Meta node1)) (V1.Labels (V1.Meta node2)) ->
  rel (processVMPoolTemplate template name1 node1)
      (processVMPoolTemplate template name2 node2) w1 w2
      (fun node1' w1' node2' w2' =>
         V1.Status node1' = V1.Status node1
         /\ V1.Status node2' = V1.Status node2
         /\ V1.Spec node1' = V1.Spec node2'
         /\ agreeOutside (randomLabelKeys template)
              (V1.Labels (V1.Meta node1')) (V1.Labels (V1.Meta node2'))
         /\ exists m', holds w1' c1 m' /\ holds w2' c2 m').
Proof.
  intros Hjoin Hm1 Hm2 Hlabels. unfold processVMPoolTemplate.
  apply rel_bind, rel_buildGenericLabels.
  intros zone1 disk1 zone2 disk2 u1 u2 Hu1 Hu2 Hfix.
  apply rel_bind, rel_lift. intros vmPool HvmPool.
  apply rel_bind.
  apply (rel_rangeMap (agreeOutside (randomLabelKeys template))).
  { intros s1 s2 [k v] Hs. by apply agreeOutside_insert. }
  { apply agreeOutside_insert. by apply genericWith_agree. }
  intros labels1 labels2 v1 v2 Hagree Hv1 Hv2. apply rel_ret.
  cbn [V1.Spec V1.Status V1.Meta V1.Labels V1.withTaints V1.withLabels].
  split; [reflexivity|]. split; [reflexivity|]. split; [reflexivity|].
  split.
  - rewrite !Hjoin. by apply agreeOutside_union.
  - exists m. split; (eapply holds_same_heap; [eassumption|]);
      by eapply holds_same_heap.
Qed.

(** *** [buildNodeFromTemplate] *)

(** The instance type is looked up before anything is written: either it
    resolves, or the static error is what the call has to report. *)
Lemma resolution_cases template (manager : option AzureManager)
    (dynamic : option (InstanceType + error)) :
  (dynamic = None
   \/ exists m, manager = Some m
        /\ dynamic = Some (GetInstanceTypeDynamically template (azureCache m))) ->
  match
    match dynamic with
    | Some (inl instanceTypeDynamic) => inl instanceTypeDynamic
    | _ => GetInstanceTypeStatically template
    end
  with
  | inl instanceType =>
      resolvesTo template manager (bool_decide (dynamic <> None)) instanceType
  | inr err => unresolved template manager (bool_decide (dynamic <> None)) err
  end.
Proof.
  intros [->|(m & -> & ->)].
  - rewrite bool_decide_eq_false_2 by (by intros ?).
    destruct (GetInstanceTypeStatically template) as [it|e] eqn:Hs.
    + right. split; [by left|done].
    + split; [by left|done].
  - rewrite bool_decide_eq_true_2 by done.
    destruct (GetInstanceTypeDynamically template (azureCache m))
      as [it|e] eqn:Hd.
    + left. split; [done|]. by exists m.
    + destruct (GetInstanceTypeStatically template) as [it|e'] eqn:Hs.
      * right. split; [|done]. right. by exists m, e.
      * split; [|done]. right. by exists m, e.
Qed.

(** What [buildNodeFromTemplate] returns when it returns. *)
Lemma wp_buildNodeFromTemplate nodeGroupName template manager
    enableDynamicInstanceList enableLabelPrediction w :
  wp (buildNodeFromTemplate nodeGroupName template manager
        enableDynamicInstanceList enableLabelPrediction) w
     (fun result w' =>
        match result with
        | (Some node, None) =>
            exists c instanceType m',
              resolvesTo template manager enableDynamicInstanceList
                         instanceType
              /\ V1.Capacity (V1.Status node) = Some c
              /\ V1.Allocatable (V1.Status node) = Some c
              /\ V1.Name (V1.Meta node)
                 = nodeGroupName +:+ "-asg-"
                   +:+ FormatInt (draws (rand w) (cursor (rand w)) mod 2 ^ 63)
              /\ holds w' c m'
              /\ match VMSSNodeTemplate' template with
                 | Some vmss =>
                     exists w0 resourcesFromTags w0',
                       extractAllocatableResourcesFromScaleSet (Tags vmss) w0
                       = Returned (resourcesFromTags, w0')
                       /\ m' = resourcesFromTags
                               ∪ withEphemeralStorage vmss
                                   (baseCapacity template instanceType)
                 | None =>
                     is_Some (VMPoolNodeTemplate' template)
                     /\ m' = baseCapacity template instanceType
                 end
        | (None, Some err) =>
            unresolved template manager enableDynamicInstanceList err
            \/ (exists instanceType,
                   resolvesTo template manager enableDynamicInstanceList
                              instanceType)
               /\ VMSSNodeTemplate' template = None
               /\ VMPoolNodeTemplate' template = None
        | _ => False
        end).
Proof.
  unfold buildNodeFromTemplate.
  apply wp_bind, wp_Int63. set (r := _ mod 2 ^ 63).
  apply wp_bind, wp_newMap. set (c := length (heap w)). intros w1 Hw1.
  apply wp_bind.
  eapply (wp_mono _ _
            (fun dynamic w' =>
               w' = w1
               /\ enableDynamicInstanceList = bool_decide (dynamic <> None)
               /\ (dynamic = None
                   \/ exists m, manager = Some m
                        /\ dynamic
                           = Some (GetInstanceTypeDynamically template
                                     (azureCache m))))).
  { destruct enableDynamicInstanceList.
    - apply wp_bind, wp_lift. intros m Hmgr. apply wp_ret.
      split; [done|]. split; [done|]. right. exists m.
      by destruct manager; inversion Hmgr.
    - apply wp_ret. split; [done|]. split; [done|]. by left. }
  intros dynamic ? (-> & -> & Hdyn).
  pose proof (resolution_cases template manager dynamic Hdyn) as Hres.
  destruct (match dynamic with
            | Some (inl instanceTypeDynamic) => inl instanceTypeDynamic
            | _ => GetInstanceTypeStatically template
            end) as [it|err].
  2:{ apply wp_ret. by left. }
  cbn [V1.Status V1.Capacity].
  apply wp_bind. eapply wp_mapAssign; [done|]. intros w2 Hw2.
  apply wp_bind. eapply wp_mapAssign; [done|]. intros w3 Hw3.
  apply wp_bind.
  eapply (wp_mono _ _
            (fun _ w' =>
               holds w' c
                 (<[(if isNPSeries (SkuName template)
                     then xilinxFpgaResourceName else ResourceNvidiaGPU) :=
                      V1.NewQuantity (GPU it) V1.DecimalSI]>
                    (<[V1.ResourceCPU :=
                         V1.NewQuantity (VCPU it) V1.DecimalSI]>
                       (<[V1.ResourcePods :=
                            V1.NewQuantity 110 V1.DecimalSI]> ∅))))).
  { destruct (isNPSeries (SkuName template));
      (eapply wp_mapAssign; [done|]); by intros. }
  intros [] w4 Hw4.
  apply wp_bind. eapply wp_mapAssign; [done|]. intros w5 Hw5.
  fold (baseCapacity template it) in Hw5.
  destruct (VMSSNodeTemplate' template) as [vmss|] eqn:Hvmss.
  - apply wp_bind.
    eapply wp_mono; [eapply wp_processVMSSTemplate; [reflexivity|exact Hw5]|].
    intros node' w6
           (vmss' & w0 & res & w0' & Hvmss' & Hstatus & Hname & Hres' & Hw6).
    apply wp_ret. rewrite Hvmss in Hvmss'. inversion Hvmss'; subst vmss'.
    exists c, it,
      (res ∪ withEphemeralStorage vmss (baseCapacity template it)).
    cbn [V1.Status V1.Meta V1.Name V1.withConditions V1.Capacity
         V1.Allocatable].
    rewrite Hstatus, Hname. cbn. repeat split; try done.
    by exists w0, res, w0'.
  - destruct (VMPoolNodeTemplate' template) as [vmPool|] eqn:HvmPool.
    + apply wp_bind.
      eapply wp_mono; [eapply wp_processVMPoolTemplate; exact Hw5|].
      intros node' w6 (Hsome & Hstatus & Hname & Hw6).
      apply wp_ret.
      exists c, it, (baseCapacity template it).
      cbn [V1.Status V1.Meta V1.Name V1.withConditions V1.Capacity
           V1.Allocatable].
      rewrite Hstatus, Hname. cbn. repeat split; try done.
    + apply wp_ret. right. split; [by exists it|done].
Qed.

(** Two runs of [buildNodeFromTemplate] on the same arguments, from any two
    states of the random source and of the heap in which the maps are
    visited in the same order. *)
Lemma rel_buildNodeFromTemplate nodeGroupName template manager
    enableDynamicInstanceList enableLabelPrediction w1 w2 :
  JoinStringMaps_later_wins ->
  rel (buildNodeFromTemplate nodeGroupName template manager
         enableDynamicInstanceList enableLabelPrediction)
      (buildNodeFromTemplate nodeGroupName template manager
         enableDynamicInstanceList enableLabelPrediction)
      w1 w2
      (fun result1 w1' result2 w2' =>
         match result1, result2 with
         | (Some node1, None), (Some node2, None) =>
             capacityOf w1' node1 = capacityOf w2' node2
             /\ allocatableOf w1' node1 = allocatableOf w2' node2
             /\ V1.Spec node1 = V1.Spec node2
             /\ V1.Conditions (V1.Status node1)
                = V1.Conditions (V1.Status node2)
             /\ agreeOutside (randomLabelKeys template)
                  (V1.Labels (V1.Meta node1)) (V1.Labels (V1.Meta node2))
         | (None, Some err1), (None, Some err2) => err1 = err2
         | _, _ => False
         end).
Proof.
  intros Hjoin. unfold buildNodeFromTemplate.
  apply rel_bind, rel_Int63. intros r1 r2 u1 u2 Hu1 Hu2.
  apply rel_bind, rel_newMap. rewrite Hu1, Hu2.
  set (c1 := length (heap w1)). set (c2 := length (heap w2)).
  intros v1 v2 Hv1 Hv2.
  apply rel_bind.
  eapply (rel_mono _ _ _ _
            (fun d1 w1' d2 w2' => d1 = d2 /\ w1' = v1 /\ w2' = v2)).
  { destruct enableDynamicInstanceList.
    - apply rel_bind, rel_lift. intros m Hmgr. by apply rel_ret.
    - by apply rel_ret. }
  intros dynamic ? ? ? (<- & -> & ->).
  destruct (match dynamic with
            | Some (inl instanceTypeDynamic) => inl instanceTypeDynamic
            | _ => GetInstanceTypeStatically template
            end) as [it|err].
  2:{ by apply rel_ret. }
  cbn [V1.Status V1.Capacity].
  apply rel_bind. eapply rel_mapAssign; [done..|]. intros x1 x2 Hx1 Hx2.
  apply rel_bind. eapply rel_mapAssign; [done..|]. intros y1 y2 Hy1 Hy2.
  apply rel_bind.
  eapply (rel_mono _ _ _ _
            (fun _ w1' _ w2' => exists m, holds w1' c1 m /\ holds w2' c2 m)).
  { destruct (isNPSeries (SkuName template));
      (eapply rel_mapAssign; [done..|]); intros; eauto. }
  intros [] z1 [] z2 (m & Hz1 & Hz2).
  apply rel_bind. eapply rel_mapAssign; [done..|]. intros s1 s2 Hs1 Hs2.
  set (mem := <[V1.ResourceMemory := _]> m) in Hs1, Hs2.
  assert (Hfinish :
    forall (node1 node2 node1' node2' : V1.Node) t1 t2,
      V1.Capacity (V1.Status node1) = Some c1 ->
      V1.Allocatable (V1.Status node1) = Some c1 ->
      V1.Capacity (V1.Status node2) = Some c2 ->
      V1.Allocatable (V1.Status node2) = Some c2 ->
      V1.Status node1' = V1.Status node1
      /\ V1.Status node2' = V1.Status node2
      /\ V1.Spec node1' = V1.Spec node2'
      /\ agreeOutside (randomLabelKeys template)
           (V1.Labels (V1.Meta node1')) (V1.Labels (V1.Meta node2'))
      /\ (exists m', holds t1 c1 m' /\ holds t2 c2 m') ->
      capacityOf t1 (V1.withConditions node1' BuildReadyConditions)
      = capacityOf t2 (V1.withConditions node2' BuildReadyConditions)
      /\ allocatableOf t1 (V1.withConditions node1' BuildReadyConditions)
         = allocatableOf t2 (V1.withConditions node2' BuildReadyConditions)
      /\ V1.Spec (V1.withConditions node1' BuildReadyConditions)
         = V1.Spec (V1.withConditions node2' BuildReadyConditions)
      /\ V1.Conditions (V1.Status
                          (V1.withConditions node1' BuildReadyConditions))
         = V1.Conditions (V1.Status
                            (V1.withConditions node2' BuildReadyConditions))
      /\ agreeOutside (randomLabelKeys template)
           (V1.Labels (V1.Meta (V1.withConditions node1' BuildReadyConditions)))
           (V1.Labels (V1.Meta (V1.withConditions node2' BuildReadyConditions)))).
  { intros node1 node2 node1' node2' t1 t2 Hcap1 Hal1 Hcap2 Hal2
           (Hst1 & Hst2 & Hspec & Hlab & m' & Ht1 & Ht2).
    unfold capacityOf, allocatableOf.
    cbn [V1.Status V1.Meta V1.Labels V1.Spec V1.Capacity V1.Allocatable
         V1.Conditions V1.withConditions].
    rewrite Hst1, Hst2, Hcap1, Hcap2, Hal1, Hal2.
    pose proof (entries_holds t1 c1 m' Ht1) as He1.
    pose proof (entries_holds t2 c2 m' Ht2) as He2.
    unfold addr in *. rewrite He1, He2. done. }
  destruct (VMSSNodeTemplate' template) as [vmss|].
  - apply rel_bind.
    eapply rel_mono;
      [eapply (rel_processVMSSTemplate _ _ _ _ _ _ _ _ c1 c2 mem);
       [exact Hjoin|reflexivity|reflexivity|exact Hs1|exact Hs2
       |apply agreeOutside_refl]|].
    intros node1' t1 node2' t2 Hrel. apply rel_ret.
    eapply Hfinish; [..|exact Hrel]; reflexivity.
  - destruct (VMPoolNodeTemplate' template) as [vmPool|].
    + apply rel_bind.
      eapply rel_mono;
        [eapply (rel_processVMPoolTemplate _ _ _ _ _ _ _ c1 c2 mem);
         [exact Hjoin|exact Hs1|exact Hs2|apply agreeOutside_refl]|].
      intros node1' t1 node2' t2 Hrel. apply rel_ret.
      eapply Hfinish; [..|exact Hrel]; reflexivity.
    + by apply rel_ret.
Qed.

(** *** Runs that return *)

Lemma extractLabelsFromTags_returns tags w :
  tagValuesPresent tags ->
  twp (extractLabelsFromTags tags) w (fun _ w' => heap w' = heap w).
Proof.
  intros Htags. apply (twp_rangeMap _ is_Some); [exact Htags| |done].
  intros s k x [v ->]. cbv beta iota zeta.
  destruct (1 <? length (Split k nodeLabelTagName))%nat; [|by eauto].
  destruct (negb _); cbn [bindO deref]; by eauto.
Qed.

Lemma extractTaintsFromTags_returns tags w :
  tagValuesPresent tags ->
  twp (extractTaintsFromTags tags) w (fun _ w' => heap w' = heap w).
Proof.
  intros Htags. apply (twp_rangeMap _ is_Some); [exact Htags| |done].
  intros s k x [v ->]. cbv beta iota zeta. cbn [bindO deref].
  destruct (taintRegexpMatchString v); [|by eauto].
  destruct (1 <? length (Split k nodeTaintTagName))%nat; [|by eauto].
  destruct (1 <? length (SplitN v ":" 2))%nat; by eauto.
Qed.

Lemma extractAllocatableResourcesFromScaleSet_returns tags w :
  tagValuesPresent tags ->
  twp (extractAllocatableResourcesFromScaleSet tags) w
      (fun _ w' => heap w' = heap w).
Proof.
  intros Htags. apply (twp_rangeMap _ is_Some); [exact Htags| |done].
  intros s k x [v ->]. cbv beta iota zeta.
  destruct (_ || _); [by eauto|]. cbn [bindO deref].
  destruct (ParseQuantity v); by eauto.
Qed.

Lemma twp_buildGenericLabels template nodeName w
    (Q : gmap string string -> World V1.Quantity -> Prop) :
  (forall zone disk w',
      heap w' = heap w -> Q (genericWith template nodeName zone disk) w') ->
  twp (buildGenericLabels template nodeName) w Q.
Proof.
  intros HQ. unfold twp.
  destruct (buildGenericLabels_returns template nodeName w)
    as (zone & disk & w' & -> & Hheap & _).
  by apply HQ.
Qed.

(** [processVMSSTemplate] returns when no tag value is nil and the node
    has a capacity map. *)
Lemma processVMSSTemplate_returns template vmss nodeName node
    enableLabelPrediction w c m :
  VMSSNodeTemplate' template = Some vmss ->
  tagValuesPresent (Tags vmss) ->
  V1.Capacity (V1.Status node) = Some c -> holds w c m ->
  exists node' w',
    processVMSSTemplate template nodeName node enableLabelPrediction w
    = Returned (node', w').
Proof.
  intros Hvmss Htags Hc Hm.
  cut (twp (processVMSSTemplate template nodeName node enableLabelPrediction)
           w (fun _ _ => True)).
  { intros Htwp. apply twp_returns in Htwp as (a & w' & Hrun & _).
    by eauto. }
  unfold processVMSSTemplate. rewrite Hvmss.
  apply twp_bind. eapply twp_lift; [reflexivity|].
  apply twp_bind.
  apply (twp_rangeMap _ (fun _ => True)); [by intros ? ? ?| |].
  { intros s k [v|] _; by eauto. }
  intros nodeLabels u0 Hu0. eapply holds_same_heap in Hm; [|exact Hu0].
  apply twp_bind, twp_buildGenericLabels. intros zone disk w1 Hw1.
  cbn [V1.Status V1.withLabels V1.Capacity]. rewrite Hc.
  eapply holds_same_heap in Hm; [|exact Hw1].
  apply twp_bind.
  eapply (twp_mono _ _ (fun _ w' => heap w' = heap w1)).
  { destruct (0 <? size (InputLabels vmss))%nat; [by apply twp_ret|].
    by apply extractLabelsFromTags_returns. }
  intros labels u1 Hu1. eapply holds_same_heap in Hm; [|exact Hu1].
  apply twp_bind.
  eapply (twp_mono _ _ (fun _ w' => exists m', holds w' c m')).
  { destruct (OSDisk vmss ≫= Compute.DiskSizeGB) as [d|].
    - eapply twp_mapAssign; [done|]. by eauto.
    - apply twp_ret. by eauto. }
  intros [] w2 [m2 Hw2].
  apply twp_bind.
  eapply twp_mono;
    [by apply extractAllocatableResourcesFromScaleSet_returns|].
  intros res u2 Hu2. eapply holds_same_heap in Hw2; [|exact Hu2].
  apply twp_bind. eapply twp_rangeMapM_assign; [done|]. intros w3 m3 Hw3.
  apply twp_bind.
  eapply (twp_mono _ _ (fun _ _ => True)).
  { destruct (negb (InputTaints vmss =? "")%string); [by apply twp_ret|].
    eapply twp_mono; [by apply extractTaintsFromTags_returns|done]. }
  intros taints w4 _. by apply twp_ret.
Qed.

Lemma processVMPoolTemplate_returns template nodeName node w :
  is_Some (VMPoolNodeTemplate' template) ->
  exists node' w',
    processVMPoolTemplate template nodeName node w = Returned (node', w').
Proof.
  intros [vmPool HvmPool].
  cut (twp (processVMPoolTemplate template nodeName node) w
           (fun _ _ => True)).
  { intros Htwp. apply twp_returns in Htwp as (a & w' & Hrun & _).
    by eauto. }
  unfold processVMPoolTemplate.
  apply twp_bind, twp_buildGenericLabels. intros zone disk w1 Hw1.
  rewrite HvmPool. apply twp_bind. eapply twp_lift; [reflexivity|].
  apply twp_bind.
  apply (twp_rangeMap _ (fun _ => True)); [by intros ? ? ?| |].
  { intros s k v _. by eauto. }
  intros labels w2 _. by apply twp_ret.
Qed.

(** [buildNodeFromTemplate] returns when the manager is there if the
    dynamic lookup is enabled and no tag value of the scale set is nil. *)
Lemma buildNodeFromTemplate_returns nodeGroupName template manager
    enableDynamicInstanceList enableLabelPrediction w :
  (enableDynamicInstanceList = true -> is_Some manager) ->
  (forall vmss, VMSSNodeTemplate' template = Some vmss ->
                tagValuesPresent (Tags vmss)) ->
  exists result w',
    buildNodeFromTemplate nodeGroupName template manager
      enableDynamicInstanceList enableLabelPrediction w
    = Returned (result, w').
Proof.
  intros Hmanager Htags.
  cut (twp (buildNodeFromTemplate nodeGroupName template manager
              enableDynamicInstanceList enableLabelPrediction)
           w (fun _ _ => True)).
  { intros Htwp. apply twp_returns in Htwp as (a & w' & Hrun & _).
    by eauto. }
  unfold buildNodeFromTemplate.
  apply twp_bind, twp_Int63. intros r w0 _.
  apply twp_bind, twp_newMap. set (c := length (heap w0)). intros w1 Hw1.
  apply twp_bind.
  eapply (twp_mono _ _ (fun _ w' => w' = w1)).
  { destruct enableDynamicInstanceList.
    - destruct (Hmanager eq_refl) as [m ->].
      apply twp_bind. eapply twp_lift; [reflexivity|]. by apply twp_ret.
    - by apply twp_ret. }
  intros dynamic ? ->.
  destruct (match dynamic with
            | Some (inl instanceTypeDynamic) => inl instanceTypeDynamic
            | _ => GetInstanceTypeStatically template
            end) as [it|err]; [|by apply twp_ret].
  cbn [V1.Status V1.Capacity].
  apply twp_bind. eapply twp_mapAssign; [done|]. intros w2 Hw2.
  apply twp_bind. eapply twp_mapAssign; [done|]. intros w3 Hw3.
  apply twp_bind.
  eapply (twp_mono _ _ (fun _ w' => exists m', holds w' c m')).
  { destruct (isNPSeries (SkuName template));
      (eapply twp_mapAssign; [done|]); by eauto. }
  intros [] w4 [m4 Hw4].
  apply twp_bind. eapply twp_mapAssign; [done|]. intros w5 Hw5.
  destruct (VMSSNodeTemplate' template) as [vmss|] eqn:Hvmss.
  - apply twp_bind. unfold twp at 1.
    edestruct (processVMSSTemplate_returns template vmss) as (n & w6 & ->);
      [exact Hvmss|by apply Htags|reflexivity|exact Hw5|].
    by apply twp_ret.
  - destruct (VMPoolNodeTemplate' template) as [vmPool|] eqn:HvmPool;
      [|by apply twp_ret].
    apply twp_bind. unfold twp at 1.
    edestruct (processVMPoolTemplate_returns template) as (n & w6 & ->);
      [by rewrite HvmPool|].
    by apply twp_ret.
Qed.

End WithExternals.

End AzureNodeFacts.

(** ** The claims about template nodes *)

Module AzureNodeClaims.

Import Azure AzureNodeSpec AzureNodeFacts Runs.

Lemma wrap64_id z : inInt64 z -> wrap64 z = z.
Proof.
  unfold inInt64, wrap64. intros Hz.
  rewrite Z.mod_small by lia. lia.
Qed.

Lemma mul64_megabytes z :
  inInt64 (z * 1024 * 1024) -> mul64 (mul64 z 1024) 1024 = z * 1024 * 1024.
Proof.
  unfold mul64. intros Hz.
  rewrite (wrap64_id (z * 1024)) by (unfold inInt64 in *; lia).
  by apply wrap64_id.
Qed.

Lemma mul64_gigabytes z :
  inInt32 z ->
  mul64 (mul64 (mul64 z 1024) 1024) 1024 = z * 1024 * 1024 * 1024.
Proof.
  unfold mul64. intros Hz.
  rewrite (wrap64_id (z * 1024)) by (unfold inInt64, inInt32 in *; lia).
  rewrite (wrap64_id (z * 1024 * 1024))
    by (unfold inInt64, inInt32 in *; lia).
  apply wrap64_id. unfold inInt64, inInt32 in *. lia.
Qed.

Section WithExternals.

Context `{Externals}.

Implicit Types w : World V1.Quantity.

Lemma resolvesTo_not_unresolved template manager enableDynamicInstanceList
    instanceType err :
  resolvesTo template manager enableDynamicInstanceList instanceType ->
  unresolved template manager enableDynamicInstanceList err -> False.
Proof.
  intros [(Hd & m & Hm & Hdyn)|(_ & Hs)] (Hcase & Hs'); [|congruence].
  destruct Hcase as [Hd'|(m' & e' & Hm' & Hdyn')]; congruence.
Qed.

Lemma resolvesTo_functional template manager enableDynamicInstanceList
    instanceType instanceType' :
  resolvesTo template manager enableDynamicInstanceList instanceType ->
  resolvesTo template manager enableDynamicInstanceList instanceType' ->
  instanceType = instanceType'.
Proof.
  intros [(Hd & m & Hm & Hdyn)|([Hd|(m & e & Hm & Hdyn)] & Hs)]
         [(Hd' & m' & Hm' & Hdyn')|([Hd'|(m' & e' & Hm' & Hdyn')] & Hs')];
    congruence.
Qed.

(** C1, as amended. Two calls of [buildNodeFromTemplate] with the same
    arguments, in which the loops over the maps visit the keys in the same
    order, both panic, or both return the same error, or both return a
    node; the two nodes have the same capacity and allocatable quantities,
    the same taints, and the same labels except for the host name and, for a
    template with several zones, the three zone labels; the name of each is
    the node-group name, [-asg-] and the number drawn from [rand.Int63]. *)
Theorem buildNodeFromTemplate_same_up_to_random_draws
    nodeGroupName template manager enableDynamicInstanceList
    enableLabelPrediction w1 w2 :
  JoinStringMaps_later_wins ->
  order w1 = order w2 ->
  sameUpToRandomDraws nodeGroupName template manager
    enableDynamicInstanceList enableLabelPrediction w1 w2.
Proof.
  intros Hjoin Horder. unfold sameUpToRandomDraws.
  pose proof (rel_buildNodeFromTemplate nodeGroupName template manager
                enableDynamicInstanceList enableLabelPrediction w1 w2 Hjoin
                Horder)
    as Hrel.
  pose proof (wp_buildNodeFromTemplate nodeGroupName template manager
                enableDynamicInstanceList enableLabelPrediction w1) as Hwp1.
  pose proof (wp_buildNodeFromTemplate nodeGroupName template manager
                enableDynamicInstanceList enableLabelPrediction w2) as Hwp2.
  unfold wp in Hwp1, Hwp2.
  destruct (buildNodeFromTemplate nodeGroupName template manager
              enableDynamicInstanceList enableLabelPrediction w1)
    as [[[[node1|] [err1|]] w1']|];
  destruct (buildNodeFromTemplate nodeGroupName template manager
              enableDynamicInstanceList enableLabelPrediction w2)
    as [[[[node2|] [err2|]] w2']|]; try done;
    try (by destruct Hrel as [_ Hrel]).
  destruct Hrel as (_ & Hcap & Halloc & Hspec & _ & Hlabels).
  destruct Hwp1 as (? & ? & ? & _ & _ & _ & Hname1 & _).
  destruct Hwp2 as (? & ? & ? & _ & _ & _ & Hname2 & _).
  rewrite Hspec. done.
Qed.

(** C8. In every node that [buildNodeFromTemplate] returns,
    [Status.Allocatable] is the very map [Status.Capacity] is, so the two
    give the same quantity for every resource name. *)
Theorem buildNodeFromTemplate_allocatable_equals_capacity
    nodeGroupName template manager enableDynamicInstanceList
    enableLabelPrediction w node err w' :
  buildNodeFromTemplate nodeGroupName template manager
    enableDynamicInstanceList enableLabelPrediction w
  = Returned ((Some node, err), w') ->
  V1.Allocatable (V1.Status node) = V1.Capacity (V1.Status node)
  /\ is_Some (V1.Capacity (V1.Status node))
  /\ forall resourceName,
       allocatableOf w' node !! resourceName
       = capacityOf w' node !! resourceName.
Proof.
  intros Hrun.
  pose proof (wp_returned _ _ _ _ _
                (wp_buildNodeFromTemplate nodeGroupName template manager
                   enableDynamicInstanceList enableLabelPrediction w) Hrun)
    as Hpost.
  cbv beta iota in Hpost. destruct err as [err|]; [done|].
  destruct Hpost as (c & it & m' & _ & Hcap & Halloc & _).
  unfold allocatableOf, capacityOf. rewrite Hcap, Halloc. by eauto.
Qed.

(** C6. The taints of a node returned by [processVMSSTemplate] are those
    parsed from [InputTaints] when that string is not empty, whatever the
    tags say, and those that a run of [extractTaintsFromTags] extracts from
    the tags when it is empty. *)
Theorem processVMSSTemplate_taints template vmss nodeName node
    enableLabelPrediction w node' w' :
  VMSSNodeTemplate' template = Some vmss ->
  processVMSSTemplate template nodeName node enableLabelPrediction w
  = Returned (node', w') ->
  (InputTaints vmss <> "" ->
   V1.Taints (V1.Spec node') = extractTaintsFromSpecString (InputTaints vmss))
  /\ (InputTaints vmss = "" ->
      exists w0 w0',
        extractTaintsFromTags (Tags vmss) w0
        = Returned (V1.Taints (V1.Spec node'), w0')).
Proof.
  intros Hvmss Hrun.
  pose proof (wp_returned _ _ _ _ _
                (wp_processVMSSTemplate_taints template nodeName node
                   enableLabelPrediction w) Hrun)
    as (vmss' & Hvmss' & Hpost).
  rewrite Hvmss in Hvmss'. inversion Hvmss'; subst vmss'. exact Hpost.
Qed.

(** With a spec string, the tags have no part in the taints: two scale sets
    with the same [InputTaints] give the same taints. *)
Lemma processVMSSTemplate_taints_ignore_tags
    template1 template2 vmss1 vmss2 name1 name2 node1 node2
    prediction1 prediction2 w1 w2 node1' node2' w1' w2' :
  VMSSNodeTemplate' template1 = Some vmss1 ->
  VMSSNodeTemplate' template2 = Some vmss2 ->
  InputTaints vmss1 = InputTaints vmss2 ->
  InputTaints vmss1 <> "" ->
  processVMSSTemplate template1 name1 node1 prediction1 w1
  = Returned (node1', w1') ->
  processVMSSTemplate template2 name2 node2 prediction2 w2
  = Returned (node2', w2') ->
  V1.Taints (V1.Spec node1') = V1.Taints (V1.Spec node2').
Proof.
  intros Hv1 Hv2 Hsame Hne Hrun1 Hrun2.
  pose proof (wp_returned _ _ _ _ _
                (wp_processVMSSTemplate_taints template1 name1 node1
                   prediction1 w1) Hrun1)
    as (v1 & Hv1' & Hspec1 & _).
  pose proof (wp_returned _ _ _ _ _
                (wp_processVMSSTemplate_taints template2 name2 node2
                   prediction2 w2) Hrun2)
    as (v2 & Hv2' & Hspec2 & _).
  rewrite Hv1 in Hv1'. rewrite Hv2 in Hv2'.
  inversion Hv1'; inversion Hv2'; subst v1 v2.
  rewrite Hspec1 by done. rewrite Hspec2 by congruence. by rewrite Hsame.
Qed.

(** C4, as amended. The memory capacity of a node returned by
    [buildNodeFromTemplate] is exactly [memoryMb * 1024 * 1024] for the
    instance type it resolved, when that product is an [int64] and no
    resources tag of the scale set names memory; the ephemeral-storage
    capacity of a node returned by [processVMSSTemplate] is exactly
    [DiskSizeGB * 1024 * 1024 * 1024] when the disk size is present and no
    resources tag names ephemeral storage. *)
Theorem capacity_quantities_are_exact :
  (forall nodeGroupName template manager enableDynamicInstanceList
          enableLabelPrediction w node err w' instanceType,
      buildNodeFromTemplate nodeGroupName template manager
        enableDynamicInstanceList enableLabelPrediction w
      = Returned ((Some node, err), w') ->
      resolvesTo template manager enableDynamicInstanceList instanceType ->
      inInt64 (MemoryMb instanceType * 1024 * 1024) ->
      ~ overriddenByTags template V1.ResourceMemory ->
      capacityOf w' node !! V1.ResourceMemory
      = Some (V1.NewQuantity (MemoryMb instanceType * 1024 * 1024)
                             V1.DecimalSI))
  /\ (forall template vmss diskSizeGB nodeName node enableLabelPrediction
             w c m node' w',
         VMSSNodeTemplate' template = Some vmss ->
         OSDisk vmss ≫= Compute.DiskSizeGB = Some diskSizeGB ->
         inInt32 diskSizeGB ->
         V1.Capacity (V1.Status node) = Some c -> holds w c m ->
         processVMSSTemplate template nodeName node enableLabelPrediction w
         = Returned (node', w') ->
         ~ overriddenByTags template V1.ResourceEphemeralStorage ->
         capacityOf w' node' !! V1.ResourceEphemeralStorage
         = Some (V1.NewQuantity (diskSizeGB * 1024 * 1024 * 1024)
                                V1.DecimalSI)).
Proof.
  split.
  - intros nodeGroupName template manager enableDynamicInstanceList
           enableLabelPrediction w node err w' instanceType Hrun Hit.
    pose proof (wp_returned _ _ _ _ _
                  (wp_buildNodeFromTemplate nodeGroupName template manager
                     enableDynamicInstanceList enableLabelPrediction w) Hrun)
      as Hpost.
    cbv beta iota in Hpost. destruct err as [err|]; [done|].
    destruct Hpost as (c & it & m' & Hres & Hcap & _ & _ & Hm' & Hcase).
    rewrite (resolvesTo_functional _ _ _ _ _ Hit Hres).
    intros Hrange Hnot.
    unfold capacityOf. rewrite Hcap, (entries_holds _ _ _ Hm').
    destruct (VMSSNodeTemplate' template) as [vmss|] eqn:Hvmss.
    + destruct Hcase as (w0 & res & w0' & Hres' & ->).
      rewrite lookup_union_r.
      2:{ destruct (res !! V1.ResourceMemory) eqn:Hlookup; [|done].
          exfalso. apply Hnot. exists vmss, w0, res, w0'. by eauto. }
      unfold withEphemeralStorage.
      destruct (OSDisk vmss ≫= Compute.DiskSizeGB);
        [rewrite lookup_insert_ne by done|];
        unfold baseCapacity; rewrite lookup_insert_eq;
        by rewrite mul64_megabytes.
    + destruct Hcase as (_ & ->).
      unfold baseCapacity. rewrite lookup_insert_eq.
      by rewrite mul64_megabytes.
  - intros template vmss d nodeName node enableLabelPrediction w c m
           node' w' Hvmss Hdisk Hrange Hcap Hm Hrun Hnot.
    pose proof (wp_returned _ _ _ _ _
                  (wp_processVMSSTemplate template nodeName node
                     enableLabelPrediction w c m Hcap Hm) Hrun)
      as (vmss' & w0 & res & w0' & Hvmss' & Hstatus & _ & Hres & Hm').
    rewrite Hvmss in Hvmss'. inversion Hvmss'; subst vmss'.
    unfold capacityOf. rewrite Hstatus, Hcap, (entries_holds _ _ _ Hm').
    rewrite lookup_union_r.
    2:{ destruct (res !! V1.ResourceEphemeralStorage) eqn:Hlookup; [|done].
        exfalso. apply Hnot. exists vmss, w0, res, w0'. by eauto. }
    unfold withEphemeralStorage. rewrite Hdisk, lookup_insert_eq.
    by rewrite mul64_gigabytes.
Qed.

(** When [buildNodeFromTemplate] returns, it returns either a node and no
    error or an error and no node, and the error exactly when no instance
    type resolves or the template has neither sub-template. *)
Lemma buildNodeFromTemplate_returned_error nodeGroupName template manager
    enableDynamicInstanceList enableLabelPrediction w node err w' :
  buildNodeFromTemplate nodeGroupName template manager
    enableDynamicInstanceList enableLabelPrediction w
  = Returned ((node, err), w') ->
  (is_Some node <-> err = None)
  /\ (is_Some err <->
      (exists e, unresolved template manager enableDynamicInstanceList e)
      \/ (VMSSNodeTemplate' template = None
          /\ VMPoolNodeTemplate' template = None)).
Proof.
  intros Hrun.
  pose proof (wp_returned _ _ _ _ _
                (wp_buildNodeFromTemplate nodeGroupName template manager
                   enableDynamicInstanceList enableLabelPrediction w) Hrun)
    as Hpost.
  cbv beta iota in Hpost.
  destruct node as [node|], err as [err|]; try done.
  - destruct Hpost as (c & it & m' & Hres & _ & _ & _ & _ & Hcase).
    split; [split; [done|by eauto]|].
    split; [by intros [? [=]]|].
    intros [[e He]|[Hv Hp]];
      [by destruct (resolvesTo_not_unresolved _ _ _ _ _ Hres He)|].
    rewrite Hv, Hp in Hcase. by destruct Hcase as [[? [=]] _].
  - split; [split; [by intros [? [=]]|done]|].
    split; [|by eauto]. intros _.
    destruct Hpost as [Hun|(_ & Hv & Hp)]; [left; by exists err|by right].
Qed.

(** With the manager there when the dynamic lookup is enabled and no nil
    tag value, [buildNodeFromTemplate] returns, and it returns an error and
    no node exactly when no instance type resolves or the template has
    neither sub-template. *)
Lemma buildNodeFromTemplate_reports_or_builds nodeGroupName template manager
    enableDynamicInstanceList enableLabelPrediction w :
  (enableDynamicInstanceList = true -> is_Some manager) ->
  (forall vmss, VMSSNodeTemplate' template = Some vmss ->
                tagValuesPresent (Tags vmss)) ->
  exists node err w',
    buildNodeFromTemplate nodeGroupName template manager
      enableDynamicInstanceList enableLabelPrediction w
    = Returned ((node, err), w')
    /\ (is_Some node <-> err = None)
    /\ (is_Some err <->
        (exists e, unresolved template manager enableDynamicInstanceList e)
        \/ (VMSSNodeTemplate' template = None
            /\ VMPoolNodeTemplate' template = None)).
Proof.
  intros Hmanager Htags.
  destruct (buildNodeFromTemplate_returns nodeGroupName template manager
              enableDynamicInstanceList enableLabelPrediction w Hmanager
              Htags)
    as ([node err] & w' & Hrun).
  exists node, err, w'. split; [exact Hrun|].
  by eapply buildNodeFromTemplate_returned_error.
Qed.

End WithExternals.

(** C1. Two calls with the same arguments, one after the other, return
    nodes with different names and different zone labels. *)
Lemma buildNodeFromTemplate_two_calls_differ :
  returnedNodes
    (twoCalls (H := Fixtures.externals) "pool" zonedTemplate None false false
       counting)
  ≫= (fun '(node1, node2) =>
        Some (V1.Name (V1.Meta node1), V1.Name (V1.Meta node2),
              V1.Labels (V1.Meta node1) !! V1.LabelTopologyZone,
              V1.Labels (V1.Meta node2) !! V1.LabelTopologyZone))
  = Some ("pool-asg-1", "pool-asg-3",
          Some "westeurope-3", Some "westeurope-2").
Proof. reflexivity. Qed.

Lemma buildNodeFromTemplate_same_up_to_random_draws_witness :
  JoinStringMaps_later_wins (H := Fixtures.externals)
  /\ order (Fixtures.world 1) = order (Fixtures.world 2)
  /\ sameUpToRandomDraws (H := Fixtures.externals) "pool" zonedTemplate None
       false true (Fixtures.world 1) (Fixtures.world 2).
Proof.
  split; [by intros a b|]. split; [reflexivity|].
  apply (buildNodeFromTemplate_same_up_to_random_draws
           (H := Fixtures.externals)); [by intros a b|reflexivity].
Defined.

(** C2. A scale set with a tag whose value is nil makes
    [buildNodeFromTemplate] panic in [extractTaintsFromTags]: it returns
    neither a node nor an error. *)
Theorem buildNodeFromTemplate_panics_on_nil_tag :
  buildNodeFromTemplate (H := Fixtures.externals) "pool" nilTagTemplate None
    false false (Fixtures.world 7)
  = Panicked.
Proof. reflexivity. Qed.

(** The loop over the tags that builds the labels of the same template
    takes the nil value as the empty string. *)
Example processVMSSTemplate_nil_tag_label :
  returnedNode
    (buildNodeFromTemplate (H := Fixtures.externals) "pool"
       (Fixtures.vmssTemplate "Standard_D2_v2" [] "a=b:NoSchedule"
          {[ "team" := None ]} None)
       None false false (Fixtures.world 7))
  ≫= (fun node => V1.Labels (V1.Meta node) !! "team")
  = Some "".
Proof. reflexivity. Qed.

(** The two runs the statements below are tried on. *)
Lemma taintedRun_returns :
  buildNodeFromTemplate (H := Fixtures.externals) "pool" taintedTemplate None
    false true (Fixtures.world 7)
  = Returned ((Some taintedNode, None), taintedWorld).
Proof. reflexivity. Qed.

Lemma processedRun_returns :
  processVMSSTemplate (H := Fixtures.externals) taintedTemplate "n" startNode
    false startWorld
  = Returned (processedNode, processedWorld).
Proof. reflexivity. Qed.

(** The one tag of [taintedVMSS] is not a resources tag. *)
Lemma taintedTemplate_not_overridden resourceName :
  ~ overriddenByTags (H := Fixtures.externals) taintedTemplate resourceName.
Proof.
  intros (vmss & w & res & w' & Hvmss & Hres & Hsome).
  inversion Hvmss; subst vmss.
  assert (Hnone :
    extractAllocatableResourcesFromScaleSet (H := Fixtures.externals)
      (Tags taintedVMSS) w
    = Returned (∅, mkWorld (rand w) (nextTurn (order w)) (heap w)))
    by reflexivity.
  rewrite Hnone in Hres. inversion Hres; subst res.
  destruct Hsome as [q Hq]. rewrite lookup_empty in Hq. discriminate Hq.
Qed.

Lemma buildNodeFromTemplate_allocatable_equals_capacity_witness :
  buildNodeFromTemplate (H := Fixtures.externals) "pool" taintedTemplate None
    false true (Fixtures.world 7)
  = Returned ((Some taintedNode, None), taintedWorld)
  /\ (V1.Allocatable (V1.Status taintedNode)
      = V1.Capacity (V1.Status taintedNode)
      /\ is_Some (V1.Capacity (V1.Status taintedNode))
      /\ forall resourceName,
           allocatableOf taintedWorld taintedNode !! resourceName
           = capacityOf taintedWorld taintedNode !! resourceName).
Proof.
  split; [exact taintedRun_returns|].
  exact (buildNodeFromTemplate_allocatable_equals_capacity
           (H := Fixtures.externals) "pool" taintedTemplate None false true
           (Fixtures.world 7) taintedNode None taintedWorld
           taintedRun_returns).
Defined.

Lemma processVMSSTemplate_taints_witness :
  VMSSNodeTemplate' taintedTemplate = Some taintedVMSS
  /\ processVMSSTemplate (H := Fixtures.externals) taintedTemplate "n"
       startNode false startWorld
     = Returned (processedNode, processedWorld)
  /\ (InputTaints taintedVMSS <> "" ->
      V1.Taints (V1.Spec processedNode)
      = extractTaintsFromSpecString (InputTaints taintedVMSS))
  /\ (InputTaints taintedVMSS = "" ->
      exists w0 w0',
        extractTaintsFromTags (H := Fixtures.externals) (Tags taintedVMSS) w0
        = Returned (V1.Taints (V1.Spec processedNode), w0')).
Proof.
  split; [reflexivity|]. split; [exact processedRun_returns|].
  exact (processVMSSTemplate_taints (H := Fixtures.externals) taintedTemplate
           taintedVMSS "n" startNode false startWorld processedNode
           processedWorld eq_refl processedRun_returns).
Defined.

(** The taint of the tags is left out, the taint of the spec string is
    there. *)
Example processVMSSTemplate_taints_of_spec_string :
  V1.Taints (V1.Spec processedNode)
  = [V1.mkTaint "dedicated" "foo" "NoSchedule"]
  /\ forall w,
       exists w',
         extractTaintsFromTags (H := Fixtures.externals) (Tags taintedVMSS) w
         = Returned ([V1.mkTaint "gpu" "true" "NoExecute"], w').
Proof. split; [reflexivity|]. intros w. eexists. reflexivity. Qed.

(** The taints of the tags come in the order the tags are visited in. *)
Example extractTaintsFromTags_in_order_of_visit :
  returnedTaints
    (extractTaintsFromTags (H := Fixtures.externals) twoTaintTags
       (mkWorld (mkRand (fun _ => 7) 0)
          (inOrderOf ["k8s.io_cluster-autoscaler_node-template_taint_a";
                      "k8s.io_cluster-autoscaler_node-template_taint_b"] 0)
          []))
  = [V1.mkTaint "a" "1" "NoSchedule"; V1.mkTaint "b" "2" "NoExecute"]
  /\ returnedTaints
       (extractTaintsFromTags (H := Fixtures.externals) twoTaintTags
          (mkWorld (mkRand (fun _ => 7) 0)
             (inOrderOf ["k8s.io_cluster-autoscaler_node-template_taint_b";
                         "k8s.io_cluster-autoscaler_node-template_taint_a"] 0)
             []))
     = [V1.mkTaint "b" "2" "NoExecute"; V1.mkTaint "a" "1" "NoSchedule"].
Proof. split; reflexivity. Qed.

(** C4. An instance type of 2^43 MB gets a negative memory capacity, and a
    resources tag for ephemeral storage replaces the size of the OS disk. *)
Lemma capacity_quantities_not_always_exact :
  returnedCapacity
    (buildNodeFromTemplate (H := Fixtures.externals) "pool" hugeTemplate None
       false false (Fixtures.world 7))
    V1.ResourceMemory
  = Some (V1.NewQuantity (- 2 ^ 63) V1.DecimalSI)
  /\ - 2 ^ 63 <> 2 ^ 43 * 1024 * 1024
  /\ returnedCapacity
       (buildNodeFromTemplate (H := Fixtures.externals) "pool"
          resourceTagTemplate None false false (Fixtures.world 7))
       V1.ResourceEphemeralStorage
     = Some (V1.NewQuantity 5 V1.DecimalSI)
  /\ 5 <> 30 * 1024 * 1024 * 1024.
Proof.
  split; [reflexivity|]. split; [lia|]. split; [reflexivity|lia].
Qed.

Lemma taintedTemplate_resolves :
  resolvesTo (H := Fixtures.externals) taintedTemplate None false
    (mkInstanceType 2 0 7168).
Proof. right. split; [by left|reflexivity]. Qed.

Lemma capacity_quantities_are_exact_witness :
  (buildNodeFromTemplate (H := Fixtures.externals) "pool" taintedTemplate
     None false true (Fixtures.world 7)
   = Returned ((Some taintedNode, None), taintedWorld)
   /\ capacityOf taintedWorld taintedNode !! V1.ResourceMemory
      = Some (V1.NewQuantity (7168 * 1024 * 1024) V1.DecimalSI))
  /\ (processVMSSTemplate (H := Fixtures.externals) taintedTemplate "n"
        startNode false startWorld
      = Returned (processedNode, processedWorld)
      /\ capacityOf processedWorld processedNode
           !! V1.ResourceEphemeralStorage
         = Some (V1.NewQuantity (30 * 1024 * 1024 * 1024) V1.DecimalSI)).
Proof.
  split.
  - split; [exact taintedRun_returns|].
    apply (proj1 (capacity_quantities_are_exact (H := Fixtures.externals))
             "pool" taintedTemplate None false true (Fixtures.world 7)
             taintedNode None taintedWorld (mkInstanceType 2 0 7168)
             taintedRun_returns taintedTemplate_resolves).
    + unfold inInt64. simpl. lia.
    + apply taintedTemplate_not_overridden.
  - split; [exact processedRun_returns|].
    apply (proj2 (capacity_quantities_are_exact (H := Fixtures.externals))
             taintedTemplate taintedVMSS 30 "n" startNode false startWorld
             0%nat ∅ processedNode processedWorld eq_refl eq_refl).
    + unfold inInt32. lia.
    + reflexivity.
    + reflexivity.
    + exact processedRun_returns.
    + apply taintedTemplate_not_overridden.
Defined.

End AzureNodeClaims.

(** ** More about cutting and joining strings *)

Module GoStringsCuts.

(** Joining the pieces of a cut with the separator gives the string back. *)
Lemma Join_cons e rest sep :
  rest ≠ [] -> Join (e :: rest) sep = e +:+ sep +:+ Join rest sep.
Proof. by destruct rest. Qed.

Lemma Join_split_byte c s :
  Join (split_go (String c "") 0 s) (String c "") = s.
Proof.
  induction s as [|a s IH]; [done|].
  rewrite split_byte_step. destruct (Ascii.eqb c a) eqn:E.
  - apply Ascii.eqb_eq in E. subst a.
    rewrite Join_cons by apply split_go_not_nil. by rewrite IH.
  - destruct (split_go (String c "") 0 s) as [|h t] eqn:Hs.
    + by destruct (split_go_not_nil (String c "") 0 s).
    + destruct t as [|h' t].
      * simpl in *. by rewrite IH.
      * rewrite Join_cons in * by done.
        change (String a h +:+ String c "" +:+ Join (h' :: t) (String c ""))
          with (String a (h +:+ String c "" +:+ Join (h' :: t) (String c ""))).
        by rewrite IH.
Qed.

Lemma Split_byte_two c s a b :
  Split s (String c "") = [a; b] -> s = a +:+ String c b.
Proof.
  intros Hs. rewrite <- (Join_split_byte c s).
  change (split_go (String c "") 0 s) with (Split s (String c "")).
  by rewrite Hs.
Qed.

Lemma splitN_byte_two c s a b :
  SplitN s (String c "") 2 = [a; b] ->
  s = a +:+ String c b /\ freeOf c a = true.
Proof.
  unfold SplitN. revert a. induction s as [|x s IH]; intros a Hs.
  - discriminate Hs.
  - rewrite splitN_byte_step in Hs. destruct (Ascii.eqb c x) eqn:E.
    + apply Ascii.eqb_eq in E. subst x. rewrite splitN_go_one in Hs.
      by inversion Hs.
    + destruct (splitN_go (String c "") 0 2 s) as [|h t] eqn:Hcut.
      * discriminate Hs.
      * inversion Hs; subst a t. destruct (IH h eq_refl) as [-> Hh].
        split; [done|]. simpl. by rewrite E, Hh.
Qed.

(** The pieces of two strings put together with the separator in between
    are the pieces of the one followed by the pieces of the other. *)
Lemma split_byte_between c x y :
  split_go (String c "") 0 (x +:+ String c y)
  = split_go (String c "") 0 x ++ split_go (String c "") 0 y.
Proof.
  induction x as [|a x IH].
  - change ("" +:+ String c y) with (String c y).
    by rewrite split_byte_step, Ascii.eqb_refl.
  - change (String a x +:+ String c y) with (String a (x +:+ String c y)).
    rewrite !split_byte_step, IH.
    destruct (Ascii.eqb c a); [done|].
    destruct (split_go (String c "") 0 x) as [|h t] eqn:Hx; [|done].
    by destruct (split_go_not_nil (String c "") 0 x).
Qed.

Lemma Split_Join_pieces c (l : list string) :
  l ≠ [] ->
  Split (Join l (String c "")) (String c "")
  = mjoin ((fun x => Split x (String c "")) <$> l).
Proof.
  intros Hl. unfold Split. induction l as [|x l IH]; [done|].
  destruct l as [|y l].
  - simpl. by rewrite app_nil_r.
  - rewrite Join_cons by done.
    change (x +:+ String c "" +:+ Join (y :: l) (String c ""))
      with (x +:+ String c (Join (y :: l) (String c ""))).
    rewrite split_byte_between, IH by done. done.
Qed.

(** A string that does not contain the separator is not cut. *)
Lemma split_go_whole sep s :
  Contains s sep = false -> split_go sep 0 s = [s].
Proof.
  induction s as [|a s IH]; intros Hs; [done|].
  cbn [Contains] in Hs. apply orb_false_iff in Hs as [Hp Hs].
  cbn [split_go]. rewrite Hp, IH by done. done.
Qed.

Lemma Split_whole sep s :
  Contains s sep = false -> Split s sep = [s].
Proof.
  intros Hs. destruct sep as [|c sep].
  - by destruct s.
  - by apply split_go_whole.
Qed.

(** After a separator at the front, the cut goes on behind it. *)
Lemma split_go_skip sep x k rest :
  split_go sep (String.length x + k) (x +:+ rest) = split_go sep k rest.
Proof.
  induction x as [|a x IH]; [done|].
  change (String a x +:+ rest) with (String a (x +:+ rest)).
  cbn [split_go String.length Nat.add]. exact IH.
Qed.

Lemma HasPrefix_app x rest : HasPrefix (x +:+ rest) x = true.
Proof.
  unfold HasPrefix. induction x as [|a x IH]; [by destruct rest|].
  simpl. by destruct (ascii_dec a a).
Qed.

Lemma split_go_front c sep rest :
  split_go (String c sep) 0 (String c sep +:+ rest)
  = "" :: split_go (String c sep) 0 rest.
Proof.
  change (String c sep +:+ rest) with (String c (sep +:+ rest)).
  cbn [split_go].
  change (String c (sep +:+ rest)) with (String c sep +:+ rest).
  rewrite HasPrefix_app. f_equal.
  replace (String.length (String c sep) - 1)%nat
    with (String.length sep + 0)%nat by (simpl; lia).
  apply split_go_skip.
Qed.

(** The pieces of a cut, and what is joined from pieces, have no byte that
    the string and the separator put in do not have. *)
Lemma split_go_freeOf c sep k s :
  freeOf c s = true -> Forall (fun x => freeOf c x = true) (split_go sep k s).
Proof.
  revert k. induction s as [|a s IH]; intros k Hs.
  - repeat constructor.
  - simpl in Hs. apply andb_true_iff in Hs as [Ha Hs].
    cbn [split_go]. destruct k as [|k]; [|by apply IH].
    destruct (HasPrefix (String a s) sep).
    + constructor; [done|by apply IH].
    + specialize (IH 0%nat Hs).
      destruct (split_go sep 0 s) as [|h t].
      * repeat constructor. simpl. by rewrite Ha.
      * inversion IH as [|? ? Hh Ht]; subst. constructor; [|done].
        simpl. by rewrite Ha, Hh.
Qed.

Lemma explode_freeOf c s :
  freeOf c s = true -> Forall (fun x => freeOf c x = true) (explode s).
Proof.
  induction s as [|a s IH]; intros Hs; [constructor|].
  simpl in Hs. apply andb_true_iff in Hs as [Ha Hs].
  constructor; [|by apply IH]. simpl. by rewrite Ha.
Qed.

Lemma Split_freeOf c sep s :
  freeOf c s = true -> Forall (fun x => freeOf c x = true) (Split s sep).
Proof.
  intros Hs. destruct sep; [by apply explode_freeOf|by apply split_go_freeOf].
Qed.

Lemma Join_freeOf c l sep :
  Forall (fun x => freeOf c x = true) l -> freeOf c sep = true ->
  freeOf c (Join l sep) = true.
Proof.
  intros Hl Hsep. induction Hl as [|x l Hx Hl IH]; [done|].
  destruct l as [|y l]; [done|].
  rewrite Join_cons by done. by rewrite !freeOf_app, Hx, Hsep, IH.
Qed.

(** Replacing every [c] leaves none. *)
Lemma ReplaceAll_byte_freeOf c s new :
  freeOf c new = true -> freeOf c (ReplaceAll s (String c "") new) = true.
Proof.
  intros Hnew. unfold ReplaceAll. apply Join_freeOf; [|done].
  apply split_byte_free.
Qed.

Lemma ReplaceAll_freeOf c s old new :
  freeOf c s = true -> freeOf c new = true ->
  freeOf c (ReplaceAll s old new) = true.
Proof.
  intros Hs Hnew. unfold ReplaceAll. apply Join_freeOf; [|done].
  by apply Split_freeOf.
Qed.

End GoStringsCuts.

Import GoStringsCuts.

(** ** Taint strings, read back *)

Module AzureTaintStrings.

Import Azure.

(** What a string that [constructTaintFromString] accepts looks like. *)
Lemma constructTaintFromString_accepts taintString taint :
  constructTaintFromString taintString = (true, taint) ->
  taintString
  = V1.Key taint +:+ "=" +:+ V1.Value taint +:+ ":" +:+ V1.Effect taint
  /\ freeOf "="%char (V1.Key taint) = true
  /\ freeOf "="%char (V1.Value taint) = true
  /\ freeOf "="%char (V1.Effect taint) = true
  /\ freeOf ":"%char (V1.Value taint) = true
  /\ taintRegexpMatchString (V1.Value taint +:+ ":" +:+ V1.Effect taint)
     = true.
Proof.
  unfold constructTaintFromString.
  pose proof (split_byte_free "="%char taintString) as Hfree.
  change (split_go "=" 0 taintString) with (Split taintString "=") in Hfree.
  destruct (Split taintString "=") as [|key [|value [|? ?]]] eqn:Hsplit;
    cbn [length Nat.eqb negb index nth]; try (by intros [=]).
  destruct (taintRegexpMatchString value) eqn:Hmatch; cbn [negb];
    [|intros [=]].
  pose proof (AzureTaintFacts.taintRegexpMatchString_two_values value Hmatch) as Hlen.
  destruct (SplitN value ":" 2) as [|v [|e [|? ?]]] eqn:Hcut;
    try discriminate Hlen.
  intros Htaint. inversion Htaint; subst taint. cbn [V1.Key V1.Value V1.Effect].
  apply Split_byte_two in Hsplit. apply splitN_byte_two in Hcut as [Hvalue Hv].
  inversion Hfree as [|? ? Hkey Hrest]; subst.
  inversion Hrest as [|? ? Hval _]; subst.
  change (v +:+ String ":" e) with (v +:+ ":" +:+ e) in *.
  rewrite !freeOf_app in Hval.
  apply andb_true_iff in Hval as [Hv' He]. simpl in He.
  repeat split; done.
Qed.

(** Two strings accepted with the same taint are the same string. *)
Lemma constructTaintFromString_inj x y taint :
  constructTaintFromString x = (true, taint) ->
  constructTaintFromString y = (true, taint) -> x = y.
Proof.
  intros Hx Hy.
  apply constructTaintFromString_accepts in Hx as [-> _].
  by apply constructTaintFromString_accepts in Hy as [-> _].
Qed.

Lemma constructTaintFromString_rejects taintString taint :
  constructTaintFromString taintString = (false, taint) ->
  taint = V1.zeroTaint.
Proof.
  unfold constructTaintFromString.
  destruct (negb _); [by intros [=]|].
  destruct (negb _); by intros [=].
Qed.

(** X1. a taint that [constructTaintFromString] accepts spells the string it
    was read from, as [key=value:effect], with no [=] in the three parts and
    no colon in the value; a rejected string gives the zero taint. *)
Theorem constructTaintFromString_spells_its_input taintString :
  let '(valid, taint) := constructTaintFromString taintString in
  if valid
  then taintString
       = V1.Key taint +:+ "=" +:+ V1.Value taint +:+ ":" +:+ V1.Effect taint
       /\ freeOf "="%char (V1.Key taint) = true
       /\ freeOf "="%char (V1.Value taint) = true
       /\ freeOf "="%char (V1.Effect taint) = true
       /\ freeOf ":"%char (V1.Value taint) = true
  else taint = V1.zeroTaint.
Proof.
  destruct (constructTaintFromString taintString) as [[] taint] eqn:Hrun.
  - apply constructTaintFromString_accepts in Hrun. tauto.
  - by eapply constructTaintFromString_rejects.
Qed.

Lemma buildNodeTaintsForVMPool_elem taint taintStrs :
  taint ∈ buildNodeTaintsForVMPool taintStrs
  <-> exists taintStr,
        taintStr ∈ taintStrs
        /\ constructTaintFromString taintStr = (true, taint).
Proof.
  induction taintStrs as [|x l IH]; simpl.
  - split; [by intros ?%elem_of_nil|]. by intros (? & ?%elem_of_nil & _).
  - destruct (constructTaintFromString x) as [[] t] eqn:Hx.
    + rewrite elem_of_cons, IH. split.
      * intros [->|(y & Hy & Hrun)]; [exists x|exists y];
          (split; [|done]); [left|by right].
      * intros (y & Hy & Hrun). apply elem_of_cons in Hy as [->|Hy].
        -- left. congruence.
        -- right. by exists y.
    + rewrite IH. split.
      * intros (y & Hy & Hrun). exists y. split; [by right|done].
      * intros (y & Hy & Hrun). apply elem_of_cons in Hy as [->|Hy];
          [congruence|by exists y].
Qed.


Lemma buildNodeTaintsForVMPool_NoDup l :
  NoDup l -> NoDup (buildNodeTaintsForVMPool l).
Proof.
  induction 1 as [|x l Hx Hl IH]; simpl; [constructor|].
  destruct (constructTaintFromString x) as [[] t] eqn:Hrun; [|done].
  constructor; [|done]. intros Hin.
  apply buildNodeTaintsForVMPool_elem in Hin as (y & Hy & Hrun').
  by rewrite (constructTaintFromString_inj _ _ _ Hrun Hrun') in Hx.
Qed.


Lemma keepFirst_complete x seen l :
  x ∈ l -> x ∉ seen -> x ∈ keepFirst seen l.
Proof.
  revert seen. induction l as [|y l IH]; intros seen Hx Hseen.
  - by apply elem_of_nil in Hx.
  - simpl. apply elem_of_cons in Hx as [->|Hx].
    + case_decide; [done|]. left.
    + case_decide; [by apply IH|].
      destruct (decide (x = y)) as [->|Hne]; [left|].
      right. apply IH; [done|].
      intros [Hin|Hin]%elem_of_union; [|done].
      by apply elem_of_singleton in Hin.
Qed.

Lemma extractTaintsFromSpecString_keepFirst s :
  extractTaintsFromSpecString s
  = buildNodeTaintsForVMPool (keepFirst ∅ (Split s ",")).
Proof.
  unfold extractTaintsFromSpecString.
  by rewrite AzureTaintFacts.specStringLoop_keepFirst.
Qed.

Lemma extractTaintsFromSpecString_NoDup taintsString :
  NoDup (extractTaintsFromSpecString taintsString).
Proof.
  rewrite extractTaintsFromSpecString_keepFirst.
  apply buildNodeTaintsForVMPool_NoDup.
  apply (AzureTaintFacts.keepFirst_sound ∅ (Split taintsString ",")).
Qed.

Lemma extractTaintsFromSpecString_elem taintsString taint :
  taint ∈ extractTaintsFromSpecString taintsString
  <-> exists split,
        split ∈ Split taintsString ","
        /\ constructTaintFromString split = (true, taint).
Proof.
  rewrite extractTaintsFromSpecString_keepFirst.
  destruct (AzureTaintFacts.keepFirst_sound ∅ (Split taintsString ","))
    as [Hin Hnodup].
  rewrite buildNodeTaintsForVMPool_elem. split.
  - intros (x & Hx & Hrun). exists x. split; [|done].
    by apply (proj1 (Forall_forall _ _) Hin x Hx).
  - intros (x & Hx & Hrun). exists x. split; [|done].
    apply keepFirst_complete; [done|]. by apply not_elem_of_empty.
Qed.

(** The taints read from strings joined by commas are those of the
    segments of the strings. *)
Lemma extractTaintsFromSpecString_joined (l : list string) taint :
  taint ∈ extractTaintsFromSpecString (Join l ",")
  <-> exists taintStr split,
        taintStr ∈ l /\ split ∈ Split taintStr ","
        /\ constructTaintFromString split = (true, taint).
Proof.
  rewrite extractTaintsFromSpecString_elem.
  destruct l as [|x l].
  - split.
    + intros (split & Hsplit & Hrun).
      apply list_elem_of_singleton in Hsplit. by subst split.
    + by intros (taintStr & split & ?%elem_of_nil & _).
  - rewrite (Split_Join_pieces ","%char) by done. split.
    + intros (split & Hsplit & Hrun).
      apply list_elem_of_join in Hsplit as (pieces & Hsplit & Hpieces).
      apply list_elem_of_fmap in Hpieces as (taintStr & -> & Hin).
      by exists taintStr, split.
    + intros (taintStr & split & Hin & Hsplit & Hrun).
      exists split. split; [|done]. apply list_elem_of_join.
      exists (Split taintStr ","). split; [done|].
      apply list_elem_of_fmap. by exists taintStr.
Qed.

(** X3. [extractTaintsFromSpecString] never gives the same taint twice, and
    the taints it gives are those of the segments of the string between
    commas that [constructTaintFromString] accepts. *)
Theorem extractTaintsFromSpecString_no_taint_twice taintsString :
  NoDup (extractTaintsFromSpecString taintsString)
  /\ forall taint,
       taint ∈ extractTaintsFromSpecString taintsString
       <-> exists split,
             split ∈ Split taintsString ","
             /\ constructTaintFromString split = (true, taint).
Proof.
  split; [apply extractTaintsFromSpecString_NoDup|].
  intros taint. apply extractTaintsFromSpecString_elem.
Qed.

(** X4. on a list of taint strings without commas and without repetitions,
    the parser of the spec string, given the strings joined by commas, and
    the parser of the pool taints agree. *)
Theorem extractTaintsFromSpecString_of_joined_strings taintStrs :
  Forall (fun taintStr => freeOf ","%char taintStr = true) taintStrs ->
  NoDup taintStrs ->
  extractTaintsFromSpecString (Join taintStrs ",")
  = buildNodeTaintsForVMPool taintStrs.
Proof.
  intros Hfree Hnodup. rewrite extractTaintsFromSpecString_keepFirst.
  destruct taintStrs as [|x l]; [reflexivity|].
  rewrite (Split_Join_byte ","%char) by done.
  rewrite AzureTaintFacts.keepFirst_fixed; [done| |done].
  apply Forall_forall. intros y _. apply not_elem_of_empty.
Qed.

Ltac distinct_strings :=
  repeat (apply NoDup_cons_2;
          [let Hin := fresh in
           intros Hin;
           repeat (apply elem_of_cons in Hin as [Hin|Hin];
                   [discriminate Hin|]);
           by apply elem_of_nil in Hin|]);
  apply NoDup_nil_2.

Lemma extractTaintsFromSpecString_of_joined_strings_witness :
  Forall (fun taintStr => freeOf ","%char taintStr = true)
         ["dedicated=foo:NoSchedule"; "broken"; "group=bar:NoExecute"]
  /\ NoDup ["dedicated=foo:NoSchedule"; "broken"; "group=bar:NoExecute"]
  /\ extractTaintsFromSpecString
       (Join ["dedicated=foo:NoSchedule"; "broken"; "group=bar:NoExecute"]
             ",")
     = buildNodeTaintsForVMPool
         ["dedicated=foo:NoSchedule"; "broken"; "group=bar:NoExecute"].
Proof.
  assert (Hfree :
    Forall (fun taintStr => freeOf ","%char taintStr = true)
           ["dedicated=foo:NoSchedule"; "broken"; "group=bar:NoExecute"])
    by (repeat constructor).
  assert (Hnodup :
    NoDup ["dedicated=foo:NoSchedule"; "broken"; "group=bar:NoExecute"])
    by distinct_strings.
  split; [exact Hfree|]. split; [exact Hnodup|].
  exact (extractTaintsFromSpecString_of_joined_strings _ Hfree Hnodup).
Defined.

End AzureTaintStrings.

(** ** Enumerations and validation of package [core] *)

Module OciCoreValuesFacts.

Import OciCore OciCoreValues OciCoreFacts.

(** A lower-case mapping made from a list of upper-case values recognizes
    the strings that are one of the values up to case. *)
Lemma lowerCase_lookup (values : list string) s e :
  NoDup (ToLower <$> values) ->
  (list_to_map ((fun v => (ToLower v, v)) <$> values) : gmap string string)
    !! ToLower s = Some e
  <-> In e values /\ EqualFold s e = true.
Proof.
  intros Hnodup. rewrite EqualFold_ToLower, <- list_elem_of_In.
  rewrite <- elem_of_list_to_map.
  2:{ by rewrite <- list_fmap_compose. }
  rewrite list_elem_of_fmap. split.
  - intros (v & [= Hs ->] & Hv). done.
  - intros [He Hs]. exists e. by rewrite Hs.
Qed.

Lemma sortOrder_values_distinct :
  NoDup
    (ToLower
       <$> GetListAppCatalogListingResourceVersionsSortOrderEnumStringValues).
Proof. AzureTaintStrings.distinct_strings. Qed.

Lemma lifecycleState_values_distinct :
  NoDup (ToLower <$> GetBlockVolumeReplicaLifecycleStateEnumStringValues).
Proof. AzureTaintStrings.distinct_strings. Qed.

Lemma sortOrder_lookup s e :
  mappingListAppCatalogListingResourceVersionsSortOrderEnumLowerCase
    !! ToLower s = Some e
  <-> In e GetListAppCatalogListingResourceVersionsSortOrderEnumStringValues
      /\ EqualFold s e = true.
Proof.
  apply (lowerCase_lookup
           GetListAppCatalogListingResourceVersionsSortOrderEnumStringValues).
  apply sortOrder_values_distinct.
Qed.

(** X5. [GetMappingListAppCatalogListingResourceVersionsSortOrderEnum]
    answers [(e, true)] exactly when [e] is one of the string values [ASC]
    and [DESC] and the argument is [e] up to case, and [("", false)] for
    every other argument. *)
Theorem GetMappingListAppCatalogListingResourceVersionsSortOrderEnum_recognizes
    s :
  (forall e,
      GetMappingListAppCatalogListingResourceVersionsSortOrderEnum s
      = (e, true)
      <-> In e GetListAppCatalogListingResourceVersionsSortOrderEnumStringValues
          /\ EqualFold s e = true)
  /\ (GetMappingListAppCatalogListingResourceVersionsSortOrderEnum s
      = ("", false)
      <-> forall e,
            In e
              GetListAppCatalogListingResourceVersionsSortOrderEnumStringValues ->
            EqualFold s e = false).
Proof.
  unfold GetMappingListAppCatalogListingResourceVersionsSortOrderEnum.
  destruct (_ !! ToLower s) as [e0|] eqn:Hs.
  - split.
    + intros e. split.
      * intros [= <-]. by apply sortOrder_lookup.
      * intros Hcond. apply sortOrder_lookup in Hcond.
        pose proof (eq_trans (eq_sym Hs) Hcond) as [= ->]. done.
    + split; [done|]. intros Hnone. apply sortOrder_lookup in Hs as [Hin Hfold].
      by rewrite (Hnone e0 Hin) in Hfold.
  - split.
    + intros e. split; [done|]. intros Hcond. apply sortOrder_lookup in Hcond.
      pose proof (eq_trans (eq_sym Hs) Hcond) as [=].
    + split; [|done]. intros _ e Hin.
      destruct (EqualFold s e) eqn:Hfold; [|done].
      assert (Hsome :
        mappingListAppCatalogListingResourceVersionsSortOrderEnumLowerCase
          !! ToLower s = Some e) by (by apply sortOrder_lookup).
      pose proof (eq_trans (eq_sym Hs) Hsome) as [=].
Qed.

(** The keys of the lower-case mapping are the six string values with
    their letters lowered. *)
Lemma lifecycleState_key k e :
  mappingBlockVolumeReplicaLifecycleStateEnumLowerCase !! k = Some e
  <-> In e GetBlockVolumeReplicaLifecycleStateEnumStringValues
      /\ k = ToLower e.
Proof.
  change mappingBlockVolumeReplicaLifecycleStateEnumLowerCase
    with (list_to_map
            ((fun v => (ToLower v, v))
               <$> GetBlockVolumeReplicaLifecycleStateEnumStringValues)
          : gmap string string).
  rewrite <- list_elem_of_In, <- elem_of_list_to_map.
  2:{ rewrite <- list_fmap_compose. apply lifecycleState_values_distinct. }
  rewrite list_elem_of_fmap. split.
  - intros (v & [= -> ->] & Hv). done.
  - intros [He ->]. by exists e.
Qed.

(** The six string values are ASCII. *)
Lemma lifecycleState_values_ASCII `{Unicode.Lowering} e :
  Unicode.lowersASCII ->
  In e GetBlockVolumeReplicaLifecycleStateEnumStringValues ->
  Unicode.ToLower e = ToLower e.
Proof.
  intros Hascii He. apply Hascii. simpl in He.
  repeat (destruct He as [<-|He]; [reflexivity|]). destruct He.
Qed.

(** X6. with [strings.ToLower] lowering a string of ASCII bytes letter by
    letter, [ValidateEnumValue] of a block volume replica reports an error,
    and its flag is [true], exactly when the lifecycle state is not empty
    and its lower-case form is that of none of the six string values;
    otherwise it answers [(false, nil)]. *)
Theorem BlockVolumeReplica_ValidateEnumValue_error_iff `{Unicode.Lowering}
    (m : BlockVolumeReplica.t) :
  Unicode.lowersASCII ->
  let unsupported :=
    BlockVolumeReplica.LifecycleState m <> ""
    /\ forall e,
         In e GetBlockVolumeReplicaLifecycleStateEnumStringValues ->
         Unicode.ToLower (BlockVolumeReplica.LifecycleState m)
         <> Unicode.ToLower e in
  ((exists err, BlockVolumeReplica.ValidateEnumValue m = (true, Some err))
   <-> unsupported)
  /\ (BlockVolumeReplica.ValidateEnumValue m = (false, None)
      <-> ~ unsupported).
Proof.
  intros Hascii. cbv zeta. unfold BlockVolumeReplica.ValidateEnumValue.
  set (state := BlockVolumeReplica.LifecycleState m).
  unfold GetMappingBlockVolumeReplicaLifecycleStateEnum.
  destruct (_ !! Unicode.ToLower state) as [e0|] eqn:Hs;
    cbn [snd negb andb app].
  - apply lifecycleState_key in Hs as [Hin Hkey].
    cbn [length Nat.ltb Nat.leb].
    assert (Hsupported :
      ~ (state <> ""
         /\ forall e,
              In e GetBlockVolumeReplicaLifecycleStateEnumStringValues ->
              Unicode.ToLower state <> Unicode.ToLower e)).
    { intros [_ Hnone]. apply (Hnone e0 Hin).
      by rewrite (lifecycleState_values_ASCII e0 Hascii Hin). }
    split; split; [by intros [? [=]]|done|done|done].
  - destruct (String.eqb state "") eqn:Hempty;
      cbn [negb app length Nat.ltb Nat.leb].
    + apply String.eqb_eq in Hempty.
      split; split;
        [by intros [? [=]]|by intros [Hne _]|by intros _ [Hne _]|done].
    + apply String.eqb_neq in Hempty.
      assert (Hnone : forall e,
                 In e GetBlockVolumeReplicaLifecycleStateEnumStringValues ->
                 Unicode.ToLower state <> Unicode.ToLower e).
      { intros e Hin Hfold.
        rewrite (lifecycleState_values_ASCII e Hascii Hin) in Hfold.
        assert (Hsome :
          mappingBlockVolumeReplicaLifecycleStateEnumLowerCase
            !! Unicode.ToLower state = Some e)
          by (by apply lifecycleState_key).
        pose proof (eq_trans (eq_sym Hs) Hsome) as [=]. }
      split; split;
        [done|intros _; by eexists|by intros [=]|intros Hnot; by destruct Hnot].
Qed.

Lemma BlockVolumeReplica_ValidateEnumValue_error_iff_witness :
  @Unicode.lowersASCII Unicode.dotted
  /\ ((exists err,
          BlockVolumeReplica.ValidateEnumValue (H := Unicode.dotted)
            OciRuns.dottedReplica
          = (true, Some err))
      <-> BlockVolumeReplica.LifecycleState OciRuns.dottedReplica <> ""
          /\ forall e,
               In e GetBlockVolumeReplicaLifecycleStateEnumStringValues ->
               Unicode.ToLower (Lowering := Unicode.dotted)
                 (BlockVolumeReplica.LifecycleState OciRuns.dottedReplica)
               <> Unicode.ToLower (Lowering := Unicode.dotted) e)
  /\ (BlockVolumeReplica.ValidateEnumValue (H := Unicode.dotted)
        OciRuns.dottedReplica
      = (false, None)
      <-> ~ (BlockVolumeReplica.LifecycleState OciRuns.dottedReplica <> ""
             /\ forall e,
                  In e GetBlockVolumeReplicaLifecycleStateEnumStringValues ->
                  Unicode.ToLower (Lowering := Unicode.dotted)
                    (BlockVolumeReplica.LifecycleState
                       OciRuns.dottedReplica)
                  <> Unicode.ToLower (Lowering := Unicode.dotted) e)).
Proof.
  split; [exact lowerDotted_lowersASCII|].
  exact (BlockVolumeReplica_ValidateEnumValue_error_iff
           (H := Unicode.dotted) OciRuns.dottedReplica
           lowerDotted_lowersASCII).
Defined.

(** A state that is none of the six is reported; one spelled with
    [U+0130] is accepted once that is lowered to [i]. *)
Example BlockVolumeReplica_ValidateEnumValue_runs :
  fst (BlockVolumeReplica.ValidateEnumValue (H := Unicode.dotted)
         OciRuns.meltingReplica) = true
  /\ BlockVolumeReplica.ValidateEnumValue (H := Unicode.dotted)
       OciRuns.dottedReplica
     = (false, None).
Proof. split; reflexivity. Qed.

(** *** The values of an enum, collected by a loop over its mapping *)

Lemma rangeO_append {K X} (l : list (K * X)) (values : list X) :
  rangeO (fun values '(_, v) => Returned (values ++ [v])) l values
  = Returned (values ++ l.*2).
Proof.
  revert values. induction l as [|[k v] l IH]; intros values; simpl.
  - by rewrite app_nil_r.
  - rewrite IH. by rewrite <- app_assoc.
Qed.

(** The mapping of an enum whose values are their own names. *)
Lemma values_of_mapping (values : list string) :
  NoDup values ->
  map_to_list (list_to_map ((fun v => (v, v)) <$> values) : gmap string string)
  ≡ₚ (fun v => (v, v)) <$> values.
Proof.
  intros Hnodup. apply map_to_list_to_map.
  rewrite <- list_fmap_compose. by rewrite list_fmap_id.
Qed.

Lemma enumValues_in_any_order {V} (values : list string) :
  NoDup values ->
  (forall w : World V,
      exists result w',
        rangeMap (list_to_map ((fun v => (v, v)) <$> values)
                    : gmap string string)
          (fun values '(_, v) => Returned (values ++ [v])) [] w
        = Returned (result, w')
        /\ result ≡ₚ values)
  /\ (forall result (w : World V),
         result ≡ₚ values ->
         exists o w',
           rangeMap (list_to_map ((fun v => (v, v)) <$> values)
                       : gmap string string)
             (fun values '(_, v) => Returned (values ++ [v])) []
             (mkWorld (rand w) o (heap w))
           = Returned (result, w')).
Proof.
  intros Hnodup. pose proof (values_of_mapping values Hnodup) as Hlist.
  split.
  - intros w. unfold rangeMap. rewrite rangeO_append. eexists _, _.
    split; [reflexivity|]. cbn [app].
    rewrite (visit_Permutation (order w)), Hlist.
    rewrite <- list_fmap_compose. by rewrite list_fmap_id.
  - intros result w Hperm.
    exists (inOrderOf result 0). eexists. unfold rangeMap.
    rewrite rangeO_append. cbn [app order].
    assert (Hvisit :
      visit (inOrderOf (((fun v : string => (v, v)) <$> result).*1) 0)
            (list_to_map ((fun v => (v, v)) <$> values) : gmap string string)
      = (fun v => (v, v)) <$> result).
    { apply visit_any_order. rewrite Hlist. by apply fmap_Permutation. }
    rewrite <- list_fmap_compose, list_fmap_id in Hvisit.
    rewrite Hvisit. rewrite <- list_fmap_compose, list_fmap_id. reflexivity.
Qed.

(** X7. [GetBlockVolumeReplicaLifecycleStateEnumValues] returns the six
    values of the enum, each once, in the order in which the mapping is
    visited: every order of the six can come out. *)
Theorem GetBlockVolumeReplicaLifecycleStateEnumValues_in_any_order {V} :
  (forall w : World V,
      exists values w',
        GetBlockVolumeReplicaLifecycleStateEnumValues w
        = Returned (values, w')
        /\ values ≡ₚ GetBlockVolumeReplicaLifecycleStateEnumStringValues)
  /\ (forall values (w : World V),
         values ≡ₚ GetBlockVolumeReplicaLifecycleStateEnumStringValues ->
         exists o w',
           GetBlockVolumeReplicaLifecycleStateEnumValues
             (mkWorld (rand w) o (heap w))
           = Returned (values, w')).
Proof.
  apply (enumValues_in_any_order
           GetBlockVolumeReplicaLifecycleStateEnumStringValues).
  AzureTaintStrings.distinct_strings.
Qed.

(** X8. [GetListAppCatalogListingResourceVersionsSortOrderEnumValues]
    returns [ASC] and [DESC] in the order in which the mapping is visited:
    either of the two orders can come out. *)
Theorem GetListAppCatalogListingResourceVersionsSortOrderEnumValues_in_any_order
    {V} :
  (forall w : World V,
      exists values w',
        GetListAppCatalogListingResourceVersionsSortOrderEnumValues w
        = Returned (values, w')
        /\ values
           ≡ₚ GetListAppCatalogListingResourceVersionsSortOrderEnumStringValues)
  /\ (forall values (w : World V),
         values
         ≡ₚ GetListAppCatalogListingResourceVersionsSortOrderEnumStringValues ->
         exists o w',
           GetListAppCatalogListingResourceVersionsSortOrderEnumValues
             (mkWorld (rand w) o (heap w))
           = Returned (values, w')).
Proof.
  apply (enumValues_in_any_order
           GetListAppCatalogListingResourceVersionsSortOrderEnumStringValues).
  AzureTaintStrings.distinct_strings.
Qed.

End OciCoreValuesFacts.

(** ** NP-series SKUs *)

Module AzureSkuFacts.

Import Azure OciCore OciCoreFacts.

Lemma HasPrefix_ToLower name p :
  HasPrefix (ToLower name) p = true
  <-> exists pre rest, name = pre +:+ rest /\ ToLower pre = p.
Proof.
  unfold HasPrefix. revert name. induction p as [|c p IH]; intros name.
  - split; [|by destruct (ToLower name)]. intros _. by exists "", name.
  - destruct name as [|a name]; simpl.
    + split; [done|]. intros (pre & rest & Hname & Hpre).
      destruct pre; [done|discriminate Hname].
    + destruct (ascii_dec c (lowerByte a)) as [->|Hne].
      * rewrite IH. split.
        -- intros (pre & rest & -> & <-). by exists (String a pre), rest.
        -- intros (pre & rest & Hname & Hpre).
           destruct pre as [|b pre]; [discriminate Hpre|].
           simpl in Hname, Hpre. inversion Hname; subst.
           inversion Hpre; subst. by exists pre, rest.
      * split; [done|]. intros (pre & rest & Hname & Hpre).
        destruct pre as [|b pre]; [discriminate Hpre|].
        simpl in Hname, Hpre. inversion Hname; subst.
        inversion Hpre; subst. done.
Qed.

(** X9. [isNPSeries] holds exactly for the names that begin with
    [standard_np] in any mix of upper and lower case. *)
Theorem isNPSeries_iff name :
  isNPSeries name = true
  <-> exists pre rest,
        name = pre +:+ rest /\ EqualFold pre "standard_np" = true.
Proof.
  unfold isNPSeries. rewrite HasPrefix_ToLower.
  change "standard_np" with (ToLower "standard_np") at 1.
  split; intros (pre & rest & Hname & Hpre); exists pre, rest;
    (split; [done|]); by apply EqualFold_ToLower.
Qed.

End AzureSkuFacts.

(** ** Loops over maps, step by step *)

Module GoLoopFacts.

Lemma rangeO_invariant {A S} (P : S -> Prop)
    (body : S -> A -> outcome S) (l : list A) (s s' : S) :
  rangeO body l s = Returned s' ->
  P s ->
  (forall s x s1, x ∈ l -> P s -> body s x = Returned s1 -> P s1) ->
  P s'.
Proof.
  revert s. induction l as [|x l IH]; intros s Hrun Hs Hstep.
  - simpl in Hrun. inversion Hrun. by subst.
  - simpl in Hrun. destruct (body s x) as [s1|] eqn:Hx; [|done].
    simpl in Hrun. apply (IH s1 Hrun).
    + apply (Hstep s x); [left|done..].
    + intros s0 y s2 Hy. apply Hstep. by right.
Qed.

(** What the step of one element sets up and no step takes away holds at
    the end. *)
Lemma rangeO_established {A S} (Q : S -> Prop)
    (body : S -> A -> outcome S) (l : list A) (x : A) (s s' : S) :
  rangeO body l s = Returned s' ->
  x ∈ l ->
  (forall s s1, body s x = Returned s1 -> Q s1) ->
  (forall s y s1, Q s -> body s y = Returned s1 -> Q s1) ->
  Q s'.
Proof.
  intros Hrun Hx Hset Hkeep. revert s Hrun.
  induction l as [|y l IH]; intros s Hrun.
  - by apply elem_of_nil in Hx.
  - simpl in Hrun. destruct (body s y) as [s1|] eqn:Hy; [|done].
    simpl in Hrun. apply elem_of_cons in Hx as [->|Hx].
    + apply (rangeO_invariant Q body l s1 s' Hrun); [by eapply Hset|].
      intros s0 z s2 _. apply Hkeep.
    + by apply (IH Hx s1).
Qed.

Lemma rangeO_panics {A S} (body : S -> A -> outcome S) (l : list A) (x : A)
    (s : S) :
  x ∈ l -> (forall s, body s x = Panicked) -> rangeO body l s = Panicked.
Proof.
  intros Hx Hpanic. revert s. induction l as [|y l IH]; intros s.
  - by apply elem_of_nil in Hx.
  - simpl. apply elem_of_cons in Hx as [->|Hx].
    + by rewrite Hpanic.
    + destruct (body s y); [|done]. simpl. by apply IH.
Qed.

Lemma rangeO_panicked {A S} (body : S -> A -> outcome S) (l : list A) (s : S) :
  rangeO body l s = Panicked ->
  exists x s0, x ∈ l /\ body s0 x = Panicked.
Proof.
  revert s. induction l as [|y l IH]; intros s Hrun; [done|].
  simpl in Hrun. destruct (body s y) as [s1|] eqn:Hy.
  - simpl in Hrun. destruct (IH s1 Hrun) as (x & s0 & Hx & Hpanic).
    exists x, s0. split; [by right|done].
  - exists y, s. split; [left|done].
Qed.

Lemma elem_of_visit {X} (o : RangeOrder) (m : gmap string X) k x :
  (k, x) ∈ visit o m <-> m !! k = Some x.
Proof. by rewrite (visit_Permutation o m), elem_of_map_to_list. Qed.

Section Maps.

Context {V X S : Type}.
Implicit Types (m : gmap string X) (body : S -> string * X -> outcome S).

Lemma rangeMap_invariant (P : S -> Prop) m body s w s' w' :
  rangeMap (V := V) m body s w = Returned (s', w') ->
  P s ->
  (forall s k x s1,
      m !! k = Some x -> P s -> body s (k, x) = Returned s1 -> P s1) ->
  P s'.
Proof.
  intros Hrun Hs Hstep. apply rangeMap_returned in Hrun as [Hrun _].
  apply (rangeO_invariant P _ _ _ _ Hrun Hs).
  intros s0 [k x] s1 Hkx. apply Hstep. by apply elem_of_visit in Hkx.
Qed.

Lemma rangeMap_established (Q : S -> Prop) m body k x s w s' w' :
  rangeMap (V := V) m body s w = Returned (s', w') ->
  m !! k = Some x ->
  (forall s s1, body s (k, x) = Returned s1 -> Q s1) ->
  (forall s y s1, Q s -> body s y = Returned s1 -> Q s1) ->
  Q s'.
Proof.
  intros Hrun Hkx Hset Hkeep. apply rangeMap_returned in Hrun as [Hrun _].
  apply (rangeO_established Q _ _ (k, x) _ _ Hrun); [|done..].
  by apply elem_of_visit.
Qed.

Lemma rangeMap_panics m body k x s (w : World V) :
  m !! k = Some x -> (forall s, body s (k, x) = Panicked) ->
  rangeMap m body s w = Panicked.
Proof.
  intros Hkx Hpanic. unfold rangeMap.
  rewrite (rangeO_panics body _ (k, x)); [done| |done].
  by apply elem_of_visit.
Qed.

Lemma rangeMap_panicked m body s (w : World V) :
  rangeMap m body s w = Panicked ->
  exists k x s0, m !! k = Some x /\ body s0 (k, x) = Panicked.
Proof.
  unfold rangeMap. intros Hrun.
  destruct (rangeO body (visit (order w) m) s) as [s'|] eqn:Hloop; [done|].
  apply rangeO_panicked in Hloop as ([k x] & s0 & Hkx & Hpanic).
  exists k, x, s0. split; [by apply elem_of_visit in Hkx|done].
Qed.

(** A loop returns when the body returns on every entry of the map. *)
Lemma rangeMap_returns m body s (w : World V) :
  (forall s k x, m !! k = Some x -> exists s1, body s (k, x) = Returned s1) ->
  exists s',
    rangeMap m body s w
    = Returned (s', mkWorld (rand w) (nextTurn (order w)) (heap w)).
Proof.
  intros Hbody. unfold rangeMap.
  destruct (rangeO body (visit (order w) m) s) as [s'|] eqn:Hloop;
    [by exists s'|].
  apply rangeO_panicked in Hloop as ([k x] & s0 & Hkx & Hpanic).
  apply elem_of_visit in Hkx. destruct (Hbody s0 k x Hkx) as [s1 Hs1].
  congruence.
Qed.

End Maps.

(** A loop that writes every entry of a map into another map, under the
    same key, gives the same map in whatever order it visits the entries. *)
Lemma rangeO_insert {X Y} (f : X -> Y)
    (body : gmap string Y -> string * X -> outcome (gmap string Y))
    (l : list (string * X)) (s : gmap string Y) :
  (forall s k x, body s (k, x) = Returned (<[k := f x]> s)) ->
  rangeO body l s = Returned (assignAll s (prod_map id f <$> l)).
Proof.
  intros Hbody. revert s. induction l as [|[k x] l IH]; intros s; [done|].
  simpl. rewrite Hbody. simpl. apply IH.
Qed.

Lemma rangeMap_insert {V X Y} (f : X -> Y) (m : gmap string X)
    (body : gmap string Y -> string * X -> outcome (gmap string Y))
    (s : gmap string Y) (w : World V) :
  (forall s k x, body s (k, x) = Returned (<[k := f x]> s)) ->
  rangeMap m body s w
  = Returned ((f <$> m) ∪ s,
              mkWorld (rand w) (nextTurn (order w)) (heap w)).
Proof.
  intros Hbody. unfold rangeMap. rewrite (rangeO_insert f) by done.
  do 2 f_equal.
  assert (Hkeys : (prod_map id f <$> visit (order w) m).*1
                  = (visit (order w) m).*1).
  { rewrite <- list_fmap_compose. apply list_fmap_ext. by intros ? [k x]. }
  rewrite assignAll_NoDup.
  2:{ rewrite Hkeys, (visit_Permutation (order w) m).
      apply NoDup_fst_map_to_list. }
  f_equal. rewrite list_to_map_fmap. f_equal.
  rewrite <- (list_to_map_to_list m) at 2.
  apply list_to_map_proper; [|apply visit_Permutation].
  rewrite (visit_Permutation (order w) m). apply NoDup_fst_map_to_list.
Qed.

(** A loop over a slice that appends something for some of its elements. *)
Lemma foldl_append_omap {A B} (g : A -> option B)
    (step : list B -> A -> list B) (l : list A) (acc : list B) :
  (forall acc x,
      step acc x = match g x with Some y => acc ++ [y] | None => acc end) ->
  foldl step acc l = acc ++ omap g l.
Proof.
  intros Hstep. revert acc. induction l as [|x l IH]; intros acc; simpl.
  - by rewrite app_nil_r.
  - rewrite IH, Hstep. destruct (g x); [|done]. by rewrite <- app_assoc.
Qed.

End GoLoopFacts.

Import GoLoopFacts.

(** ** The loops over the tags of a scale set *)

Module AzureTagFacts.

Import Azure AzureNodeSpec AzureTagSpec.

(** A loop that, for the entries whose key names something, puts a value
    under that name, passes the entry over, or panics. *)
Lemma putLoop {V X Y} (m : gmap string X)
    (body : gmap string Y -> string * X -> outcome (gmap string Y))
    (named : string -> option string) (val : X -> outcome (option Y))
    (w : World V) :
  (forall s k x,
      body s (k, x)
      = match named k with
        | None => Returned s
        | Some n =>
            match val x with
            | Panicked => Panicked
            | Returned None => Returned s
            | Returned (Some y) => Returned (<[n := y]> s)
            end
        end) ->
  match rangeMap m body ∅ w with
  | Returned (r, w') =>
      heap w' = heap w
      /\ (forall n y,
             r !! n = Some y ->
             exists k x,
               m !! k = Some x /\ named k = Some n
               /\ val x = Returned (Some y))
      /\ (forall k x n y,
             m !! k = Some x -> named k = Some n ->
             val x = Returned (Some y) -> is_Some (r !! n))
      /\ (forall k x,
             m !! k = Some x -> is_Some (named k) -> val x <> Panicked)
  | Panicked =>
      exists k x, m !! k = Some x /\ is_Some (named k) /\ val x = Panicked
  end.
Proof.
  intros Hbody.
  destruct (rangeMap m body ∅ w) as [[r w']|] eqn:Hrun.
  - split; [by apply rangeMap_returned in Hrun as [_ ?]|]. split; [|split].
    + apply (rangeMap_invariant
               (fun r => forall n y,
                    r !! n = Some y ->
                    exists k x,
                      m !! k = Some x /\ named k = Some n
                      /\ val x = Returned (Some y))
               _ _ _ _ _ _ Hrun).
      * intros n y Hn. by rewrite lookup_empty in Hn.
      * intros s k x s1 Hkx Hs. rewrite Hbody.
        destruct (named k) as [n0|] eqn:Hk; [|by intros [= <-]].
        destruct (val x) as [[y0|]|] eqn:Hx; [|by intros [= <-]|done].
        intros [= <-] n y. rewrite lookup_insert. case_decide as Hn.
        -- intros [= <-]. subst n. by exists k, x.
        -- apply Hs.
    + intros k x n y Hkx Hk Hx.
      apply (rangeMap_established (fun r => is_Some (r !! n))
               _ _ k x _ _ _ _ Hrun Hkx).
      * intros s s1. rewrite Hbody, Hk, Hx. intros [= <-].
        by rewrite lookup_insert_eq.
      * intros s [k' x'] s1 Hs. rewrite Hbody.
        destruct (named k') as [n0|]; [|by intros [= <-]].
        destruct (val x') as [[y0|]|]; [|by intros [= <-]|done].
        intros [= <-]. rewrite lookup_insert. by case_decide.
    + intros k x Hkx [n Hk] Hx.
      rewrite (rangeMap_panics m body k x) in Hrun; [done|done|].
      intros s. by rewrite Hbody, Hk, Hx.
  - apply rangeMap_panicked in Hrun as (k & x & s0 & Hkx & Hpanic).
    exists k, x. split; [done|]. rewrite Hbody in Hpanic.
    destruct (named k) as [n0|]; [|done].
    destruct (val x) as [[y0|]|]; by eauto.
Qed.

(** A loop that appends an item for an entry, passes the entry over, or
    panics. *)
Lemma appendLoop {V X T} (m : gmap string X)
    (body : list T -> string * X -> outcome (list T))
    (item : string -> X -> outcome (option T)) (w : World V) :
  (forall s k x,
      body s (k, x)
      = match item k x with
        | Panicked => Panicked
        | Returned None => Returned s
        | Returned (Some t) => Returned (s ++ [t])
        end) ->
  match rangeMap m body [] w with
  | Returned (r, w') =>
      heap w' = heap w
      /\ (forall t,
             t ∈ r
             <-> exists k x, m !! k = Some x /\ item k x = Returned (Some t))
      /\ (forall k x, m !! k = Some x -> item k x <> Panicked)
  | Panicked => exists k x, m !! k = Some x /\ item k x = Panicked
  end.
Proof.
  intros Hbody.
  destruct (rangeMap m body [] w) as [[r w']|] eqn:Hrun.
  - split; [by apply rangeMap_returned in Hrun as [_ ?]|]. split; [|].
    + intros t. split.
      * revert t.
        apply (rangeMap_invariant
                 (fun r => forall t,
                      t ∈ r ->
                      exists k x,
                        m !! k = Some x /\ item k x = Returned (Some t))
                 _ _ _ _ _ _ Hrun).
        -- intros t Ht. by apply elem_of_nil in Ht.
        -- intros s k x s1 Hkx Hs. rewrite Hbody.
           destruct (item k x) as [[t0|]|] eqn:Hx; [|by intros [= <-]|done].
           intros [= <-] t [Ht|Ht]%elem_of_app; [by apply Hs|].
           apply list_elem_of_singleton in Ht. subst t0. by exists k, x.
      * intros (k & x & Hkx & Hx).
        apply (rangeMap_established (fun r => t ∈ r)
                 _ _ k x _ _ _ _ Hrun Hkx).
        -- intros s s1. rewrite Hbody, Hx. intros [= <-].
           apply elem_of_app. right. by apply list_elem_of_singleton.
        -- intros s [k' x'] s1 Hs. rewrite Hbody.
           destruct (item k' x') as [[t0|]|]; [|by intros [= <-]|done].
           intros [= <-]. apply elem_of_app. by left.
    + intros k x Hkx Hx.
      rewrite (rangeMap_panics m body k x) in Hrun; [done|done|].
      intros s. by rewrite Hbody, Hx.
  - apply rangeMap_panicked in Hrun as (k & x & s0 & Hkx & Hpanic).
    exists k, x. split; [done|]. rewrite Hbody in Hpanic.
    by destruct (item k x) as [[t0|]|].
Qed.

Section WithExternals.

Context `{Externals}.

Implicit Types w : World V1.Quantity.

Lemma extractLabelsFromTags_cases tags w :
  match extractLabelsFromTags tags w with
  | Returned (labels, w') =>
      (forall label v,
          labels !! label = Some v ->
          exists tagName,
            tags !! tagName = Some (Some v)
            /\ labelNamed tagName = Some label)
      /\ (forall tagName tagValue label,
             tags !! tagName = Some tagValue ->
             labelNamed tagName = Some label ->
             is_Some tagValue /\ is_Some (labels !! label))
  | Panicked =>
      exists tagName,
        tags !! tagName = Some None /\ is_Some (labelNamed tagName)
  end.
Proof.
  unfold extractLabelsFromTags.
  match goal with
  | |- context [rangeMap tags ?body ∅ w] =>
      pose proof (putLoop tags body labelNamed
                    (fun tagValue : option string =>
                       match tagValue with
                       | Some v => Returned (Some v)
                       | None => Panicked
                       end)
                    w) as Hloop
  end.
  lapply Hloop; clear Hloop.
  2:{ intros s k x. unfold labelNamed. cbv zeta.
      destruct (1 <? length (Split k nodeLabelTagName))%nat; [|done].
      destruct (negb _); [|done]. by destruct x. }
  intros Hloop.
  destruct (rangeMap tags _ ∅ w) as [[labels w']|].
  - destruct Hloop as (_ & Hsound & Hcomplete & Hnil). split.
    + intros label v Hlabel.
      destruct (Hsound label v Hlabel) as (k & [x|] & Hk & Hname & Hval);
        [|done].
      inversion Hval; subst x. by exists k.
    + intros tagName [v|] label Htag Hname.
      * split; [done|]. by eapply Hcomplete.
      * by destruct (Hnil tagName None Htag (mk_is_Some _ _ Hname)).
  - destruct Hloop as (k & x & Hk & Hname & Hval).
    destruct x as [v|]; [done|]. by exists k.
Qed.

Lemma extractTaintsFromTags_cases tags w :
  match extractTaintsFromTags tags w with
  | Returned (taints, w') =>
      tagValuesPresent tags
      /\ forall taint,
           taint ∈ taints
           <-> exists tagName tagValue,
                 tags !! tagName = Some (Some tagValue)
                 /\ taintOfTag tagName tagValue = Some taint
  | Panicked => exists tagName, tags !! tagName = Some None
  end.
Proof.
  unfold extractTaintsFromTags.
  match goal with
  | |- context [rangeMap tags ?body [] w] =>
      pose proof (appendLoop tags body
                    (fun tagName (tagValue : option string) =>
                       match tagValue with
                       | Some v => Returned (taintOfTag tagName v)
                       | None => Panicked
                       end)
                    w) as Hloop
  end.
  lapply Hloop; clear Hloop.
  2:{ intros s k [v|]; [|done]. unfold taintOfTag. cbn [bindO deref].
      destruct (taintRegexpMatchString v) eqn:Hmatch; [|done].
      destruct (1 <? length (Split k nodeTaintTagName))%nat; [|done].
      by rewrite (AzureTaintFacts.taintRegexpMatchString_two_values v Hmatch). }
  intros Hloop.
  destruct (rangeMap tags _ [] w) as [[taints w']|].
  - destruct Hloop as (_ & Hitems & Hnil). split.
    + intros tagName [v|] Htag; [done|]. by destruct (Hnil tagName None Htag).
    + intros taint. rewrite Hitems. split.
      * intros (k & [v|] & Hk & Hitem); [|done].
        inversion Hitem. by exists k, v.
      * intros (k & v & Hk & Hitem). exists k, (Some v). by rewrite Hitem.
  - destruct Hloop as (k & [v|] & Hk & Hitem); [done|]. by exists k.
Qed.

Lemma extractAllocatableResourcesFromScaleSet_cases tags w :
  match extractAllocatableResourcesFromScaleSet tags w with
  | Returned (resources, w') =>
      (forall name quantity,
          resources !! name = Some quantity ->
          freeOf "_"%char name = true
          /\ exists tagName tagValue,
               tags !! tagName = Some (Some tagValue)
               /\ resourceNamed tagName = Some name
               /\ ParseQuantity tagValue = inl quantity)
      /\ (forall tagName tagValue name,
             tags !! tagName = Some tagValue ->
             resourceNamed tagName = Some name ->
             exists v,
               tagValue = Some v
               /\ (is_Some (resources !! name)
                   \/ exists err, ParseQuantity v = inr err))
  | Panicked =>
      exists tagName,
        tags !! tagName = Some None /\ is_Some (resourceNamed tagName)
  end.
Proof.
  unfold extractAllocatableResourcesFromScaleSet.
  match goal with
  | |- context [rangeMap tags ?body ∅ w] =>
      pose proof (putLoop tags body resourceNamed
                    (fun tagValue : option string =>
                       match tagValue with
                       | Some v =>
                           match ParseQuantity v with
                           | inl quantity => Returned (Some quantity)
                           | inr _ => Returned None
                           end
                       | None => Panicked
                       end)
                    w) as Hloop
  end.
  lapply Hloop; clear Hloop.
  2:{ intros s k x. unfold resourceNamed. cbv zeta.
      destruct (_ || _); [done|]. destruct x as [v|]; [|done].
      cbn [bindO deref]. by destruct (ParseQuantity v). }
  intros Hloop.
  destruct (rangeMap tags _ ∅ w) as [[resources w']|].
  - destruct Hloop as (_ & Hsound & Hcomplete & Hnil). split.
    + intros name quantity Hname.
      destruct (Hsound name quantity Hname)
        as (k & [v|] & Hk & Hnamed & Hval); [|done].
      split.
      * unfold resourceNamed in Hnamed. cbv zeta in Hnamed.
        destruct (_ || _); [done|]. inversion Hnamed.
        apply ReplaceAll_freeOf; [|done].
        by apply ReplaceAll_byte_freeOf.
      * exists k, v. repeat split; [done..|].
        by destruct (ParseQuantity v); inversion Hval.
    + intros tagName [v|] name Htag Hnamed.
      * exists v. split; [done|].
        destruct (ParseQuantity v) as [q|err] eqn:Hparse; [|by eauto].
        left. eapply (Hcomplete tagName (Some v) name q); [done..|].
        by rewrite Hparse.
      * by destruct (Hnil tagName None Htag (mk_is_Some _ _ Hnamed)).
  - destruct Hloop as (k & [v|] & Hk & Hnamed & Hval).
    + by destruct (ParseQuantity v).
    + by exists k.
Qed.

(** X10. [extractLabelsFromTags] panics exactly when a tag whose name stands
    for a label has a nil value. When it returns, every label it gives is
    the one a tag name stands for, with the value of that tag, and every
    label a tag name stands for is there. *)
Theorem extractLabelsFromTags_labels_of_tags tags w :
  match extractLabelsFromTags tags w with
  | Returned (labels, w') =>
      (forall label v,
          labels !! label = Some v ->
          exists tagName,
            tags !! tagName = Some (Some v)
            /\ labelNamed tagName = Some label)
      /\ (forall tagName tagValue label,
             tags !! tagName = Some tagValue ->
             labelNamed tagName = Some label ->
             is_Some tagValue /\ is_Some (labels !! label))
  | Panicked =>
      exists tagName,
        tags !! tagName = Some None /\ is_Some (labelNamed tagName)
  end.
Proof. apply extractLabelsFromTags_cases. Qed.

(** X11. [extractTaintsFromTags] panics exactly when some tag has a nil
    value, whatever its name. When it returns, the taints it gives are
    those of the tags whose value matches the taint pattern and whose name
    holds [nodeTaintTagName]; the test of the number of pieces of the value
    never fails. *)
Theorem extractTaintsFromTags_taints_of_tags tags w :
  match extractTaintsFromTags tags w with
  | Returned (taints, w') =>
      tagValuesPresent tags
      /\ forall taint,
           taint ∈ taints
           <-> exists tagName tagValue,
                 tags !! tagName = Some (Some tagValue)
                 /\ taintOfTag tagName tagValue = Some taint
  | Panicked => exists tagName, tags !! tagName = Some None
  end.
Proof. apply extractTaintsFromTags_cases. Qed.

(** X12. [extractAllocatableResourcesFromScaleSet] panics exactly when a tag
    whose name stands for a resource has a nil value. When it returns,
    every resource it gives is the one a tag name stands for, with the
    quantity parsed from the value of that tag, and its name has no
    underscore; a tag whose value does not parse is passed over, every
    other tag that stands for a resource has its resource there. *)
Theorem extractAllocatableResourcesFromScaleSet_resources_of_tags tags w :
  match extractAllocatableResourcesFromScaleSet tags w with
  | Returned (resources, w') =>
      (forall name quantity,
          resources !! name = Some quantity ->
          freeOf "_"%char name = true
          /\ exists tagName tagValue,
               tags !! tagName = Some (Some tagValue)
               /\ resourceNamed tagName = Some name
               /\ ParseQuantity tagValue = inl quantity)
      /\ (forall tagName tagValue name,
             tags !! tagName = Some tagValue ->
             resourceNamed tagName = Some name ->
             exists v,
               tagValue = Some v
               /\ (is_Some (resources !! name)
                   \/ exists err, ParseQuantity v = inr err))
  | Panicked =>
      exists tagName,
        tags !! tagName = Some None /\ is_Some (resourceNamed tagName)
  end.
Proof. apply extractAllocatableResourcesFromScaleSet_cases. Qed.

End WithExternals.

(** *** The autoscaling options *)

Lemma optionNamed_front nodeOptionsTagName name :
  nodeOptionsTagName <> "" -> name <> "" ->
  Contains name nodeOptionsTagName = false ->
  optionNamed nodeOptionsTagName (nodeOptionsTagName +:+ name) = Some name.
Proof.
  intros Hsep Hname Hfree. unfold optionNamed.
  rewrite HasPrefix_app. cbn [negb].
  destruct nodeOptionsTagName as [|c sep]; [done|].
  unfold Split. rewrite split_go_front, split_go_whole by done.
  cbn [length Nat.ltb Nat.leb index nth orb].
  destruct (String.eqb name "") eqn:Hempty; [|done].
  by apply String.eqb_eq in Hempty.
Qed.

Section Options.

Variable nodeOptionsTagName : string.
Context `{Unicode.Lowering}.

(** X13. [extractAutoscalingOptionsFromScaleSetTags] never panics: a tag with
    a nil value is passed over. Every option it gives is the one a tag name
    stands for, with what [strings.ToLower] makes of the value of that tag,
    and every option that a tag with a value stands for is there; so is the
    option [name] for a tag named [nodeOptionsTagName] followed by
    [name]. *)
Theorem extractAutoscalingOptionsFromScaleSetTags_options_of_tags
    (tags : gmap string (option string)) (w : World V1.Quantity) :
  exists options w',
    AzureOptions.extractAutoscalingOptionsFromScaleSetTags nodeOptionsTagName
      tags w
    = Returned (options, w')
    /\ (forall name v,
           options !! name = Some v ->
           exists tagName tagValue,
             tags !! tagName = Some (Some tagValue)
             /\ optionNamed nodeOptionsTagName tagName = Some name
             /\ v = Unicode.ToLower tagValue)
    /\ (forall tagName tagValue name,
           tags !! tagName = Some (Some tagValue) ->
           optionNamed nodeOptionsTagName tagName = Some name ->
           is_Some (options !! name))
    /\ (forall name tagValue,
           nodeOptionsTagName <> "" -> name <> "" ->
           Contains name nodeOptionsTagName = false ->
           tags !! (nodeOptionsTagName +:+ name) = Some (Some tagValue) ->
           is_Some (options !! name)).
Proof.
  unfold AzureOptions.extractAutoscalingOptionsFromScaleSetTags.
  match goal with
  | |- context [rangeMap tags ?body ∅ w] =>
      pose proof (putLoop tags body (optionNamed nodeOptionsTagName)
                    (fun tagValue : option string =>
                       Returned (Unicode.ToLower <$> tagValue))
                    w) as Hloop
  end.
  lapply Hloop; clear Hloop.
  2:{ intros s k x. unfold optionNamed. cbv zeta.
      destruct (negb _); [done|].
      destruct ((_ <? _)%nat || _); [done|]. cbn [orb].
      by destruct x. }
  intros Hloop.
  destruct (rangeMap tags _ ∅ w) as [[options w']|].
  2:{ by destruct Hloop as (k & x & _ & _ & Hval). }
  destruct Hloop as (_ & Hsound & Hcomplete & _).
  exists options, w'. split; [done|].
  assert (Hthere : forall tagName tagValue name,
             tags !! tagName = Some (Some tagValue) ->
             optionNamed nodeOptionsTagName tagName = Some name ->
             is_Some (options !! name)).
  { intros tagName tagValue name Htag Hnamed.
    by eapply (Hcomplete tagName (Some tagValue)). }
  split; [|split; [exact Hthere|]].
  - intros name v Hname.
    destruct (Hsound name v Hname) as (k & [x|] & Hk & Hnamed & Hval);
      [|done].
    inversion Hval. by exists k, x.
  - intros name tagValue Hsep Hname Hfree Htag.
    eapply Hthere; [exact Htag|]. by apply optionNamed_front.
Qed.

End Options.

End AzureTagFacts.

(** ** Reading an autoscaling option *)

Module AzureOptionsFacts.

Import Azure AzureOptions.

Section Options.

Variable float64 : Type.
Variable zeroFloat64 : float64.
Variable ParseFloat : string -> float64 + error.
Variable ParseDuration : string -> Z + error.
Context `{Unicode.Lowering}.

(** X14. with [strings.ToLower] changing nothing in a string it has lowered,
    [getFloat64Option] finds an option under the lower-case form of the
    name asked for: the answer is the parsed value and [true] exactly when
    there is an entry under that key and it parses, the zero value and
    [false] otherwise; asking for the lower-case form of the name gives the
    same answer, and an entry under a key that lowering changes is never
    read. *)
Theorem getFloat64Option_by_lower_case_name
    (options : gmap string string) (vmssName name : string) :
  Unicode.idempotent ->
  (forall option,
      getFloat64Option float64 zeroFloat64 ParseFloat options vmssName name
      = (option, true)
      <-> exists raw,
            options !! Unicode.ToLower name = Some raw
            /\ ParseFloat raw = inl option)
  /\ (snd (getFloat64Option float64 zeroFloat64 ParseFloat options vmssName
             name) = false ->
      getFloat64Option float64 zeroFloat64 ParseFloat options vmssName name
      = (zeroFloat64, false))
  /\ getFloat64Option float64 zeroFloat64 ParseFloat options vmssName
       (Unicode.ToLower name)
     = getFloat64Option float64 zeroFloat64 ParseFloat options vmssName name
  /\ (forall key raw,
         Unicode.ToLower key <> key ->
         getFloat64Option float64 zeroFloat64 ParseFloat
           (<[key := raw]> options) vmssName name
         = getFloat64Option float64 zeroFloat64 ParseFloat options vmssName
             name).
Proof.
  intros Hidem. unfold getFloat64Option. repeat split.
  - destruct (options !! Unicode.ToLower name) as [raw|]; [|by intros [=]].
    destruct (ParseFloat raw) as [v|e] eqn:Hparse; [|by intros [=]].
    intros [= <-]. by exists raw.
  - intros (raw & -> & ->). done.
  - destruct (options !! Unicode.ToLower name) as [raw|]; [|done].
    by destruct (ParseFloat raw).
  - by rewrite Hidem.
  - intros key raw Hkey. rewrite lookup_insert_ne; [done|]. intros ->.
    by rewrite Hidem in Hkey.
Qed.

(** X15. with [strings.ToLower] changing nothing in a string it has lowered,
    [getDurationOption] finds an option in the same way: under the
    lower-case form of the name asked for, with [true] exactly when the
    entry is there and parses as a duration; asking for the lower-case form
    of the name gives the same answer, and an entry under a key that
    lowering changes is never read. *)
Theorem getDurationOption_by_lower_case_name
    (options : gmap string string) (vmssName name : string) :
  Unicode.idempotent ->
  (forall option,
      getDurationOption ParseDuration options vmssName name = (option, true)
      <-> exists raw,
            options !! Unicode.ToLower name = Some raw
            /\ ParseDuration raw = inl option)
  /\ (snd (getDurationOption ParseDuration options vmssName name) = false ->
      getDurationOption ParseDuration options vmssName name = (0, false))
  /\ getDurationOption ParseDuration options vmssName (Unicode.ToLower name)
     = getDurationOption ParseDuration options vmssName name
  /\ (forall key raw,
         Unicode.ToLower key <> key ->
         getDurationOption ParseDuration (<[key := raw]> options) vmssName
           name
         = getDurationOption ParseDuration options vmssName name).
Proof.
  intros Hidem. unfold getDurationOption. repeat split.
  - destruct (options !! Unicode.ToLower name) as [raw|]; [|by intros [=]].
    destruct (ParseDuration raw) as [v|e] eqn:Hparse; [|by intros [=]].
    intros [= <-]. by exists raw.
  - intros (raw & -> & ->). done.
  - destruct (options !! Unicode.ToLower name) as [raw|]; [|done].
    by destruct (ParseDuration raw).
  - by rewrite Hidem.
  - intros key raw Hkey. rewrite lookup_insert_ne; [done|]. intros ->.
    by rewrite Hidem in Hkey.
Qed.

End Options.

Lemma getFloat64Option_by_lower_case_name_witness :
  @Unicode.idempotent Unicode.dotted
  /\ (forall option,
         getFloat64Option Z 0 OptionRuns.parseDigits (H := Unicode.dotted)
           OptionRuns.options "vmss" OptionRuns.dottedName
         = (option, true)
         <-> exists raw,
               OptionRuns.options
                 !! Unicode.ToLower (Lowering := Unicode.dotted)
                      OptionRuns.dottedName
               = Some raw
               /\ OptionRuns.parseDigits raw = inl option)
  /\ (snd (getFloat64Option Z 0 OptionRuns.parseDigits
             (H := Unicode.dotted) OptionRuns.options "vmss"
             OptionRuns.dottedName) = false ->
      getFloat64Option Z 0 OptionRuns.parseDigits (H := Unicode.dotted)
        OptionRuns.options "vmss" OptionRuns.dottedName
      = (0, false))
  /\ getFloat64Option Z 0 OptionRuns.parseDigits (H := Unicode.dotted)
       OptionRuns.options "vmss"
       (Unicode.ToLower (Lowering := Unicode.dotted)
          OptionRuns.dottedName)
     = getFloat64Option Z 0 OptionRuns.parseDigits (H := Unicode.dotted)
         OptionRuns.options "vmss" OptionRuns.dottedName
  /\ (forall key raw,
         Unicode.ToLower (Lowering := Unicode.dotted) key <> key ->
         getFloat64Option Z 0 OptionRuns.parseDigits (H := Unicode.dotted)
           (<[key := raw]> OptionRuns.options) "vmss"
           OptionRuns.dottedName
         = getFloat64Option Z 0 OptionRuns.parseDigits
             (H := Unicode.dotted) OptionRuns.options "vmss"
             OptionRuns.dottedName).
Proof.
  split; [exact lowerDotted_idempotent|].
  exact (getFloat64Option_by_lower_case_name Z 0 OptionRuns.parseDigits
           (H := Unicode.dotted) OptionRuns.options "vmss"
           OptionRuns.dottedName lowerDotted_idempotent).
Defined.

Lemma getDurationOption_by_lower_case_name_witness :
  @Unicode.idempotent Unicode.dotted
  /\ (forall option,
         getDurationOption OptionRuns.parseDigits (H := Unicode.dotted)
           OptionRuns.options "vmss" OptionRuns.dottedName
         = (option, true)
         <-> exists raw,
               OptionRuns.options
                 !! Unicode.ToLower (Lowering := Unicode.dotted)
                      OptionRuns.dottedName
               = Some raw
               /\ OptionRuns.parseDigits raw = inl option)
  /\ (snd (getDurationOption OptionRuns.parseDigits (H := Unicode.dotted)
             OptionRuns.options "vmss" OptionRuns.dottedName) = false ->
      getDurationOption OptionRuns.parseDigits (H := Unicode.dotted)
        OptionRuns.options "vmss" OptionRuns.dottedName
      = (0, false))
  /\ getDurationOption OptionRuns.parseDigits (H := Unicode.dotted)
       OptionRuns.options "vmss"
       (Unicode.ToLower (Lowering := Unicode.dotted)
          OptionRuns.dottedName)
     = getDurationOption OptionRuns.parseDigits (H := Unicode.dotted)
         OptionRuns.options "vmss" OptionRuns.dottedName
  /\ (forall key raw,
         Unicode.ToLower (Lowering := Unicode.dotted) key <> key ->
         getDurationOption OptionRuns.parseDigits (H := Unicode.dotted)
           (<[key := raw]> OptionRuns.options) "vmss"
           OptionRuns.dottedName
         = getDurationOption OptionRuns.parseDigits (H := Unicode.dotted)
             OptionRuns.options "vmss" OptionRuns.dottedName).
Proof.
  split; [exact lowerDotted_idempotent|].
  exact (getDurationOption_by_lower_case_name OptionRuns.parseDigits
           (H := Unicode.dotted) OptionRuns.options "vmss"
           OptionRuns.dottedName lowerDotted_idempotent).
Defined.

(** The name spelled with [U+0130] finds the option under [limit]. *)
Example getFloat64Option_dotted :
  getFloat64Option Z 0 OptionRuns.parseDigits (H := Unicode.dotted)
    OptionRuns.options "vmss" OptionRuns.dottedName
  = (10, true).
Proof. reflexivity. Qed.

End AzureOptionsFacts.

(** ** The template read from an agent pool *)

Module AzureVMPoolFacts.

Import Azure AzureVMPool AzureTaintStrings.

Implicit Types w : World V1.Quantity.

(** What [buildNodeTemplateFromVMPool] returns for an agent pool with
    properties. *)
Lemma buildNodeTemplateFromVMPool_run vmsPool properties location skuName
    labelsFromSpec taintsFromSpec w :
  ContainerService.Properties vmsPool = Some properties ->
  buildNodeTemplateFromVMPool vmsPool location skuName labelsFromSpec
    taintsFromSpec w
  = Returned
      (({| SkuName := skuName;
           InstanceOS :=
             match ContainerService.OSType properties with
             | Some osType => ToLower osType
             | None => ""
             end;
           Location := location;
           Zones := omap id (ContainerService.AvailabilityZones properties);
           VMPoolNodeTemplate' :=
             Some {| AgentPoolName :=
                       toString (ContainerService.Name vmsPool);
                     Taints :=
                       extractTaintsFromSpecString
                         (Join
                            (omap (fun taint =>
                                     if negb (String.eqb (toString taint) "")
                                     then Some (toString taint) else None)
                                  (ContainerService.NodeTaints properties)
                             ++ (if negb (String.eqb taintsFromSpec "")
                                 then [taintsFromSpec] else []))
                            ",");
                     Labels :=
                       (Some <$> labelsFromSpec)
                       ∪ ContainerService.NodeLabels properties;
                     OSDiskType :=
                       ContainerService.OSDiskType properties |};
           VMSSNodeTemplate' := None |},
        None),
       mkWorld (rand w) (nextTurn (order w)) (heap w)).
Proof.
  intros Hproperties. unfold buildNodeTemplateFromVMPool.
  rewrite Hproperties. unfold bind.
  rewrite (rangeMap_insert Some) by (by intros s k x).
  unfold ret. do 3 f_equal.
  rewrite (foldl_append_omap id) by (by intros acc [z|]).
  rewrite (foldl_append_omap
             (fun taint =>
                if negb (String.eqb (toString taint) "")
                then Some (toString taint) else None))
    by (intros acc x; by destruct (negb _)).
  cbn [app]. do 4 f_equal.
  destruct (negb (String.eqb taintsFromSpec "")); [done|].
  by rewrite app_nil_r.
Qed.

(** X16. [buildNodeTemplateFromVMPool] never panics. It returns an error, and
    the zero template, exactly when the agent pool has nil properties.
    Otherwise the template has the SKU name and location given, no VMSS
    part, the zones of the pool that are not nil, the OS type in lower
    case, and as labels those of the pool with the labels of the spec
    written over them, whatever the order in which these are visited. *)
Theorem buildNodeTemplateFromVMPool_template vmsPool location skuName
    labelsFromSpec taintsFromSpec w :
  exists template err w',
    buildNodeTemplateFromVMPool vmsPool location skuName labelsFromSpec
      taintsFromSpec w
    = Returned ((template, err), w')
    /\ heap w' = heap w
    /\ match ContainerService.Properties vmsPool with
       | None =>
           template = zeroNodeTemplate
           /\ err = Some (Errorf "vmsPool %s has nil properties"
                                 [toString (ContainerService.Name vmsPool)])
       | Some properties =>
           err = None
           /\ SkuName template = skuName
           /\ Location template = location
           /\ VMSSNodeTemplate' template = None
           /\ Zones template
              = omap id (ContainerService.AvailabilityZones properties)
           /\ InstanceOS template
              = match ContainerService.OSType properties with
                | Some osType => ToLower osType
                | None => ""
                end
           /\ exists vmPool,
                VMPoolNodeTemplate' template = Some vmPool
                /\ AgentPoolName vmPool
                   = toString (ContainerService.Name vmsPool)
                /\ forall k,
                     Labels vmPool !! k
                     = match labelsFromSpec !! k with
                       | Some v => Some (Some v)
                       | None => ContainerService.NodeLabels properties !! k
                       end
       end.
Proof.
  destruct (ContainerService.Properties vmsPool) as [properties|] eqn:Hp.
  - eexists _, _, _. split;
      [by apply buildNodeTemplateFromVMPool_run|].
    split; [done|]. repeat split. eexists. repeat split.
    intros k. cbn [Labels]. rewrite lookup_union, lookup_fmap.
    destruct (labelsFromSpec !! k); simpl; [by rewrite union_Some_l|].
    by rewrite (left_id_L None union).
  - unfold buildNodeTemplateFromVMPool. rewrite Hp. by eexists _, _, _.
Qed.

(** X17. the taints of the template that [buildNodeTemplateFromVMPool]
    returns are those of the segments, between commas, of the taints of the
    pool and of the taints string of the spec, as far as
    [constructTaintFromString] accepts them; none of them is there twice.
    Nil and empty taints of the pool give nothing. *)
Theorem buildNodeTemplateFromVMPool_taints vmsPool location skuName
    labelsFromSpec taintsFromSpec w :
  match buildNodeTemplateFromVMPool vmsPool location skuName labelsFromSpec
          taintsFromSpec w with
  | Returned ((template, None), _) =>
      match VMPoolNodeTemplate' template,
            ContainerService.Properties vmsPool with
      | Some vmPool, Some properties =>
          NoDup (Taints vmPool)
          /\ forall taint,
               taint ∈ Taints vmPool
               <-> exists taintStr split,
                     (taintStr = taintsFromSpec
                      \/ Some taintStr
                           ∈ ContainerService.NodeTaints properties)
                     /\ split ∈ Split taintStr ","
                     /\ constructTaintFromString split = (true, taint)
      | _, _ => False
      end
  | Returned ((_, Some _), _) => ContainerService.Properties vmsPool = None
  | Panicked => False
  end.
Proof.
  destruct (ContainerService.Properties vmsPool) as [properties|] eqn:Hp.
  2:{ unfold buildNodeTemplateFromVMPool. by rewrite Hp. }
  rewrite (buildNodeTemplateFromVMPool_run _ properties) by done.
  cbn [VMPoolNodeTemplate' Taints].
  split; [apply extractTaintsFromSpecString_NoDup|].
  intros taint. rewrite extractTaintsFromSpecString_joined.
  assert (Hempty : forall split,
             split ∈ Split "" "," ->
             constructTaintFromString split = (true, taint) -> False).
  { intros split Hsplit Hrun. apply list_elem_of_singleton in Hsplit.
    by subst split. }
  split.
  - intros (taintStr & split & Hin & Hsplit & Hrun).
    exists taintStr, split. split; [|done].
    apply elem_of_app in Hin as [Hin|Hin].
    + right. apply list_elem_of_omap in Hin as (t & Ht & Hsome).
      destruct (negb (String.eqb (toString t) "")); [|done].
      inversion Hsome; subst taintStr. destruct t as [t|]; [done|].
      by destruct (Hempty split).
    + left. destruct (negb (String.eqb taintsFromSpec ""));
        [|by apply elem_of_nil in Hin].
      by apply list_elem_of_singleton in Hin.
  - intros (taintStr & split & Hfrom & Hsplit & Hrun).
    exists taintStr, split. split; [|done].
    assert (Hne : negb (String.eqb taintStr "") = true).
    { destruct (String.eqb taintStr "") eqn:He; [|done].
      apply String.eqb_eq in He. subst taintStr.
      by destruct (Hempty split). }
    apply elem_of_app. destruct Hfrom as [->|Hin].
    + right. rewrite Hne. by apply list_elem_of_singleton.
    + left. apply list_elem_of_omap. exists (Some taintStr).
      split; [done|]. change (toString (Some taintStr)) with taintStr.
      by rewrite Hne.
Qed.

End AzureVMPoolFacts.

(** ** More about template nodes *)

Module AzureNodeParts.

Import Azure AzureNodeSpec AzureNodeFacts AzureTagSpec AzureBuildSpec.

Section Rules.

Context {V : Type}.
Implicit Types w : World V.

Lemma runs_ret {A} (a : A) w Q R : Q a w -> runs (ret a) w Q R.
Proof. done. Qed.

Lemma runs_bind {A B} (m : M V A) (k : A -> M V B) w Q R :
  runs m w (fun a w' => runs (k a) w' Q R) R -> runs (bind m k) w Q R.
Proof. unfold runs, bind. by destruct (m w) as [[a w']|]. Qed.

Lemma runs_mono {A} (m : M V A) w (Q Q' : A -> World V -> Prop) (R R' : Prop) :
  runs m w Q R -> (forall a w', Q a w' -> Q' a w') -> (R -> R') ->
  runs m w Q' R'.
Proof.
  unfold runs. destruct (m w) as [[a w']|]; intros Hm HQ HR; by auto.
Qed.

Lemma runs_twp {A} (m : M V A) w (Q : A -> World V -> Prop) R :
  twp m w Q -> runs m w Q R.
Proof. unfold twp, runs. by destruct (m w) as [[a w']|]. Qed.

Lemma runs_returned {A} (m : M V A) w Q R a w' :
  runs m w Q R -> m w = Returned (a, w') -> Q a w'.
Proof. unfold runs. intros Hm Hrun. by rewrite Hrun in Hm. Qed.

Lemma runs_panicked {A} (m : M V A) w (Q : A -> World V -> Prop) R :
  runs m w Q R -> m w = Panicked -> R.
Proof. unfold runs. intros Hm Hrun. by rewrite Hrun in Hm. Qed.

End Rules.

Section WithExternals.

Context `{Externals}.

Implicit Types w : World V1.Quantity.

Lemma buildGenericLabels_run template nodeName w :
  exists zone disk,
    buildGenericLabels template nodeName w
    = Returned (genericWith template nodeName zone disk,
                mkWorld (match Zones template with
                         | [] => rand w
                         | _ :: _ => advance (rand w)
                         end)
                        (order w) (heap w))
    /\ zoneLabels template zone disk.
Proof.
  unfold buildGenericLabels, zoneLabels.
  destruct (Zones template) as [|z zs] eqn:Hz.
  - exists "0", "". by destruct w.
  - set (n := Z.of_nat (length (z :: zs))).
    set (d := draws (rand w) (cursor (rand w)) mod n).
    assert (Hn : 0 < n) by (unfold n; simpl; lia).
    assert (Hd : 0 <= d < n) by (apply Z.mod_pos_bound; lia).
    set (fd := map (fun v => ToLower (Location template) +:+ "-" +:+ v)
                   (z :: zs)).
    assert (Hlen : length fd = length (z :: zs)) by apply length_map.
    destruct (fd !! Z.to_nat d) as [zone|] eqn:Hzone.
    2:{ apply lookup_ge_None in Hzone. unfold n in Hd. lia. }
    exists zone, zone. split.
    + change (0 <? length (z :: zs))%nat with true. cbv iota.
      unfold bind at 1 2. unfold Intn.
      replace (Z.of_nat (length fd)) with n by (unfold n; by rewrite Hlen).
      destruct (n <=? 0) eqn:Hle; [lia|]. fold d.
      rewrite Hzone. reflexivity.
    + split; [done|]. apply list_elem_of_lookup_2 in Hzone.
      apply list_elem_of_fmap in Hzone as (z' & -> & Hz').
      by exists z'.
Qed.


(** *** [processVMSSTemplate], step by step *)

Lemma runs_extractLabelsFromTags tags w :
  runs (extractLabelsFromTags tags) w
    (fun labels w' =>
       heap w' = heap w
       /\ extractLabelsFromTags tags w = Returned (labels, w')
       /\ forall tagName,
            tags !! tagName = Some None -> labelNamed tagName = None)
    (exists tagName,
        tags !! tagName = Some None /\ is_Some (labelNamed tagName)).
Proof.
  unfold runs.
  pose proof (AzureTagFacts.extractLabelsFromTags_cases tags w) as Hcases.
  destruct (extractLabelsFromTags tags w) as [[labels w']|] eqn:Hrun;
    [|done].
  split; [by eapply extractLabelsFromTags_heap|]. split; [done|].
  intros tagName Htag. destruct Hcases as [_ Hcomplete].
  destruct (labelNamed tagName) as [label|] eqn:Hname; [|done].
  by destruct (Hcomplete tagName None label Htag Hname) as [[? [=]] _].
Qed.

Lemma runs_extractAllocatableResourcesFromScaleSet tags w :
  runs (extractAllocatableResourcesFromScaleSet tags) w
    (fun resources w' =>
       heap w' = heap w
       /\ extractAllocatableResourcesFromScaleSet tags w
          = Returned (resources, w')
       /\ forall tagName,
            tags !! tagName = Some None -> resourceNamed tagName = None)
    (exists tagName,
        tags !! tagName = Some None /\ is_Some (resourceNamed tagName)).
Proof.
  unfold runs.
  pose proof (AzureTagFacts.extractAllocatableResourcesFromScaleSet_cases
                tags w) as Hcases.
  destruct (extractAllocatableResourcesFromScaleSet tags w)
    as [[resources w']|] eqn:Hrun; [|done].
  split; [by eapply extractAllocatableResourcesFromScaleSet_heap|].
  split; [done|].
  intros tagName Htag. destruct Hcases as [_ Hcomplete].
  destruct (resourceNamed tagName) as [name|] eqn:Hname; [|done].
  by destruct (Hcomplete tagName None name Htag Hname) as (v & [=] & _).
Qed.

Lemma runs_extractTaintsFromTags tags w :
  runs (extractTaintsFromTags tags) w
    (fun taints w' =>
       heap w' = heap w
       /\ extractTaintsFromTags tags w = Returned (taints, w')
       /\ tagValuesPresent tags)
    (exists tagName, tags !! tagName = Some None).
Proof.
  unfold runs.
  pose proof (AzureTagFacts.extractTaintsFromTags_cases tags w) as Hcases.
  destruct (extractTaintsFromTags tags w) as [[taints w']|] eqn:Hrun;
    [|done].
  split; [by eapply extractTaintsFromTags_heap|]. split; [done|].
  apply Hcases.
Qed.

Lemma forEach_assign_run w c m (l : list (string * V1.Quantity)) :
  holds w c m ->
  forEach (fun '(k, v) => mapAssign (Some c) k v) l w
  = Returned (tt, mkWorld (rand w) (order w)
                    (<[c := assignAll m l]> (heap w))).
Proof.
  revert w m. induction l as [|[k v] l IH]; intros w m Hm.
  - simpl. unfold ret. rewrite list_insert_id by exact Hm. by destruct w.
  - cbn [forEach]. unfold bind. rewrite (mapAssign_run w c m) by done.
    rewrite (IH _ (<[k := v]> m)) by (by eapply holds_update).
    cbn [rand order heap]. by rewrite list_insert_insert_eq.
Qed.

Lemma rangeMapM_assign_run w c m (resources : gmap string V1.Quantity) :
  holds w c m ->
  rangeMapM resources (fun '(k, v) => mapAssign (Some c) k v) w
  = Returned (tt, mkWorld (rand w) (nextTurn (order w))
                    (<[c := resources ∪ m]> (heap w))).
Proof.
  intros Hm. unfold rangeMapM.
  rewrite (forEach_assign_run _ c m) by exact Hm.
  cbn [rand order heap]. by rewrite assignAll_visit.
Qed.

Lemma processVMSSTemplate_runs template vmss nodeName node
    enableLabelPrediction w c m :
  VMSSNodeTemplate' template = Some vmss ->
  V1.Capacity (V1.Status node) = Some c -> holds w c m ->
  runs (processVMSSTemplate template nodeName node enableLabelPrediction) w
    (fun node' w' =>
       ~ tagsPanic vmss
       /\ exists zone disk labels resources taints,
            zoneLabels template zone disk
            /\ labelsOfSpec vmss labels
            /\ (exists w0 w0',
                   extractAllocatableResourcesFromScaleSet (Tags vmss) w0
                   = Returned (resources, w0'))
            /\ taintsOfSpec vmss taints
            /\ node' = vmssNode template vmss nodeName node
                         enableLabelPrediction zone disk labels taints
            /\ heap w'
               = <[c := resources ∪ withEphemeralStorage vmss m]> (heap w))
    (tagsPanic vmss).
Proof.
  intros Hvmss Hc Hm. unfold processVMSSTemplate.
  apply runs_bind. unfold runs at 1. rewrite Hvmss. cbn [lift deref].
  apply runs_bind. unfold runs at 1.
  rewrite (rangeMap_insert (default "")) by (by intros s k [v|]).
  set (w1 := mkWorld (rand w) (nextTurn (order w)) (heap w)).
  assert (Hm1 : holds w1 c m) by exact Hm.
  apply runs_bind. unfold runs at 1.
  destruct (buildGenericLabels_run template nodeName w1)
    as (zone & disk & Hgen & Hzone).
  rewrite Hgen. clear Hgen.
  set (w2 := mkWorld _ (order w1) (heap w1)).
  assert (Hm2 : holds w2 c m) by exact Hm.
  cbn [V1.Status V1.withLabels V1.Capacity V1.Meta V1.Labels]. rewrite Hc.
  apply runs_bind.
  apply (runs_mono _ _
           (fun labels w' =>
              heap w' = heap w2 /\ labelsOfSpec vmss labels
              /\ (size (InputLabels vmss) = 0%nat ->
                  forall tagName,
                    Tags vmss !! tagName = Some None ->
                    labelNamed tagName = None))
           _
           (size (InputLabels vmss) = 0%nat
            /\ exists tagName,
                 Tags vmss !! tagName = Some None
                 /\ is_Some (labelNamed tagName))).
  { unfold labelsOfSpec.
    destruct (0 <? size (InputLabels vmss))%nat eqn:Hsize.
    - apply Nat.ltb_lt in Hsize. apply runs_ret.
      split; [done|]. split; [done|]. intros Hzero. lia.
    - apply Nat.ltb_ge in Hsize.
      eapply runs_mono; [apply runs_extractLabelsFromTags| |].
      + intros labels w' (Hheap & Hrun & Hnil).
        split; [done|]. split; [by eauto|]. by intros _.
      + intros Hbad. split; [lia|done]. }
  2:{ intros (Hzero & tagName & Htag & Hname). exists tagName. by eauto. }
  intros labels w3 (Hw3 & Hlabels & Hnolabel).
  assert (Hm3 : holds w3 c m) by (by eapply holds_same_heap).
  apply runs_bind.
  apply (runs_mono _ _
           (fun _ w' =>
              heap w' = <[c := withEphemeralStorage vmss m]> (heap w))
           _ False).
  { unfold withEphemeralStorage.
    destruct (OSDisk vmss ≫= Compute.DiskSizeGB) as [d|].
    - unfold runs. rewrite (mapAssign_run w3 c m) by done.
      cbn [heap]. by rewrite Hw3.
    - apply runs_ret. rewrite Hw3. symmetry. by apply list_insert_id. }
  2:{ done. }
  intros [] w4 Hw4.
  assert (Hm4 : holds w4 c (withEphemeralStorage vmss m)).
  { unfold holds. rewrite Hw4. apply list_lookup_insert_eq.
    by eapply lookup_lt_Some. }
  apply runs_bind.
  eapply runs_mono; [apply runs_extractAllocatableResourcesFromScaleSet| |].
  2:{ intros (tagName & Htag & Hname). exists tagName. by eauto. }
  intros resources w5 (Hw5 & Hresources & Hnoresource).
  assert (Hm5 : holds w5 c (withEphemeralStorage vmss m))
    by (by eapply holds_same_heap).
  apply runs_bind. unfold runs at 1.
  rewrite (rangeMapM_assign_run w5 c (withEphemeralStorage vmss m)) by done.
  set (w6 := mkWorld (rand w5) (nextTurn (order w5)) _).
  assert (Hw6 :
    heap w6 = <[c := resources ∪ withEphemeralStorage vmss m]> (heap w)).
  { unfold w6. cbn [heap]. by rewrite Hw5, Hw4, list_insert_insert_eq. }
  clearbody w6.
  apply runs_bind.
  apply (runs_mono _ _
           (fun taints w' =>
              heap w' = heap w6 /\ taintsOfSpec vmss taints
              /\ (InputTaints vmss = "" -> tagValuesPresent (Tags vmss)))
           _
           (InputTaints vmss = ""
            /\ exists tagName, Tags vmss !! tagName = Some None)).
  { unfold taintsOfSpec.
    destruct (String.eqb (InputTaints vmss) "") eqn:Hempty; cbn [negb].
    - apply String.eqb_eq in Hempty.
      eapply runs_mono; [apply runs_extractTaintsFromTags| |].
      + intros taints w' (Hheap & Hrun & Hpresent).
        split; [done|]. split; [by eauto|]. by intros _.
      + intros Hbad. by split.
    - apply String.eqb_neq in Hempty. apply runs_ret.
      split; [done|]. split; [done|]. by intros Hnone. }
  2:{ intros (Hzero & tagName & Htag). exists tagName. by eauto. }
  intros taints w7 (Hw7 & Htaints & Hnotaint).
  apply runs_ret. split.
  - intros (tagName & Htag & [[Hzero Hname]|[Hname|Hempty]]).
    + rewrite (Hnolabel Hzero tagName Htag) in Hname. by destruct Hname.
    + rewrite (Hnoresource tagName Htag) in Hname. by destruct Hname.
    + by destruct (Hnotaint Hempty tagName None Htag).
  - exists zone, disk, labels, resources, taints.
    split; [done|]. split; [done|]. split; [by eauto|]. split; [done|].
    split; [reflexivity|]. by rewrite Hw7.
Qed.

(** The node of a run of [processVMSSTemplate] that returns, whatever the
    node passed in has for a capacity map. *)
Lemma wp_processVMSSTemplate_node template vmss nodeName node
    enableLabelPrediction w :
  VMSSNodeTemplate' template = Some vmss ->
  wp (processVMSSTemplate template nodeName node enableLabelPrediction) w
     (fun node' _ =>
        exists zone disk labels taints,
          zoneLabels template zone disk
          /\ labelsOfSpec vmss labels
          /\ taintsOfSpec vmss taints
          /\ node' = vmssNode template vmss nodeName node
                       enableLabelPrediction zone disk labels taints).
Proof.
  intros Hvmss. unfold processVMSSTemplate.
  apply wp_bind. unfold wp at 1. rewrite Hvmss. cbn [lift deref].
  apply wp_bind. unfold wp at 1.
  rewrite (rangeMap_insert (default "")) by (by intros s k [v|]).
  set (w1 := mkWorld (rand w) (nextTurn (order w)) (heap w)).
  apply wp_bind. unfold wp at 1.
  destruct (buildGenericLabels_run template nodeName w1)
    as (zone & disk & Hgen & Hzone).
  rewrite Hgen. clear Hgen.
  set (w2 := mkWorld _ (order w1) (heap w1)).
  cbn [V1.Status V1.withLabels V1.Capacity V1.Meta V1.Labels].
  apply wp_bind.
  apply (wp_mono _ _ (fun labels _ => labelsOfSpec vmss labels)).
  { unfold labelsOfSpec.
    destruct (0 <? size (InputLabels vmss))%nat; [by apply wp_ret|].
    apply wp_run. by eauto. }
  intros labels w3 Hlabels.
  apply wp_bind, wp_any. intros [] w4.
  apply wp_bind, wp_any. intros resources w5.
  apply wp_bind, wp_any. intros [] w6.
  apply wp_bind.
  apply (wp_mono _ _ (fun taints _ => taintsOfSpec vmss taints)).
  { unfold taintsOfSpec.
    destruct (negb (String.eqb (InputTaints vmss) "")); [by apply wp_ret|].
    apply wp_run. by eauto. }
  intros taints w7 Htaints. apply wp_ret.
  by exists zone, disk, labels, taints.
Qed.

End WithExternals.

End AzureNodeParts.

Module AzureBuildFacts.

Import Azure AzureNodeSpec AzureNodeFacts AzureTagSpec AzureBuildSpec
       AzureNodeParts.

Section WithExternals.

Context `{Externals}.

Implicit Types w : World V1.Quantity.

(** *** [processVMPoolTemplate] *)

Lemma processVMPoolTemplate_run template nodeName node w :
  match VMPoolNodeTemplate' template with
  | Some vmPool =>
      exists zone disk,
        processVMPoolTemplate template nodeName node w
        = Returned (vmPoolNode template vmPool nodeName node zone disk,
                    mkWorld (match Zones template with
                             | [] => rand w
                             | _ :: _ => advance (rand w)
                             end)
                            (nextTurn (order w)) (heap w))
        /\ zoneLabels template zone disk
  | None => processVMPoolTemplate template nodeName node w = Panicked
  end.
Proof.
  destruct (buildGenericLabels_run template nodeName w)
    as (zone & disk & Hgen & Hzone).
  destruct (VMPoolNodeTemplate' template) as [vmPool|] eqn:HvmPool.
  - exists zone, disk. split; [|done].
    unfold processVMPoolTemplate, bind. rewrite Hgen, HvmPool.
    cbn [lift deref].
    rewrite (rangeMap_insert toString) by (by intros s k x).
    reflexivity.
  - unfold processVMPoolTemplate, bind. by rewrite Hgen, HvmPool.
Qed.

(** *** [buildNodeFromTemplate] *)

Lemma mapAssign_last {V} r o (h : list (gmap string V)) m k v :
  mapAssign (Some (length h)) k v (mkWorld r o (h ++ [m]))
  = Returned (tt, mkWorld r o (h ++ [<[k := v]> m])).
Proof.
  unfold mapAssign. cbn [heap rand order].
  rewrite lookup_app_r by lia. rewrite Nat.sub_diag. cbn [lookup].
  simpl. do 3 f_equal.
  rewrite insert_app_r_alt by lia. by rewrite Nat.sub_diag.
Qed.

(** Either the manager is missing where it is needed, or an instance type
    is found, or none is. *)
Lemma resolution template (manager : option AzureManager)
    (enableDynamicInstanceList : bool) :
  (enableDynamicInstanceList = true /\ manager = None)
  \/ (exists instanceType,
         resolvesTo template manager enableDynamicInstanceList instanceType)
  \/ (exists err, unresolved template manager enableDynamicInstanceList err).
Proof.
  destruct enableDynamicInstanceList.
  - destruct manager as [m|]; [|by left]. right.
    destruct (GetInstanceTypeDynamically template (azureCache m))
      as [it|e] eqn:Hd.
    + left. exists it. left. split; [done|]. by exists m.
    + destruct (GetInstanceTypeStatically template) as [it|e'] eqn:Hs.
      * left. exists it. right. split; [|done]. right. by exists m, e.
      * right. exists e'. split; [|done]. right. by exists m, e.
  - right. destruct (GetInstanceTypeStatically template) as [it|e] eqn:Hs.
    + left. exists it. right. split; [by left|done].
    + right. exists e. split; [by left|done].
Qed.

Lemma buildNodeFromTemplate_nil_manager nodeGroupName template
    enableLabelPrediction w :
  buildNodeFromTemplate nodeGroupName template None true
    enableLabelPrediction w
  = Panicked.
Proof. reflexivity. Qed.

Lemma buildNodeFromTemplate_unresolved nodeGroupName template manager
    enableDynamicInstanceList enableLabelPrediction w err :
  unresolved template manager enableDynamicInstanceList err ->
  buildNodeFromTemplate nodeGroupName template manager
    enableDynamicInstanceList enableLabelPrediction w
  = Returned ((None, Some err),
              mkWorld (advance (rand w)) (order w) (heap w ++ [∅])).
Proof.
  intros [Hdyn Hstatic]. unfold buildNodeFromTemplate.
  unfold bind at 1. cbn [Int63]. unfold bind at 1. cbn [newMap].
  unfold bind at 1.
  destruct Hdyn as [->|(m & e & -> & Hd)].
  - unfold ret at 1. by rewrite Hstatic.
  - destruct enableDynamicInstanceList.
    + unfold bind at 1. cbn [lift deref]. unfold ret at 1.
      by rewrite Hd, Hstatic.
    + unfold ret at 1. by rewrite Hstatic.
Qed.

(** With an instance type, [buildNodeFromTemplate] writes its capacity into
    a new map and goes on with the part of the template that is there. *)
Lemma buildNodeFromTemplate_resolved nodeGroupName template manager
    enableDynamicInstanceList enableLabelPrediction w instanceType :
  resolvesTo template manager enableDynamicInstanceList instanceType ->
  buildNodeFromTemplate nodeGroupName template manager
    enableDynamicInstanceList enableLabelPrediction w
  = match VMSSNodeTemplate' template, VMPoolNodeTemplate' template with
    | Some _, _ =>
        bind (processVMSSTemplate template (nodeNamed nodeGroupName w)
                (freshNode (nodeNamed nodeGroupName w) (length (heap w)))
                enableLabelPrediction)
             (fun node =>
                ret (Some (V1.withConditions node BuildReadyConditions), None))
             (readyWorld template instanceType w)
    | None, Some _ =>
        bind (processVMPoolTemplate template (nodeNamed nodeGroupName w)
                (freshNode (nodeNamed nodeGroupName w) (length (heap w))))
             (fun node =>
                ret (Some (V1.withConditions node BuildReadyConditions), None))
             (readyWorld template instanceType w)
    | None, None =>
        Returned
          ((None,
            Some (Errorf
              "invalid node template: missing both VMSS and VMPool templates"
              [])),
           readyWorld template instanceType w)
    end.
Proof.
  intros Hresolves. unfold buildNodeFromTemplate.
  unfold bind at 1. cbn [Int63]. unfold bind at 1. cbn [newMap].
  fold (nodeNamed nodeGroupName w).
  set (w0 := mkWorld (rand (mkWorld (advance (rand w)) (order w) (heap w)))
                     _ _).
  assert (Hstep :
    forall A (k : option (InstanceType + error) ->
                  M V1.Quantity A),
      bind (if enableDynamicInstanceList
            then bind (lift (deref manager))
                      (fun m => ret (Some (GetInstanceTypeDynamically
                                             template (azureCache m))))
            else ret None) k w0
      = k (if enableDynamicInstanceList
           then match manager with
                | Some m => Some (GetInstanceTypeDynamically template
                                    (azureCache m))
                | None => None
                end
           else None) w0).
  { intros A k.
    destruct Hresolves as [(-> & m & -> & _)|([->|(m & e & -> & _)] & _)];
      try done.
    by destruct enableDynamicInstanceList. }
  rewrite Hstep. clear Hstep.
  assert (Hit :
    match
      (if enableDynamicInstanceList
       then match manager with
            | Some m => Some (GetInstanceTypeDynamically template
                                (azureCache m))
            | None => None
            end
       else None)
    with
    | Some (inl instanceTypeDynamic) => inl instanceTypeDynamic
    | _ => GetInstanceTypeStatically template
    end = inl instanceType).
  { destruct Hresolves
      as [(-> & m & -> & Hd)|([->|(m & e & -> & Hd)] & Hs)].
    - by rewrite Hd.
    - done.
    - destruct enableDynamicInstanceList; [by rewrite Hd|done]. }
  rewrite Hit. clear Hit.
  cbn [V1.Status V1.Capacity]. subst w0. cbn [rand order heap].
  unfold bind at 1. rewrite mapAssign_last.
  unfold bind at 1. rewrite mapAssign_last.
  unfold bind at 1.
  assert (Hgpu :
    (if isNPSeries (SkuName template)
     then mapAssign (Some (length (heap w))) xilinxFpgaResourceName
            (V1.NewQuantity (GPU instanceType) V1.DecimalSI)
     else mapAssign (Some (length (heap w))) ResourceNvidiaGPU
            (V1.NewQuantity (GPU instanceType) V1.DecimalSI))
    = mapAssign (Some (length (heap w)))
        (if isNPSeries (SkuName template) then xilinxFpgaResourceName
         else ResourceNvidiaGPU)
        (V1.NewQuantity (GPU instanceType) V1.DecimalSI))
    by (by destruct (isNPSeries (SkuName template))).
  rewrite Hgpu, mapAssign_last. clear Hgpu.
  unfold bind at 1. rewrite mapAssign_last.
  fold (baseCapacity template instanceType).
  fold (readyWorld template instanceType w).
  destruct (VMSSNodeTemplate' template); [reflexivity|].
  destruct (VMPoolNodeTemplate' template); reflexivity.
Qed.

Lemma holds_readyWorld template instanceType w :
  holds (readyWorld template instanceType w) (length (heap w))
        (baseCapacity template instanceType).
Proof.
  unfold holds, readyWorld. cbn [heap].
  rewrite lookup_app_r by lia. by rewrite Nat.sub_diag.
Qed.

Lemma resolvesTo_manager template manager enableDynamicInstanceList
    instanceType :
  resolvesTo template manager enableDynamicInstanceList instanceType ->
  ~ (enableDynamicInstanceList = true /\ manager = None).
Proof.
  intros [(_ & m & -> & _)|([->|(m & e & -> & _)] & _)] [Hd Hm]; done.
Qed.

Lemma unresolved_manager template manager enableDynamicInstanceList err :
  unresolved template manager enableDynamicInstanceList err ->
  ~ (enableDynamicInstanceList = true /\ manager = None).
Proof. intros [[->|(m & e & -> & _)] _] [Hd Hm]; done. Qed.

Lemma unresolved_not_resolved template manager enableDynamicInstanceList
    instanceType err :
  resolvesTo template manager enableDynamicInstanceList instanceType ->
  unresolved template manager enableDynamicInstanceList err -> False.
Proof.
  intros [(Hd & m & Hm & Hdyn)|(_ & Hs)] (Hcase & Hs'); [|congruence].
  destruct Hcase as [Hd'|(m' & e' & Hm' & Hdyn')]; congruence.
Qed.

(** X19. [buildNodeFromTemplate] panics in two cases only: the dynamic
    instance list is enabled and the manager is nil; or an instance type is
    found, the template has a VMSS part, and some tag of the scale set has
    a nil value that one of the loops of [processVMSSTemplate] over the
    tags dereferences. In every other case it returns. *)
Theorem buildNodeFromTemplate_panics_iff nodeGroupName template manager
    enableDynamicInstanceList enableLabelPrediction w :
  buildNodeFromTemplate nodeGroupName template manager
    enableDynamicInstanceList enableLabelPrediction w
  = Panicked
  <-> (enableDynamicInstanceList = true /\ manager = None)
      \/ ((exists instanceType,
              resolvesTo template manager enableDynamicInstanceList
                         instanceType)
          /\ exists vmss,
               VMSSNodeTemplate' template = Some vmss /\ tagsPanic vmss).
Proof.
  destruct (resolution template manager enableDynamicInstanceList)
    as [[-> ->]|[[it Hit]|[err Herr]]].
  - rewrite buildNodeFromTemplate_nil_manager. split; [by left|done].
  - rewrite (buildNodeFromTemplate_resolved _ _ _ _ _ _ it) by done.
    pose proof (resolvesTo_manager _ _ _ _ Hit) as Hmanager.
    destruct (VMSSNodeTemplate' template) as [vmss|] eqn:Hvmss.
    + pose proof (processVMSSTemplate_runs template vmss
                    (nodeNamed nodeGroupName w)
                    (freshNode (nodeNamed nodeGroupName w) (length (heap w)))
                    enableLabelPrediction (readyWorld template it w)
                    (length (heap w)) (baseCapacity template it)
                    Hvmss eq_refl (holds_readyWorld template it w)) as Hruns.
      unfold runs in Hruns. unfold bind.
      destruct (processVMSSTemplate template _ _ _ _) as [[node' w']|].
      * destruct Hruns as [Hnot _]. split; [done|].
        intros [Hnil|[_ (vmss' & [= <-] & Hpanic)]]; done.
      * split; [|done]. intros _. right. split; [by exists it|].
        by exists vmss.
    + assert (Hreturns :
        forall o : outcome ((option V1.Node * option error)
                            * World V1.Quantity),
          (exists result w', o = Returned (result, w')) ->
          o = Panicked
          <-> (enableDynamicInstanceList = true /\ manager = None)
              \/ ((exists instanceType,
                      resolvesTo template manager enableDynamicInstanceList
                                 instanceType)
                  /\ exists vmss, None = Some vmss /\ tagsPanic vmss)).
      { intros o (result & w' & ->). split; [done|].
        intros [Hnil|[_ (vmss & [=] & _)]]. done. }
      apply Hreturns.
      pose proof (processVMPoolTemplate_run template
                    (nodeNamed nodeGroupName w)
                    (freshNode (nodeNamed nodeGroupName w) (length (heap w)))
                    (readyWorld template it w)) as Hpool.
      destruct (VMPoolNodeTemplate' template) as [vmPool|]; [|by eauto].
      destruct Hpool as (zone & disk & Hrun & _). unfold bind.
      rewrite Hrun. by eauto.
  - rewrite (buildNodeFromTemplate_unresolved _ _ _ _ _ _ err) by done.
    split; [done|].
    intros [Hnil|[[it Hit] _]].
    + by destruct (unresolved_manager _ _ _ _ Herr).
    + by destruct (unresolved_not_resolved _ _ _ _ _ Hit Herr).
Qed.

(** What [buildNodeFromTemplate] returns, and when it panics. *)
Lemma buildNodeFromTemplate_runs nodeGroupName template manager
    enableDynamicInstanceList enableLabelPrediction w :
  runs (buildNodeFromTemplate nodeGroupName template manager
          enableDynamicInstanceList enableLabelPrediction) w
    (fun result w' =>
       match result with
       | (Some node, None) =>
           exists instanceType,
             resolvesTo template manager enableDynamicInstanceList
                        instanceType
             /\ match VMSSNodeTemplate' template,
                      VMPoolNodeTemplate' template with
                | Some vmss, _ =>
                    ~ tagsPanic vmss
                    /\ exists zone disk labels resources taints,
                         zoneLabels template zone disk
                         /\ labelsOfSpec vmss labels
                         /\ resourcesOfTags vmss resources
                         /\ taintsOfSpec vmss taints
                         /\ node
                            = V1.withConditions
                                (vmssNode template vmss
                                   (nodeNamed nodeGroupName w)
                                   (freshNode (nodeNamed nodeGroupName w)
                                              (length (heap w)))
                                   enableLabelPrediction zone disk labels
                                   taints)
                                BuildReadyConditions
                         /\ heap w'
                            = heap w
                              ++ [resources
                                  ∪ withEphemeralStorage vmss
                                      (baseCapacity template instanceType)]
                | None, Some vmPool =>
                    exists zone disk,
                      zoneLabels template zone disk
                      /\ node
                         = V1.withConditions
                             (vmPoolNode template vmPool
                                (nodeNamed nodeGroupName w)
                                (freshNode (nodeNamed nodeGroupName w)
                                           (length (heap w)))
                                zone disk)
                             BuildReadyConditions
                      /\ heap w'
                         = heap w ++ [baseCapacity template instanceType]
                | None, None => False
                end
       | (None, Some err) =>
           (unresolved template manager enableDynamicInstanceList err
            /\ heap w' = heap w ++ [∅])
           \/ (exists instanceType,
                  resolvesTo template manager enableDynamicInstanceList
                             instanceType
                  /\ heap w' = heap w ++ [baseCapacity template instanceType])
              /\ VMSSNodeTemplate' template = None
              /\ VMPoolNodeTemplate' template = None
              /\ err = Errorf
                   "invalid node template: missing both VMSS and VMPool templates"
                   []
       | _ => False
       end)
    ((enableDynamicInstanceList = true /\ manager = None)
     \/ ((exists instanceType,
             resolvesTo template manager enableDynamicInstanceList
                        instanceType)
         /\ exists vmss,
              VMSSNodeTemplate' template = Some vmss /\ tagsPanic vmss)).
Proof.
  unfold runs.
  destruct (resolution template manager enableDynamicInstanceList)
    as [[-> ->]|[[it Hit]|[err Herr]]].
  - rewrite buildNodeFromTemplate_nil_manager. by left.
  - rewrite (buildNodeFromTemplate_resolved _ _ _ _ _ _ it) by done.
    destruct (VMSSNodeTemplate' template) as [vmss|] eqn:Hvmss.
    + pose proof (processVMSSTemplate_runs template vmss
                    (nodeNamed nodeGroupName w)
                    (freshNode (nodeNamed nodeGroupName w) (length (heap w)))
                    enableLabelPrediction (readyWorld template it w)
                    (length (heap w)) (baseCapacity template it)
                    Hvmss eq_refl (holds_readyWorld template it w)) as Hruns.
      unfold runs in Hruns. unfold bind.
      destruct (processVMSSTemplate template _ _ _ _) as [[node' w']|].
      * destruct Hruns
          as (Hnot & zone & disk & labels & resources & taints & Hzone
              & Hlabels & Hresources & Htaints & -> & Hheap).
        exists it. split; [done|]. split; [done|].
        exists zone, disk, labels, resources, taints.
        repeat (split; [done|]). rewrite Hheap. unfold readyWorld.
        cbn [heap]. rewrite insert_app_r_alt by lia.
        by rewrite Nat.sub_diag.
      * right. split; [by exists it|]. by exists vmss.
    + pose proof (processVMPoolTemplate_run template
                    (nodeNamed nodeGroupName w)
                    (freshNode (nodeNamed nodeGroupName w) (length (heap w)))
                    (readyWorld template it w)) as Hpool.
      destruct (VMPoolNodeTemplate' template) as [vmPool|].
      * destruct Hpool as (zone & disk & Hrun & Hzone). unfold bind.
        rewrite Hrun. exists it. split; [done|]. by exists zone, disk.
      * right. split; [by exists it|]. done.
  - rewrite (buildNodeFromTemplate_unresolved _ _ _ _ _ _ err) by done.
    by left.
Qed.

(** X20. when [buildNodeFromTemplate] returns, it returns a node and no
    error, or an error and no node. The error is the one of the static
    lookup when no instance type is found, and else the one for a template
    with neither a VMSS nor a VMPool part. The node has the name made from
    the group name and the random draw, the self link of that name, the
    ready conditions, and for both capacity and allocatable the one map
    the call has made. *)
Theorem buildNodeFromTemplate_node_or_error nodeGroupName template manager
    enableDynamicInstanceList enableLabelPrediction w :
  match buildNodeFromTemplate nodeGroupName template manager
          enableDynamicInstanceList enableLabelPrediction w with
  | Returned ((Some node, None), w') =>
      (exists instanceType,
          resolvesTo template manager enableDynamicInstanceList instanceType)
      /\ (is_Some (VMSSNodeTemplate' template)
          \/ is_Some (VMPoolNodeTemplate' template))
      /\ V1.Name (V1.Meta node) = nodeNamed nodeGroupName w
      /\ V1.SelfLink (V1.Meta node)
         = "/api/v1/nodes/" +:+ nodeNamed nodeGroupName w
      /\ V1.Conditions (V1.Status node) = BuildReadyConditions
      /\ V1.Capacity (V1.Status node) = Some (length (heap w))
      /\ V1.Allocatable (V1.Status node) = Some (length (heap w))
      /\ length (heap w') = S (length (heap w))
  | Returned ((None, Some err), w') =>
      unresolved template manager enableDynamicInstanceList err
      \/ ((exists instanceType,
              resolvesTo template manager enableDynamicInstanceList
                         instanceType)
          /\ VMSSNodeTemplate' template = None
          /\ VMPoolNodeTemplate' template = None
          /\ err = Errorf
               "invalid node template: missing both VMSS and VMPool templates"
               [])
  | Returned _ => False
  | Panicked => True
  end.
Proof.
  pose proof (buildNodeFromTemplate_runs nodeGroupName template manager
                enableDynamicInstanceList enableLabelPrediction w) as Hruns.
  unfold runs in Hruns.
  destruct (buildNodeFromTemplate _ _ _ _ _ w)
    as [[[[node|] [err|]] w']|]; try done.
  - destruct Hruns as (it & Hit & Hcase). split; [by exists it|].
    destruct (VMSSNodeTemplate' template) as [vmss|].
    + destruct Hcase
        as (_ & zone & disk & labels & resources & taints & _ & _ & _ & _
            & -> & ->).
      split; [by left|]. repeat (split; [reflexivity|]).
      rewrite length_app. simpl. lia.
    + destruct (VMPoolNodeTemplate' template) as [vmPool|]; [|done].
      destruct Hcase as (zone & disk & _ & -> & ->).
      split; [by right|]. repeat (split; [reflexivity|]).
      rewrite length_app. simpl. lia.
  - destruct Hruns as [[Hun _]|((it & Hit & _) & Hv & Hp & ->)];
      [by left|right]. split; [by exists it|done].
Qed.

(** X21. the capacity of the node that [buildNodeFromTemplate] returns
    holds, for a template with a VMSS part, the resources of the tags of
    the scale set, and where they name none, the ephemeral storage of the
    OS disk and the pods, CPU, GPU or FPGA and memory of the instance type;
    for a template with a VMPool part those of the instance type only. *)
Theorem buildNodeFromTemplate_capacity nodeGroupName template manager
    enableDynamicInstanceList enableLabelPrediction w node err w' :
  buildNodeFromTemplate nodeGroupName template manager
    enableDynamicInstanceList enableLabelPrediction w
  = Returned ((Some node, err), w') ->
  exists instanceType,
    resolvesTo template manager enableDynamicInstanceList instanceType
    /\ match VMSSNodeTemplate' template with
       | Some vmss =>
           exists resources,
             resourcesOfTags vmss resources
             /\ capacityOf w' node
                = resources
                  ∪ withEphemeralStorage vmss
                      (baseCapacity template instanceType)
       | None =>
           capacityOf w' node = baseCapacity template instanceType
       end.
Proof.
  intros Hrun.
  pose proof (buildNodeFromTemplate_runs nodeGroupName template manager
                enableDynamicInstanceList enableLabelPrediction w) as Hruns.
  unfold runs in Hruns. rewrite Hrun in Hruns.
  destruct err as [err|]; [done|].
  destruct Hruns as (it & Hit & Hcase).
  assert (Hlast : forall m : gmap string V1.Quantity,
             default ∅ ((heap w ++ [m]) !! length (heap w)) = m).
  { intros m. rewrite lookup_app_r by lia. by rewrite Nat.sub_diag. }
  destruct (VMSSNodeTemplate' template) as [vmss|].
  - destruct Hcase
      as (_ & zone & disk & labels & resources & taints & _ & _ & Hres & _
          & -> & Hheap).
    assert (Hcap :
      capacityOf w' (V1.withConditions
                       (vmssNode template vmss (nodeNamed nodeGroupName w)
                          (freshNode (nodeNamed nodeGroupName w)
                                     (length (heap w)))
                          enableLabelPrediction zone disk labels taints)
                       BuildReadyConditions)
      = resources ∪ withEphemeralStorage vmss (baseCapacity template it)).
    { unfold capacityOf, entries. cbn. rewrite Hheap. apply Hlast. }
    rewrite Hcap. exists it. split; [done|]. by exists resources.
  - destruct (VMPoolNodeTemplate' template) as [vmPool|]; [|done].
    destruct Hcase as (zone & disk & _ & -> & Hheap).
    assert (Hcap :
      capacityOf w' (V1.withConditions
                       (vmPoolNode template vmPool (nodeNamed nodeGroupName w)
                          (freshNode (nodeNamed nodeGroupName w)
                                     (length (heap w)))
                          zone disk)
                       BuildReadyConditions)
      = baseCapacity template it).
    { unfold capacityOf, entries. cbn. rewrite Hheap. apply Hlast. }
    rewrite Hcap. by exists it.
Qed.

(** *** The labels and taints of the node *)

Lemma firstOf_union (a : gmap string string) rest k :
  firstOf (a :: rest) k
  = match a !! k with Some v => Some v | None => firstOf rest k end.
Proof. done. Qed.

Lemma lookup_union_firstOf (a b : gmap string string) rest k :
  (forall k, b !! k = firstOf rest k) ->
  (a ∪ b) !! k = firstOf (a :: rest) k.
Proof.
  intros Hb. rewrite lookup_union, firstOf_union, Hb.
  destruct (a !! k); simpl; [by destruct (firstOf rest k)|].
  by destruct (firstOf rest k).
Qed.

(** X22. the labels of the node that [processVMSSTemplate] returns are taken,
    for every key, from the first of these that has the key: the labels of
    the spec (the input labels, or without any the labels of the tags) with
    the predicted labels written over them when prediction is enabled; the
    generic labels; the tags of the scale set, a nil value counting as the
    empty string; the labels the node had. The taints are those of the
    taints string when there is one and those of the tags otherwise. *)
Theorem processVMSSTemplate_labels_by_precedence template vmss nodeName node
    enableLabelPrediction w node' w' :
  JoinStringMaps_later_wins ->
  VMSSNodeTemplate' template = Some vmss ->
  processVMSSTemplate template nodeName node enableLabelPrediction w
  = Returned (node', w') ->
  exists zone disk labels,
    zoneLabels template zone disk
    /\ labelsOfSpec vmss labels
    /\ taintsOfSpec vmss (V1.Taints (V1.Spec node'))
    /\ forall k,
         V1.Labels (V1.Meta node') !! k
         = firstOf
             [ if enableLabelPrediction
               then predictLabels template vmss
                      (genericWith template nodeName zone disk
                       ∪ ((default "" <$> Tags vmss)
                          ∪ V1.Labels (V1.Meta node)))
                      labels
               else labels;
               genericWith template nodeName zone disk;
               default "" <$> Tags vmss;
               V1.Labels (V1.Meta node) ] k.
Proof.
  intros Hjoin Hvmss Hrun.
  pose proof (wp_returned _ _ _ _ _
                (wp_processVMSSTemplate_node template vmss nodeName node
                   enableLabelPrediction w Hvmss) Hrun)
    as (zone & disk & labels & taints & Hzone & Hlabels & Htaints & ->).
  exists zone, disk, labels. split; [done|]. split; [done|].
  split; [exact Htaints|].
  intros k. unfold vmssNode.
  cbn [V1.Labels V1.Meta V1.withLabels V1.withTaints]. rewrite !Hjoin.
  apply lookup_union_firstOf. intros k1.
  apply lookup_union_firstOf. intros k2.
  apply lookup_union_firstOf. intros k3.
  simpl. by destruct (V1.Labels (V1.Meta node) !! k3).
Qed.

(** X23. [processVMPoolTemplate] panics exactly when the template has no
    VMPool part. Otherwise the node it returns has the taints of the pool,
    and its labels are taken, for every key, from the first of these that
    has the key: the labels of the pool, a nil value counting as the empty
    string; the agent-pool label with the name of the pool; the generic
    labels; the labels the node had. The maps of the heap are as they
    were. *)
Theorem processVMPoolTemplate_labels_by_precedence template nodeName node w :
  JoinStringMaps_later_wins ->
  match VMPoolNodeTemplate' template with
  | Some vmPool =>
      exists zone disk node' w',
        processVMPoolTemplate template nodeName node w
        = Returned (node', w')
        /\ zoneLabels template zone disk
        /\ heap w' = heap w
        /\ V1.Taints (V1.Spec node') = Taints vmPool
        /\ V1.Status node' = V1.Status node
        /\ V1.Name (V1.Meta node') = V1.Name (V1.Meta node)
        /\ forall k,
             V1.Labels (V1.Meta node') !! k
             = firstOf
                 [ toString <$> Labels vmPool;
                   {[ agentPoolNodeLabelKey := AgentPoolName vmPool ]};
                   genericWith template nodeName zone disk;
                   V1.Labels (V1.Meta node) ] k
  | None => processVMPoolTemplate template nodeName node w = Panicked
  end.
Proof.
  intros Hjoin.
  pose proof (processVMPoolTemplate_run template nodeName node w) as Hrun.
  destruct (VMPoolNodeTemplate' template) as [vmPool|]; [|done].
  destruct Hrun as (zone & disk & Hrun & Hzone).
  eexists zone, disk, _, _. split; [exact Hrun|].
  split; [done|]. repeat (split; [reflexivity|]).
  intros k. unfold vmPoolNode.
  cbn [V1.Labels V1.Meta V1.withLabels V1.withTaints]. rewrite Hjoin.
  rewrite insert_union_singleton_l, (assoc_L (∪)), <- (assoc_L (∪)).
  rewrite <- (assoc_L (∪)).
  apply lookup_union_firstOf. intros k1.
  apply lookup_union_firstOf. intros k2.
  apply lookup_union_firstOf. intros k3.
  simpl. by destruct (V1.Labels (V1.Meta node) !! k3).
Qed.

End WithExternals.

Lemma later_map_wins : JoinStringMaps_later_wins (H := Fixtures.externals).
Proof. by intros a b. Qed.

Lemma buildNodeFromTemplate_capacity_witness :
  buildNodeFromTemplate (H := Fixtures.externals) "pool" Runs.taintedTemplate
    None false true (Fixtures.world 7)
  = Returned ((Some Runs.taintedNode, None), Runs.taintedWorld)
  /\ exists instanceType,
       resolvesTo (H := Fixtures.externals) Runs.taintedTemplate None false
                  instanceType
       /\ match VMSSNodeTemplate' Runs.taintedTemplate with
          | Some vmss =>
              exists resources,
                resourcesOfTags (H := Fixtures.externals) vmss resources
                /\ capacityOf Runs.taintedWorld Runs.taintedNode
                   = resources
                     ∪ withEphemeralStorage vmss
                         (baseCapacity (H := Fixtures.externals)
                            Runs.taintedTemplate instanceType)
          | None =>
              capacityOf Runs.taintedWorld Runs.taintedNode
              = baseCapacity (H := Fixtures.externals) Runs.taintedTemplate
                  instanceType
          end.
Proof.
  split; [exact AzureNodeClaims.taintedRun_returns|].
  exact (buildNodeFromTemplate_capacity (H := Fixtures.externals) "pool"
           Runs.taintedTemplate None false true (Fixtures.world 7)
           Runs.taintedNode None Runs.taintedWorld
           AzureNodeClaims.taintedRun_returns).
Defined.

Lemma processVMSSTemplate_labels_by_precedence_witness :
  JoinStringMaps_later_wins (H := Fixtures.externals)
  /\ VMSSNodeTemplate' Runs.taintedTemplate = Some Runs.taintedVMSS
  /\ processVMSSTemplate (H := Fixtures.externals) Runs.taintedTemplate "n"
       Runs.startNode false Runs.startWorld
     = Returned (Runs.processedNode, Runs.processedWorld)
  /\ exists zone disk labels,
       zoneLabels Runs.taintedTemplate zone disk
       /\ labelsOfSpec (H := Fixtures.externals) Runs.taintedVMSS labels
       /\ taintsOfSpec (H := Fixtures.externals) Runs.taintedVMSS
            (V1.Taints (V1.Spec Runs.processedNode))
       /\ forall k,
            V1.Labels (V1.Meta Runs.processedNode) !! k
            = firstOf
                [ labels;
                  genericWith (H := Fixtures.externals) Runs.taintedTemplate
                    "n" zone disk;
                  default "" <$> Tags Runs.taintedVMSS;
                  V1.Labels (V1.Meta Runs.startNode) ] k.
Proof.
  split; [exact later_map_wins|]. split; [reflexivity|].
  split; [exact AzureNodeClaims.processedRun_returns|].
  exact (processVMSSTemplate_labels_by_precedence (H := Fixtures.externals)
           Runs.taintedTemplate Runs.taintedVMSS "n" Runs.startNode false
           Runs.startWorld Runs.processedNode Runs.processedWorld
           later_map_wins eq_refl AzureNodeClaims.processedRun_returns).
Defined.

Lemma processVMPoolTemplate_labels_by_precedence_witness :
  JoinStringMaps_later_wins (H := Fixtures.externals)
  /\ match VMPoolNodeTemplate' TemplateRuns.agentPoolTemplate with
     | Some vmPool =>
         exists zone disk node' w',
           processVMPoolTemplate (H := Fixtures.externals)
             TemplateRuns.agentPoolTemplate "n" Runs.startNode
             Runs.startWorld
           = Returned (node', w')
           /\ zoneLabels TemplateRuns.agentPoolTemplate zone disk
           /\ heap w' = heap Runs.startWorld
           /\ V1.Taints (V1.Spec node') = Taints vmPool
           /\ V1.Status node' = V1.Status Runs.startNode
           /\ V1.Name (V1.Meta node') = V1.Name (V1.Meta Runs.startNode)
           /\ forall k,
                V1.Labels (V1.Meta node') !! k
                = firstOf
                    [ toString <$> Labels vmPool;
                      {[ agentPoolNodeLabelKey := AgentPoolName vmPool ]};
                      genericWith (H := Fixtures.externals)
                        TemplateRuns.agentPoolTemplate "n" zone disk;
                      V1.Labels (V1.Meta Runs.startNode) ] k
     | None =>
         processVMPoolTemplate (H := Fixtures.externals)
           TemplateRuns.agentPoolTemplate "n" Runs.startNode Runs.startWorld
         = Panicked
     end.
Proof.
  split; [exact later_map_wins|].
  exact (processVMPoolTemplate_labels_by_precedence (H := Fixtures.externals)
           TemplateRuns.agentPoolTemplate "n" Runs.startNode Runs.startWorld
           later_map_wins).
Defined.

End AzureBuildFacts.

(** ** From a scale set or an agent pool to the node *)

Module AzureTemplateToNode.

Import Azure AzureVMPool AzureNodeSpec AzureTagSpec AzureBuildSpec
       AzureNodeParts AzureBuildFacts AzureVMPoolFacts AzureTaintStrings.

Section WithExternals.

Context `{Externals}.

Implicit Types w : World V1.Quantity.

(** X24. a template that [buildNodeTemplateFromVMSS] returns without an
    error is one [buildNodeFromTemplate] accepts: the only error left is
    the one of the instance type, and apart from a nil manager under the
    dynamic instance list a panic needs a tag with a nil value. The node has
    the taints of the taints string given when there is one; every tag of
    the scale set is a label of the node; and without label prediction
    every input label is on the node with its value. *)
Theorem buildNodeFromTemplate_of_scale_set vmss inputLabels inputTaints
    template nodeGroupName manager enableDynamicInstanceList
    enableLabelPrediction w :
  JoinStringMaps_later_wins ->
  buildNodeTemplateFromVMSS vmss inputLabels inputTaints = (template, None) ->
  match buildNodeFromTemplate nodeGroupName template manager
          enableDynamicInstanceList enableLabelPrediction w with
  | Panicked =>
      (enableDynamicInstanceList = true /\ manager = None)
      \/ exists tagName, Compute.Tags vmss !! tagName = Some None
  | Returned ((Some node, None), w') =>
      (inputTaints <> "" ->
       V1.Taints (V1.Spec node) = extractTaintsFromSpecString inputTaints)
      /\ (forall tagName,
            is_Some (Compute.Tags vmss !! tagName) ->
            is_Some (V1.Labels (V1.Meta node) !! tagName))
      /\ (enableLabelPrediction = false ->
          forall k v,
            inputLabels !! k = Some v ->
            V1.Labels (V1.Meta node) !! k = Some v)
  | Returned ((None, Some err), w') =>
      unresolved template manager enableDynamicInstanceList err
  | Returned _ => False
  end.
Proof.
  intros Hjoin Hbuilt.
  assert (Hpart :
    VMSSNodeTemplate' template
    = Some {| InputLabels := inputLabels;
              InputTaints := inputTaints;
              OSDisk :=
                match Compute.VirtualMachineProfile vmss with
                | Some profile =>
                    match Compute.StorageProfile profile with
                    | Some storageProfile => Compute.OsDisk storageProfile
                    | None => None
                    end
                | None => None
                end;
              Tags := Compute.Tags vmss |}).
  { unfold buildNodeTemplateFromVMSS in Hbuilt.
    destruct (Compute.Sku_ vmss ≫= Compute.Name); [|done].
    destruct (Compute.Location vmss); [|done].
    by inversion Hbuilt. }
  pose proof (buildNodeFromTemplate_runs nodeGroupName template manager
                enableDynamicInstanceList enableLabelPrediction w) as Hruns.
  unfold runs in Hruns.
  destruct (buildNodeFromTemplate _ _ _ _ _ w)
    as [[[[node|] [err|]] w']|]; try done.
  - destruct Hruns as (it & Hit & Hcase). rewrite Hpart in Hcase.
    destruct Hcase
      as (_ & zone & disk & labels & resources & taints & _ & Hlabels & _
          & Htaints & -> & _).
    unfold vmssNode.
    cbn [V1.Labels V1.Meta V1.Taints V1.Spec V1.withLabels V1.withTaints
         V1.withConditions freshNode Tags].
    rewrite !Hjoin. split; [|split].
    + intros Hne. unfold taintsOfSpec in Htaints. cbn [InputTaints] in Htaints.
      destruct (String.eqb inputTaints "") eqn:He; [|done].
      by apply String.eqb_eq in He.
    + intros tagName [v Hv]. rewrite !lookup_union, lookup_fmap, Hv.
      cbn [fmap option_fmap option_map].
      match goal with
      | |- is_Some (?a ∪ (?b ∪ (Some ?x ∪ ?c))) =>
          destruct a, b, c; by eauto
      end.
    + intros -> k v Hkv. unfold labelsOfSpec in Hlabels.
      cbn [InputLabels] in Hlabels.
      assert (Hsize : (0 <? size inputLabels)%nat = true).
      { apply Nat.ltb_lt. destruct (decide (size inputLabels = 0%nat)) as [Hz|];
          [|lia].
        apply map_size_empty_inv in Hz. subst inputLabels.
        by rewrite lookup_empty in Hkv. }
      rewrite Hsize in Hlabels. subst labels.
      rewrite lookup_union, Hkv. by apply union_Some_l.
  - destruct Hruns as [[Hun _]|(_ & Hv & _)]; [done|congruence].
  - destruct Hruns as [Hnil|(_ & vmssT & Hv & tagName & Htag & _)];
      [by left|right].
    rewrite Hpart in Hv. inversion Hv; subst vmssT. by exists tagName.
Qed.

(** X25. a template that [buildNodeTemplateFromVMPool] returns without an
    error is one [buildNodeFromTemplate] accepts: the only error left is
    the one of the instance type, and the only panic the one of a nil
    manager under the dynamic instance list. No taint is on the node twice,
    and its labels are taken, for every key, from the first of these that
    has the key: the labels of the spec; the labels of the pool, a nil value
    counting as the empty string; the agent-pool label with the name of the
    pool; the generic labels. *)
Theorem buildNodeFromTemplate_of_agent_pool vmsPool location skuName
    labelsFromSpec taintsFromSpec w template w1 nodeGroupName manager
    enableDynamicInstanceList enableLabelPrediction :
  JoinStringMaps_later_wins ->
  buildNodeTemplateFromVMPool vmsPool location skuName labelsFromSpec
    taintsFromSpec w
  = Returned ((template, None), w1) ->
  match buildNodeFromTemplate nodeGroupName template manager
          enableDynamicInstanceList enableLabelPrediction w1 with
  | Panicked => enableDynamicInstanceList = true /\ manager = None
  | Returned ((Some node, None), w2) =>
      exists properties zone disk,
        ContainerService.Properties vmsPool = Some properties
        /\ zoneLabels template zone disk
        /\ NoDup (V1.Taints (V1.Spec node))
        /\ forall k,
             V1.Labels (V1.Meta node) !! k
             = firstOf
                 [ labelsFromSpec;
                   toString <$> ContainerService.NodeLabels properties;
                   {[ agentPoolNodeLabelKey
                        := toString (ContainerService.Name vmsPool) ]};
                   genericWith template (nodeNamed nodeGroupName w1) zone
                               disk ] k
  | Returned ((None, Some err), w2) =>
      unresolved template manager enableDynamicInstanceList err
  | Returned _ => False
  end.
Proof.
  intros Hjoin Hbuilt.
  destruct (ContainerService.Properties vmsPool) as [properties|] eqn:Hp.
  2:{ unfold buildNodeTemplateFromVMPool in Hbuilt. by rewrite Hp in Hbuilt. }
  rewrite (buildNodeTemplateFromVMPool_run _ properties) in Hbuilt by done.
  injection Hbuilt as Htemplate Hw1.
  pose proof (buildNodeFromTemplate_runs nodeGroupName template manager
                enableDynamicInstanceList enableLabelPrediction w1) as Hruns.
  unfold runs in Hruns.
  assert (Hvmss : VMSSNodeTemplate' template = None) by by subst template.
  destruct (VMPoolNodeTemplate' template) as [vmPool|] eqn:Hpool;
    [|by subst template].
  assert (Htaints : NoDup (Taints vmPool)).
  { subst template. inversion Hpool; subst vmPool.
    apply extractTaintsFromSpecString_NoDup. }
  assert (Hlabels :
    toString <$> Labels vmPool
    = labelsFromSpec
      ∪ (toString <$> ContainerService.NodeLabels properties)).
  { subst template. inversion Hpool; subst vmPool. cbn [Labels].
    rewrite map_fmap_union, <- map_fmap_compose.
    f_equal. apply map_eq. intros k. rewrite lookup_fmap.
    by destruct (labelsFromSpec !! k). }
  assert (Hname :
    AgentPoolName vmPool = toString (ContainerService.Name vmsPool)).
  { subst template. by inversion Hpool. }
  rewrite Hvmss in Hruns.
  destruct (buildNodeFromTemplate _ _ _ _ _ w1)
    as [[[[node|] [err|]] w2]|]; try done.
  - destruct Hruns as (it & Hit & zone & disk & Hzone & -> & _).
    cbv beta iota. exists properties, zone, disk.
    split; [done|]. split; [done|]. unfold vmPoolNode.
    cbn [V1.Labels V1.Meta V1.Taints V1.Spec V1.withLabels V1.withTaints
         V1.withConditions freshNode].
    split; [done|]. intros k. rewrite Hjoin, Hlabels, Hname.
    rewrite insert_union_singleton_l, (right_id_L ∅ (∪)).
    rewrite <- !(assoc_L (∪)).
    apply lookup_union_firstOf. intros k1.
    apply lookup_union_firstOf. intros k2.
    apply lookup_union_firstOf. intros k3.
    simpl. by destruct (genericWith _ _ _ _ !! k3).
  - destruct Hruns as [[Hun _]|(_ & _ & [=] & _)]. done.
  - destruct Hruns as [Hnil|(_ & vmss & [=] & _)]. done.
Qed.

End WithExternals.

Lemma scaleSet_template :
  buildNodeTemplateFromVMSS (H := Fixtures.externals) TemplateRuns.scaleSet
    TemplateRuns.specLabels "dedicated=foo:NoSchedule"
  = (TemplateRuns.scaleSetTemplate, None).
Proof. reflexivity. Qed.

Lemma agentPool_template :
  buildNodeTemplateFromVMPool TemplateRuns.agentPool "WestEurope"
    "Standard_D2_v2" TemplateRuns.specLabels "gpu=true:NoExecute"
    (Fixtures.world 7)
  = Returned ((TemplateRuns.agentPoolTemplate, None),
              TemplateRuns.agentPoolWorld).
Proof. reflexivity. Qed.

Lemma buildNodeFromTemplate_of_scale_set_witness :
  JoinStringMaps_later_wins (H := Fixtures.externals)
  /\ buildNodeTemplateFromVMSS (H := Fixtures.externals)
       TemplateRuns.scaleSet TemplateRuns.specLabels
       "dedicated=foo:NoSchedule"
     = (TemplateRuns.scaleSetTemplate, None)
  /\ match buildNodeFromTemplate (H := Fixtures.externals) "pool"
             TemplateRuns.scaleSetTemplate None false false
             (Fixtures.world 7) with
     | Panicked =>
         (false = true /\ None = None :> option (@AzureManager Fixtures.externals))
         \/ exists tagName,
              Compute.Tags TemplateRuns.scaleSet !! tagName = Some None
     | Returned ((Some node, None), w') =>
         ("dedicated=foo:NoSchedule" <> "" ->
          V1.Taints (V1.Spec node)
          = extractTaintsFromSpecString "dedicated=foo:NoSchedule")
         /\ (forall tagName,
               is_Some (Compute.Tags TemplateRuns.scaleSet !! tagName) ->
               is_Some (V1.Labels (V1.Meta node) !! tagName))
         /\ (false = false ->
             forall k v,
               TemplateRuns.specLabels !! k = Some v ->
               V1.Labels (V1.Meta node) !! k = Some v)
     | Returned ((None, Some err), w') =>
         unresolved (H := Fixtures.externals) TemplateRuns.scaleSetTemplate
                    None false err
     | Returned _ => False
     end.
Proof.
  split; [exact later_map_wins|]. split; [exact scaleSet_template|].
  exact (buildNodeFromTemplate_of_scale_set (H := Fixtures.externals)
           TemplateRuns.scaleSet TemplateRuns.specLabels
           "dedicated=foo:NoSchedule" TemplateRuns.scaleSetTemplate "pool"
           None false false (Fixtures.world 7) later_map_wins
           scaleSet_template).
Defined.

Lemma buildNodeFromTemplate_of_agent_pool_witness :
  JoinStringMaps_later_wins (H := Fixtures.externals)
  /\ buildNodeTemplateFromVMPool TemplateRuns.agentPool "WestEurope"
       "Standard_D2_v2" TemplateRuns.specLabels "gpu=true:NoExecute"
       (Fixtures.world 7)
     = Returned ((TemplateRuns.agentPoolTemplate, None),
                 TemplateRuns.agentPoolWorld)
  /\ match buildNodeFromTemplate (H := Fixtures.externals) "pool"
             TemplateRuns.agentPoolTemplate None false false
             TemplateRuns.agentPoolWorld with
     | Panicked => false = true /\ None = None :> option (@AzureManager Fixtures.externals)
     | Returned ((Some node, None), w2) =>
         exists properties zone disk,
           ContainerService.Properties TemplateRuns.agentPool
           = Some properties
           /\ zoneLabels TemplateRuns.agentPoolTemplate zone disk
           /\ NoDup (V1.Taints (V1.Spec node))
           /\ forall k,
                V1.Labels (V1.Meta node) !! k
                = firstOf
                    [ TemplateRuns.specLabels;
                      toString <$> ContainerService.NodeLabels properties;
                      {[ agentPoolNodeLabelKey
                           := toString
                                (ContainerService.Name
                                   TemplateRuns.agentPool) ]};
                      genericWith (H := Fixtures.externals)
                        TemplateRuns.agentPoolTemplate
                        (nodeNamed "pool" TemplateRuns.agentPoolWorld) zone
                        disk ] k
     | Returned ((None, Some err), w2) =>
         unresolved (H := Fixtures.externals) TemplateRuns.agentPoolTemplate
                    None false err
     | Returned _ => False
     end.
Proof.
  split; [exact later_map_wins|]. split; [exact agentPool_template|].
  exact (buildNodeFromTemplate_of_agent_pool (H := Fixtures.externals)
           TemplateRuns.agentPool "WestEurope" "Standard_D2_v2"
           TemplateRuns.specLabels "gpu=true:NoExecute" (Fixtures.world 7)
           TemplateRuns.agentPoolTemplate TemplateRuns.agentPoolWorld "pool"
           None false false later_map_wins agentPool_template).
Defined.

End AzureTemplateToNode.
